(** * Reminder: the recurrence generator and the notification queue

    A shallow embedding of [src/scheduler.ts] and of the parts of the
    ECMAScript [Number], [Math] and [Date] built-ins that it calls.

    - A [Date] holds a time value: milliseconds on the local wall clock,
      an integer ([Z]).  The local time zone is taken at a fixed offset from
      UTC, so the offset cancels out of every comparison and difference the
      scheduler makes and the time value is kept in local milliseconds.
      Time values are not bounded (the +-8.64e15 limit of [TimeClip] is not
      reached by the inputs considered).  An Invalid Date is [None].
    - A number is a finite rational or one of NaN, +Infinity, -Infinity;
      arithmetic on finite values is exact, where the code rounds to
      doubles: the two agree on whole numbers of minutes and of
      milliseconds (see [addMinutes]).
    - A [while] loop runs on a step budget ([nat]); [None] means that the
      budget ran out.  The top-level functions pick the budget from their
      inputs and are proved never to run out. *)

From Stdlib Require Import String.
From Stdlib Require Import ZArith QArith Qround List Bool Lia.
From Stdlib Require Import Sorting.Sorted Sorting.Permutation.
Import ListNotations.

Local Open Scope Z_scope.

(* ===================================================================== *)
(** ** Numbers *)

Module JsNum.

(** A JavaScript number. *)
Inductive num : Type :=
| Fin (q : Q)
| NaN
| PosInf
| NegInf.

(** [Number.isFinite]. *)
Definition isFinite (v : num) : bool :=
  match v with Fin _ => true | _ => false end.

(** Embedding of an integer. *)
Definition ofZ (z : Z) : num := Fin (inject_Z z).

(** [Math.floor] on a finite value. *)
Definition floor (q : Q) : Z := Qfloor q.

(** [Math.round] on a finite value: halves go up. *)
Definition round (q : Q) : Z := Qfloor (q + (1 # 2)).

(** [ToIntegerOrInfinity] on a finite value: truncation toward zero. *)
Definition trunc (q : Q) : Z := Z.quot (Qnum q) (Zpos (Qden q)).

(** [Math.max] and [Math.min] on finite values. *)
Definition max (a b : Q) : Q := if Qle_bool a b then b else a.
Definition min (a b : Q) : Q := if Qle_bool a b then a else b.

(** The [%] operator on finite values with a non-zero divisor: the result
    takes the sign of the dividend. *)
Definition rem (a b : Q) : Q := a - b * inject_Z (trunc (a / b)).

End JsNum.

Import JsNum.

(* ===================================================================== *)
(** ** Dates *)

Module JsDate.

Definition msPerMinute : Z := 60000.
Definition msPerHour : Z := 3600000.
Definition msPerDay : Z := 86400000.

(** Day number and time within the day of a time value. *)
Definition Day (t : Z) : Z := t / msPerDay.
Definition TimeWithinDay (t : Z) : Z := t mod msPerDay.

(** Days since the epoch of a date of the proleptic Gregorian calendar,
    month [m] in 1..12. *)
Definition days_from_civil (y m d : Z) : Z :=
  let y' := if m <=? 2 then y - 1 else y in
  let era := y' / 400 in
  let yoe := y' - era * 400 in
  let mp := if 2 <? m then m - 3 else m + 9 in
  let doy := (153 * mp + 2) / 5 + d - 1 in
  let doe := yoe * 365 + yoe / 4 - yoe / 100 + doy in
  era * 146097 + doe - 719468.

(** Year, month (1..12) and day of the month of a day number. *)
Definition civil_from_days (z : Z) : Z * Z * Z :=
  let z' := z + 719468 in
  let era := z' / 146097 in
  let doe := z' - era * 146097 in
  let yoe := (doe - doe / 1460 + doe / 36524 - doe / 146096) / 365 in
  let y := yoe + era * 400 in
  let doy := doe - (365 * yoe + yoe / 4 - yoe / 100) in
  let mp := (5 * doy + 2) / 153 in
  let d := doy - (153 * mp + 2) / 5 + 1 in
  let m := if mp <? 10 then mp + 3 else mp - 9 in
  (if m <=? 2 then y + 1 else y, m, d).

Definition YearFromTime (t : Z) : Z := fst (fst (civil_from_days (Day t))).
(** Month index, 0 = January. *)
Definition MonthFromTime (t : Z) : Z := snd (fst (civil_from_days (Day t))) - 1.
Definition DateFromTime (t : Z) : Z := snd (civil_from_days (Day t)).
(** 0 = Sunday; the epoch was a Thursday. *)
Definition WeekDay (t : Z) : Z := (Day t + 4) mod 7.
Definition HourFromTime (t : Z) : Z := (t / msPerHour) mod 24.
Definition MinFromTime (t : Z) : Z := (t / msPerMinute) mod 60.
Definition SecFromTime (t : Z) : Z := (t / 1000) mod 60.
Definition msFromTime (t : Z) : Z := t mod 1000.

(** [MakeDay]: months outside 0..11 carry into the year, the day of the
    month is an offset from the first of that month. *)
Definition MakeDay (year month date : Z) : Z :=
  let ym := year + month / 12 in
  let mn := month mod 12 in
  days_from_civil ym (mn + 1) 1 + date - 1.

Definition MakeTime (hour min sec ms : Z) : Z :=
  hour * msPerHour + min * msPerMinute + sec * 1000 + ms.

Definition MakeDate (day time : Z) : Z := day * msPerDay + time.

(** [TimeClip] of a finite value. *)
Definition TimeClip (q : Q) : Z := trunc q.

(** [new Date(value)] for a finite number. *)
Definition ofNumber (q : Q) : Z := TimeClip q.

(** [new Date(year, monthIndex, day)]: years 0..99 mean 1900..1999. *)
Definition ofYMD (year month day : Z) : Z :=
  let yr := if (0 <=? year) && (year <=? 99) then 1900 + year else year in
  MakeDate (MakeDay yr month day) (MakeTime 0 0 0 0).

Definition getTime (t : Z) : Z := t.
Definition getFullYear (t : Z) : Z := YearFromTime t.
Definition getMonth (t : Z) : Z := MonthFromTime t.
Definition getDate (t : Z) : Z := DateFromTime t.
Definition getDay (t : Z) : Z := WeekDay t.
Definition getHours (t : Z) : Z := HourFromTime t.
Definition getMinutes (t : Z) : Z := MinFromTime t.

(** [setHours(0, 0, 0, 0)]. *)
Definition setHours0 (t : Z) : Z := MakeDate (Day t) (MakeTime 0 0 0 0).

(** [setMinutes(m)] for an integer [m]. *)
Definition setMinutes (t : Z) (m : Z) : Z :=
  MakeDate (Day t) (MakeTime (HourFromTime t) m (SecFromTime t) (msFromTime t)).

(** [setSeconds(0, 0)]. *)
Definition setSeconds0 (t : Z) : Z :=
  MakeDate (Day t) (MakeTime (HourFromTime t) (MinFromTime t) 0 0).

(** [setDate(d)]. *)
Definition setDate (t : Z) (d : Z) : Z :=
  MakeDate (MakeDay (YearFromTime t) (MonthFromTime t) d) (TimeWithinDay t).

(** [setMonth(m)]. *)
Definition setMonth (t : Z) (m : Z) : Z :=
  MakeDate (MakeDay (YearFromTime t) m (DateFromTime t)) (TimeWithinDay t).

End JsDate.

Import JsDate.

(* ===================================================================== *)
(** ** The scheduler ([src/scheduler.ts]) *)

Module Scheduler.

(** Modelled from the spec: the [ScheduleType] declaration that
    [scheduler.ts] imports from [./storage] is not in the sources; these are
    the four kinds the spec lists and the dispatcher compares against. *)
Inductive ScheduleType : Type := withinDay | daily | weekly | monthly.

Record ScheduleRule : Type := {
  id : string;
  type : ScheduleType;
  intervalMinutes : num;
  startMinutesFromMidnight : num;
  endMinutesFromMidnight : num;
  message : string;
  daysOfWeek : option (list bool);
  dayOfMonth : option num
}.

Module Notification.
Record ScheduledNotification : Type := {
  scheduleId : string;
  date : Z;
  message : string
}.
End Notification.

Definition MIN_INTERVAL : Q := 5.
Definition MAX_INTERVAL : Q := 180.
Definition DEFAULT_DAYS : list bool := [true; true; true; true; true; true; true].
Definition DEFAULT_DAY_OF_MONTH : Z := 1.

(** [value ?? dflt]. *)
Definition orDefault (value : option Z) (dflt : Z) : Z :=
  match value with Some v => v | None => dflt end.

Definition normalizeDaysOfWeek (value : option (list bool)) : list bool :=
  match value with
  | Some l => if negb (Nat.eqb (length l) 7) then DEFAULT_DAYS else map (fun entry => entry) l
  | None => DEFAULT_DAYS
  end.

Definition isDayActive (date : Z) (daysOfWeek : list bool) : bool :=
  let day := getDay date in
  let index := if day =? 0 then 6 else day - 1 in
  nth (Z.to_nat index) daysOfWeek false.

Definition normalizeDayOfMonth (value : option num) : Z :=
  match value with
  | Some (Fin q) =>
      let normalized := round q in
      if normalized <? 1 then 1
      else if 31 <? normalized then 31
      else normalized
  | _ => DEFAULT_DAY_OF_MONTH
  end.

Definition normalizeMinutes (value : num) : Z :=
  match value with
  | Fin q =>
      let normalized := Z.rem (floor q) (24 * 60) in
      if normalized <? 0 then normalized + 24 * 60 else normalized
  | _ => 0
  end.

Definition clamp (value : num) (min max : Q) : Q :=
  match value with
  | Fin q => JsNum.min max (JsNum.max min q)
  | _ => min
  end.

Definition startOfDay (date : Z) : Z := setHours0 date.

(** [dateAtMinutes] at an integer number of minutes (the calls of the
    within-day generator, whose minutes come from [normalizeMinutes]). *)
Definition dateAtMinutes (date : Z) (minutes : Z) : Z :=
  setMinutes (startOfDay date) minutes.

(** [dateAtMinutes] at a number as the caller supplied it: [setMinutes]
    truncates a finite argument and yields an Invalid Date otherwise. *)
Definition dateAtMinutesRaw (date : Z) (minutes : num) : option Z :=
  match minutes with
  | Fin q => Some (dateAtMinutes date (trunc q))
  | _ => None
  end.

(** [new Date(date.getTime() + minutes * 60 * 1000)], the product and the
    sum taken exactly and the result cut to a whole millisecond.  This is
    the instant of the code whenever [minutes * 60 * 1000] is a whole number
    of milliseconds, as it is for every whole number of minutes.  For other
    fractions of a minute the code rounds the product and the sum to doubles
    first, and its instant can lie a millisecond from this one; what is
    proved below of such intervals is proved of this definition. *)
Definition addMinutes (date : Z) (minutes : Q) : Z :=
  ofNumber (inject_Z (getTime date) + minutes * 60 * 1000).

Definition minutesSinceMidnight (date : Z) : Z :=
  getHours date * 60 + getMinutes date.

Definition isWithinWindow (date : Z) (startMinutes endMinutes : Z) (spansMidnight : bool) : bool :=
  let timeMinutes := minutesSinceMidnight date in
  if negb spansMidnight then
    (startMinutes <=? timeMinutes) && (timeMinutes <? endMinutes)
  else
    (startMinutes <=? timeMinutes) || (timeMinutes <? endMinutes).

Definition addDays (date : Z) (days : Z) : Z :=
  setDate date (getDate date + days).

Definition addMonths (date : Z) (months : Z) : Z :=
  setMonth date (getMonth date + months).

Definition getDaysInMonth (year monthIndex : Z) : Z :=
  getDate (ofYMD year (monthIndex + 1) 0).

Definition nextWindowStart (date : Z) (startMinutes endMinutes : Z) (spansMidnight : bool) : Z :=
  let timeMinutes := minutesSinceMidnight date in
  let todayStart := dateAtMinutes date startMinutes in
  if negb spansMidnight then
    if timeMinutes <? startMinutes then todayStart else addDays todayStart 1
  else if (endMinutes <=? timeMinutes) && (timeMinutes <? startMinutes) then todayStart
  else addDays todayStart 1.

Record Window : Type := { w_start : Z; w_end : Z }.

Definition windowFor (date : Z) (startMinutes endMinutes : Z) (spansMidnight : bool) : Window :=
  let timeMinutes := minutesSinceMidnight date in
  let todayStart := dateAtMinutes date startMinutes in
  if negb spansMidnight then
    {| w_start := todayStart; w_end := dateAtMinutes date endMinutes |}
  else if startMinutes <=? timeMinutes then
    {| w_start := todayStart; w_end := dateAtMinutes (addDays todayStart 1) endMinutes |}
  else
    {| w_start := dateAtMinutes (addDays todayStart (-1)) startMinutes;
       w_end := dateAtMinutes date endMinutes |}.

Definition alignToInterval (windowStart cursor : Z) (intervalMinutes : Q) : Z :=
  let diffMinutes := Z.max 0 ((getTime cursor - getTime windowStart) / 60000) in
  let remainder := rem (inject_Z diffMinutes) intervalMinutes in
  let delta := if Qeq_bool remainder 0 then 0%Q else (intervalMinutes - remainder)%Q in
  addMinutes cursor delta.

(** [new Date(now.getTime() + horizonHours * 60 * 60 * 1000)]. *)
Definition horizonOf (now horizonHours : Z) : Z :=
  getTime now + horizonHours * 60 * 60 * 1000.

(** Step budget of the loops between [now] and [horizon]: every loop of the
    scheduler moves its cursor by a minute at least. *)
Definition budget (now horizon : Z) : nat :=
  S (S (Z.to_nat ((horizon - now) / msPerMinute))).

Definition count (results : list Z) : Z := Z.of_nat (length results).

Section Loops.

Variables (now horizon maxCount : Z).

(** The loop of [generateFallbackDates]. *)
Fixpoint fallbackLoop (intervalMinutes : Q) (startMinutes endMinutes : Z)
    (daysOfWeek : list bool) (fuel : nat) (results : list Z) (cursor : Z)
    : option (list Z) :=
  if (count results <? maxCount) && (cursor <=? horizon) then
    match fuel with
    | O => None
    | S fuel' =>
        let allDay := startMinutes =? endMinutes in
        let spansMidnight := endMinutes <? startMinutes in
        let results' :=
          if (allDay || isWithinWindow cursor startMinutes endMinutes spansMidnight)
             && isDayActive cursor daysOfWeek
          then results ++ [cursor] else results in
        fallbackLoop intervalMinutes startMinutes endMinutes daysOfWeek fuel' results'
          (addMinutes cursor intervalMinutes)
    end
  else Some results.

(** The inner loop of [generateFireDates] over one window. *)
Fixpoint windowLoop (interval : Q) (activeDays : list bool) (windowEnd : Z)
    (fuel : nat) (results : list Z) (candidate : Z) : option (list Z) :=
  if (candidate <? windowEnd) && (candidate <=? horizon) && (count results <? maxCount) then
    match fuel with
    | O => None
    | S fuel' =>
        let results' :=
          if (now <? candidate) && isDayActive candidate activeDays
          then results ++ [candidate] else results in
        windowLoop interval activeDays windowEnd fuel' results' (addMinutes candidate interval)
    end
  else Some results.

(** The outer loop of [generateFireDates].  [jump] is the cursor after the
    block [if (!isWithinWindow(...))], or [None] where that block breaks out
    of the loop; the inner loop runs on the budget that is left. *)
Fixpoint fireLoop (interval : Q) (startMinutes endMinutes : Z) (activeDays : list bool)
    (fuel : nat) (results : list Z) (cursor : Z) : option (list Z) :=
  if (count results <? maxCount) && (cursor <=? horizon) then
    match fuel with
    | O => None
    | S fuel' =>
        let allDay := startMinutes =? endMinutes in
        let spansMidnight := endMinutes <? startMinutes in
        if allDay then
          let windowStart := startOfDay cursor in
          let candidate := alignToInterval windowStart cursor interval in
          let candidate := if candidate <=? now then addMinutes candidate interval else candidate in
          if horizon <? candidate then Some results
          else
            let results' :=
              if isDayActive candidate activeDays then results ++ [candidate] else results in
            fireLoop interval startMinutes endMinutes activeDays fuel' results'
              (addMinutes candidate interval)
        else
          let jump :=
            if negb (isWithinWindow cursor startMinutes endMinutes spansMidnight) then
              let nextStart := nextWindowStart cursor startMinutes endMinutes spansMidnight in
              if horizon <? nextStart then None else Some nextStart
            else Some cursor in
          match jump with
          | None => Some results
          | Some cursor =>
              let window := windowFor cursor startMinutes endMinutes spansMidnight in
              let candidate := alignToInterval (w_start window) cursor interval in
              match windowLoop interval activeDays (w_end window) (S fuel') results candidate with
              | None => None
              | Some results' =>
                  fireLoop interval startMinutes endMinutes activeDays fuel' results'
                    (addMinutes (w_end window) 1)
              end
          end
    end
  else Some results.

(** Date comparisons against a candidate that may be an Invalid Date. *)
Definition inRange (candidate : option Z) : bool :=
  match candidate with
  | Some c => (now <? c) && (c <=? horizon)
  | None => false
  end.

Definition push (results : list Z) (candidate : option Z) : list Z :=
  match candidate with
  | Some c => results ++ [c]
  | None => results
  end.

(** The loop of [generateFixedTimeDates]. *)
Fixpoint fixedLoop (timeMinutes : num) (activeDays : list bool)
    (fuel : nat) (results : list Z) (cursor : Z) : option (list Z) :=
  if (count results <? maxCount) && (cursor <=? horizon) then
    match fuel with
    | O => None
    | S fuel' =>
        let candidate := dateAtMinutesRaw cursor timeMinutes in
        let results' :=
          if inRange candidate
             && match candidate with Some c => isDayActive c activeDays | None => false end
          then push results candidate else results in
        fixedLoop timeMinutes activeDays fuel' results' (addDays cursor 1)
    end
  else Some results.

(** The loop of [generateMonthlyDates]. *)
Fixpoint monthlyLoop (timeMinutes : num) (dayOfMonth : Z)
    (fuel : nat) (results : list Z) (cursor : Z) : option (list Z) :=
  if (count results <? maxCount) && (cursor <=? horizon) then
    match fuel with
    | O => None
    | S fuel' =>
        let year := getFullYear cursor in
        let month := getMonth cursor in
        let daysInThisMonth := getDaysInMonth year month in
        let clampedDay := Z.min dayOfMonth daysInThisMonth in
        let candidate := dateAtMinutesRaw (ofYMD year month clampedDay) timeMinutes in
        let results' := if inRange candidate then push results candidate else results in
        monthlyLoop timeMinutes dayOfMonth fuel' results' (addMonths cursor 1)
    end
  else Some results.

End Loops.

Definition generateFallbackDates (now : Z) (intervalMinutes : Q) (startMinutes endMinutes : Z)
    (daysOfWeek : list bool) (maxCount horizonHours : Z) : option (list Z) :=
  let horizon := horizonOf now horizonHours in
  let cursor := addMinutes now intervalMinutes in
  let cursor := setSeconds0 cursor in
  fallbackLoop horizon maxCount intervalMinutes startMinutes endMinutes daysOfWeek
    (budget now horizon) [] cursor.

(** Which return statement of [generateFireDates] produced the result. *)
Inductive Strategy : Type := ShortCircuit | Primary | Fallback.

(** The window-based search of [generateFireDates]: its [while] loop, from
    the normalised inputs. *)
Definition primarySearch (now : Z) (interval : Q) (startMinutes endMinutes : Z)
    (activeDays : list bool) (maxCount horizonHours : Z) : option (list Z) :=
  let horizon := horizonOf now horizonHours in
  fireLoop now horizon maxCount interval startMinutes endMinutes activeDays
    (budget now horizon) [] now.

(** [generateFireDates], with the return statement taken. *)
Definition generateFireDatesVia (now : Z) (intervalMinutes startMinutesFromMidnight
    endMinutesFromMidnight : num) (daysOfWeek : option (list bool))
    (maxCount horizonHours : option Z) : option (Strategy * list Z) :=
  let interval := clamp intervalMinutes MIN_INTERVAL MAX_INTERVAL in
  let startMinutes := normalizeMinutes startMinutesFromMidnight in
  let endMinutes := normalizeMinutes endMinutesFromMidnight in
  let maxCount := orDefault maxCount 50 in
  let horizonHours := orDefault horizonHours 24 in
  let activeDays := normalizeDaysOfWeek daysOfWeek in
  if negb (existsb (fun b => b) activeDays) then Some (ShortCircuit, [])
  else
    match primarySearch now interval startMinutes endMinutes activeDays maxCount horizonHours with
    | None => None
    | Some results =>
        if Nat.eqb (length results) 0 then
          match generateFallbackDates now interval startMinutes endMinutes activeDays
                  maxCount horizonHours with
          | None => None
          | Some fallback => Some (Fallback, fallback)
          end
        else Some (Primary, results)
    end.

Definition generateFireDates (now : Z) (intervalMinutes startMinutesFromMidnight
    endMinutesFromMidnight : num) (daysOfWeek : option (list bool))
    (maxCount horizonHours : option Z) : option (list Z) :=
  option_map snd
    (generateFireDatesVia now intervalMinutes startMinutesFromMidnight
       endMinutesFromMidnight daysOfWeek maxCount horizonHours).

Definition generateFixedTimeDates (now : Z) (timeMinutes : num)
    (daysOfWeek : option (list bool)) (maxCount horizonHours : option Z) : option (list Z) :=
  let maxCount := orDefault maxCount 50 in
  let horizonHours := orDefault horizonHours 24 in
  let horizon := horizonOf now horizonHours in
  let activeDays := normalizeDaysOfWeek daysOfWeek in
  if negb (existsb (fun b => b) activeDays) then Some []
  else fixedLoop now horizon maxCount timeMinutes activeDays (budget now horizon) []
         (startOfDay now).

Definition generateMonthlyDates (now : Z) (timeMinutes : num) (dayOfMonth : num)
    (maxCount horizonHours : option Z) : option (list Z) :=
  let maxCount := orDefault maxCount 50 in
  let horizonHours := orDefault horizonHours 24 in
  let horizon := horizonOf now horizonHours in
  let dayOfMonth := normalizeDayOfMonth (Some dayOfMonth) in
  monthlyLoop now horizon maxCount timeMinutes dayOfMonth (budget now horizon) []
    (ofYMD (getFullYear now) (getMonth now) 1).

(** The per-rule dispatch of [buildNotificationQueue]. *)
Definition datesFor (schedule : ScheduleRule) (now maxCount horizonHours : Z)
    : option (list Z) :=
  match type schedule with
  | withinDay =>
      generateFireDates now (intervalMinutes schedule) (startMinutesFromMidnight schedule)
        (endMinutesFromMidnight schedule) (daysOfWeek schedule)
        (Some maxCount) (Some horizonHours)
  | daily | weekly =>
      generateFixedTimeDates now (startMinutesFromMidnight schedule) (daysOfWeek schedule)
        (Some maxCount) (Some horizonHours)
  | monthly =>
      generateMonthlyDates now (startMinutesFromMidnight schedule)
        (ofZ (normalizeDayOfMonth (dayOfMonth schedule)))
        (Some maxCount) (Some horizonHours)
  end.

Definition tag (schedule : ScheduleRule) (d : Z) : Notification.ScheduledNotification :=
  {| Notification.scheduleId := id schedule;
     Notification.date := d;
     Notification.message := message schedule |}.

(** The [for ... of input.schedules] loop, pushing onto [combined]. *)
Fixpoint collect (schedules : list ScheduleRule) (now maxCount horizonHours : Z)
    (combined : list Notification.ScheduledNotification) : option (list Notification.ScheduledNotification) :=
  match schedules with
  | [] => Some combined
  | schedule :: rest =>
      match datesFor schedule now maxCount horizonHours with
      | None => None
      | Some dates => collect rest now maxCount horizonHours (combined ++ map (tag schedule) dates)
      end
  end.

(** The comparator [(a, b) => a.date.getTime() - b.date.getTime()]. *)
Definition byDate (a b : Notification.ScheduledNotification) : Z := getTime (Notification.date a) - getTime (Notification.date b).

(** [Array.prototype.sort] with a comparator.  The language requires the
    sort to be stable, which fixes its result for a consistent comparator;
    it is computed here by insertion. *)
Fixpoint insert {A : Type} (cmp : A -> A -> Z) (x : A) (l : list A) : list A :=
  match l with
  | [] => [x]
  | y :: l' => if cmp x y <=? 0 then x :: y :: l' else y :: insert cmp x l'
  end.

Fixpoint sort {A : Type} (cmp : A -> A -> Z) (l : list A) : list A :=
  match l with
  | [] => []
  | x :: l' => insert cmp x (sort cmp l')
  end.

(** [Array.prototype.slice(0, e)]: a negative [e] counts from the end. *)
Definition slice0 {A : Type} (l : list A) (e : Z) : list A :=
  let len := Z.of_nat (length l) in
  let final := if e <? 0 then Z.max (len + e) 0 else Z.min e len in
  firstn (Z.to_nat final) l.

Definition buildNotificationQueue (now : Z) (schedules : list ScheduleRule)
    (maxCount horizonHours : option Z) : option (list Notification.ScheduledNotification) :=
  let maxCount := orDefault maxCount 50 in
  let horizonHours := orDefault horizonHours 24 in
  match collect schedules now maxCount horizonHours [] with
  | None => None
  | Some combined => Some (slice0 (sort byDate combined) maxCount)
  end.

End Scheduler.

Import Scheduler.

(* ===================================================================== *)
(** ** The calendar, month by month *)

(** Leap years and the table of month lengths, month index 0 = January. *)
Definition isLeapYear (y : Z) : bool :=
  ((y mod 4 =? 0) && negb (y mod 100 =? 0)) || (y mod 400 =? 0).

Definition daysInMonth (y m : Z) : Z :=
  if m =? 1 then (if isLeapYear y then 29 else 28)
  else if (m =? 3) || (m =? 5) || (m =? 8) || (m =? 10) then 30
  else 31.

(** The month after month [m] (1..12) of year [y]. *)
Definition nextMonth (ym : Z * Z) : Z * Z :=
  let (y, m) := ym in if m =? 12 then (y + 1, 1) else (y, m + 1).

(** Days from the first of month [m] (1..12) to the first of the next. *)
Definition monthLength (y m : Z) : Z :=
  days_from_civil (if m =? 12 then y + 1 else y) (if m =? 12 then 1 else m + 1) 1
  - days_from_civil y m 1.

(** Midnight at the start of month [m] (1..12) of year [y]. *)
Definition firstOfMonth (y m : Z) : Z := days_from_civil y m 1 * 86400000.

(** The year that [new Date(y, ...)] takes for [y]. *)
Definition fullYear (y : Z) : Z := if (0 <=? y) && (y <=? 99) then 1900 + y else y.

(* ===================================================================== *)
(** ** What the spec says, as definitions *)

(** The contract of the generators: strictly increasing, after [now], no
    later than the horizon, no longer than [maxCount]. *)
Definition WithinBounds (now maxCount horizonHours : Z) (dates : list Z) : Prop :=
  StronglySorted Z.lt dates /\
  Forall (fun t => now < t <= horizonOf now horizonHours) dates /\
  count dates <= maxCount.

(** The entry the spec asks for: the identifier of the rule, the instant,
    the message of the rule. *)
Definition entryOf (schedule : ScheduleRule) (instant : Z)
    : Notification.ScheduledNotification :=
  {| Notification.scheduleId := id schedule;
     Notification.date := instant;
     Notification.message := message schedule |}.

(** The instants of each rule, each as the entry of its rule, rule after
    rule. *)
Definition taggedDates (schedules : list ScheduleRule) (perRule : list (list Z))
    : list Notification.ScheduledNotification :=
  concat (map (fun p => map (entryOf (fst p)) (snd p)) (combine schedules perRule)).

Definition at_instant (t : Z) (n : Notification.ScheduledNotification) : bool :=
  Notification.date n =? t.

Definition notAfter (a b : Notification.ScheduledNotification) : Prop :=
  Notification.date a <= Notification.date b.

(** The kinds whose generator the dispatcher hands [daysOfWeek] to. *)
Definition usesWeekdayMask (t : ScheduleType) : bool :=
  match t with monthly => false | _ => true end.

Definition withDaysOfWeek (schedule : ScheduleRule) (mask : option (list bool)) : ScheduleRule :=
  {| id := id schedule; type := type schedule;
     intervalMinutes := intervalMinutes schedule;
     startMinutesFromMidnight := startMinutesFromMidnight schedule;
     endMinutesFromMidnight := endMinutesFromMidnight schedule;
     message := message schedule;
     daysOfWeek := mask;
     dayOfMonth := dayOfMonth schedule |}.

Definition withDayOfMonth (schedule : ScheduleRule) (day : option num) : ScheduleRule :=
  {| id := id schedule; type := type schedule;
     intervalMinutes := intervalMinutes schedule;
     startMinutesFromMidnight := startMinutesFromMidnight schedule;
     endMinutesFromMidnight := endMinutesFromMidnight schedule;
     message := message schedule;
     daysOfWeek := daysOfWeek schedule;
     dayOfMonth := day |}.

(** A monthly rule with its weekday mask replaced, any other rule as it is. *)
Definition remaskMonthly (remask : ScheduleRule -> option (list bool)) (schedule : ScheduleRule)
    : ScheduleRule :=
  match type schedule with
  | monthly => withDaysOfWeek schedule (remask schedule)
  | _ => schedule
  end.

(** Clamping in the plain sense: the nearest value of the range. *)
Definition saturate (lo hi z : Z) : Z := Z.max lo (Z.min hi z).

Definition saturateQ (lo hi q : Q) : Q :=
  if Qle_bool hi q then hi else if Qle_bool lo q then q else lo.

(** [c], [next c], [next (next c)], ...: [n] of them. *)
Fixpoint iterates (next : Z -> Z) (n : nat) (c : Z) : list Z :=
  match n with
  | O => []
  | S n' => c :: iterates next n' (next c)
  end.

(** The instants of a list up to the first one beyond the horizon. *)
Fixpoint upTo (horizon : Z) (l : list Z) : list Z :=
  match l with
  | [] => []
  | c :: l' => if c <=? horizon then c :: upTo horizon l' else []
  end.


(** [n] calendar months from [ym] on. *)
Fixpoint monthsFrom (n : nat) (ym : Z * Z) : list (Z * Z) :=
  match n with
  | O => []
  | S n' => ym :: monthsFrom n' (nextMonth ym)
  end.

(** The fire instant of a month in the words of the spec: the day
    [min(dayOfMonth, days in the month)] at [timeMinutes] after midnight. *)
Definition fireInstant (dayOfMonth timeMinutes : Z) (ym : Z * Z) : Z :=
  let (y, m) := ym in
  let fireDay := Z.min dayOfMonth (daysInMonth y (m - 1)) in
  MakeDate (days_from_civil y m fireDay) (timeMinutes * msPerMinute).

(** The monthly instants in the words of the spec: month by month from the
    month of [now], the fire instants after [now] and within the horizon,
    the first [maxCount] of them.  [months] bounds the number of months
    looked at. *)
Definition monthlyInstants (now dayOfMonth timeMinutes maxCount horizonHours : Z)
    (months : nat) : list Z :=
  let horizon := horizonOf now horizonHours in
  firstn (Z.to_nat maxCount)
    (filter (fun t => (now <? t) && (t <=? horizon))
       (map (fireInstant dayOfMonth timeMinutes)
          (monthsFrom months (getFullYear now, getMonth now + 1)))).

(* ===================================================================== *)
(** ** Concrete clocks and rules of the examples *)

(** 1 January 2024, a Monday, at midnight. *)
Definition monday : Z := 19723 * msPerDay.
Definition tuesday : Z := monday + msPerDay.
Definition feb15 : Z := days_from_civil 2023 2 15 * msPerDay.
Definition feb28 : Z := days_from_civil 2023 2 28 * msPerDay.

Definition clock (day hours minutes : Z) : Z := day + hours * msPerHour + minutes * msPerMinute.

Definition everyDay : list bool := [true; true; true; true; true; true; true].
Definition mondayOnly : list bool := [true; false; false; false; false; false; false].

Definition rule (kind : ScheduleType) (interval startMinutes endMinutes : Z)
    (mask : option (list bool)) (day : option num) : ScheduleRule :=
  {| id := "r"%string; type := kind;
     intervalMinutes := ofZ interval;
     startMinutesFromMidnight := ofZ startMinutes;
     endMinutesFromMidnight := ofZ endMinutes;
     message := "m"%string;
     daysOfWeek := mask;
     dayOfMonth := day |}.

(* ===================================================================== *)
(** ** Loop scheme and invariants used in the proofs *)

Definition pushOpt (results : list Z) (candidate : option Z) : list Z :=
  match candidate with Some c => results ++ [c] | None => results end.

(** The shape shared by the fallback, window, fixed-time and monthly loops:
    at each cursor up to the horizon, push what [emit] gives and move on. *)
Fixpoint genLoop (horizon maxCount : Z) (emit : Z -> option Z) (next : Z -> Z)
    (fuel : nat) (results : list Z) (cursor : Z) : option (list Z) :=
  if (count results <? maxCount) && (cursor <=? horizon) then
    match fuel with
    | O => None
    | S fuel' => genLoop horizon maxCount emit next fuel' (pushOpt results (emit cursor))
                   (next cursor)
    end
  else Some results.

Fixpoint iterN (next : Z -> Z) (n : nat) (c : Z) : Z :=
  match n with
  | O => c
  | S n' => iterN next n' (next c)
  end.

Definition emitAll (emit : Z -> option Z) (l : list Z) : list Z :=
  flat_map (fun c => match emit c with Some d => [d] | None => [] end) l.

Definition Below (bound : Z) (results : list Z) : Prop := Forall (fun t => t < bound) results.

Definition Good (maxCount : Z) (P : Z -> Prop) (results : list Z) : Prop :=
  StronglySorted Z.lt results /\ Forall P results /\ count results <= Z.max 0 maxCount.

Definition Emitted (now horizon : Z) (days : list bool) (t : Z) : Prop :=
  (now < t <= horizon) /\ isDayActive t days = true.

Definition minutesOf (tm : num) : Z := match tm with Fin q => trunc q | _ => 0 end.

(** A list of instants moved by [w] milliseconds. *)
Definition shift (w : Z) (l : list Z) : list Z := map (fun t => t + w) l.

(** Intervals that are a whole number of milliseconds. *)
Definition wholeMs (minutes : Q) : Prop := exists z, (minutes * 60 * 1000 == inject_Z z)%Q.

(** What the monthly loop pushes at a cursor. *)
Definition monthlyEmit (now horizon : Z) (tm : num) (dom : Z) (c : Z) : option Z :=
  match dateAtMinutesRaw
          (ofYMD (getFullYear c) (getMonth c)
             (Z.min dom (getDaysInMonth (getFullYear c) (getMonth c)))) tm with
  | Some d => if (now <? d) && (d <=? horizon) then Some d else None
  | None => None
  end.

Definition MonthInv (now horizon maxCount : Z) (tm : num) (modern : Prop)
    (results : list Z) (c : Z) : Prop :=
  exists y m,
    c = firstOfMonth y m /\ 1 <= m <= 12 /\
    Forall (fun t => now < t <= horizon) results /\
    count results <= Z.max 0 maxCount /\
    (modern -> 100 <= y /\ StronglySorted Z.lt results /\
               Below (c + minutesOf tm * 60000) results).


(** The fixed-time instants as a sweep over the calendar days: for each day
    from the day of [now] on, that day's midnight plus [timeMinutes]; those
    after [now], within the horizon and on an active day; the first
    [maxCount] of them.  [days] bounds the number of days looked at. *)
Definition dailyInstants (now timeMinutes : Z) (daysOfWeek : list bool)
    (maxCount horizonHours : Z) (days : nat) : list Z :=
  let horizon := horizonOf now horizonHours in
  firstn (Z.to_nat maxCount)
    (filter (fun t => (now <? t) && (t <=? horizon) && isDayActive t daysOfWeek)
       (map (fun day => startOfDay now + Z.of_nat day * msPerDay + timeMinutes * msPerMinute)
          (seq 0 days))).
Ltac unfold_date :=
  unfold startOfDay, dateAtMinutes, setHours0, setMinutes, setSeconds0, minutesSinceMidnight,
    getHours, getMinutes, getTime, MakeDate, MakeTime, Day, TimeWithinDay, HourFromTime,
    MinFromTime, SecFromTime, msFromTime, msPerDay, msPerHour, msPerMinute in *.

Ltac split_ifs :=
  repeat match goal with |- context[if ?b then _ else _] => destruct b eqn:? end.

(* ===================================================================== *)
(** * Proofs *)

Lemma trunc_bounds q : Qfloor q <= trunc q <= Qceiling q.
Proof.
  destruct q as [n d]. unfold trunc, Qceiling, Qfloor. cbn [Qnum Qden Qopp].
  destruct (Z_lt_le_dec n 0) as [Hn|Hn].
  - assert (E : Z.quot n (Z.pos d) = - Z.quot (- n) (Z.pos d))
      by (rewrite Z.quot_opp_l by lia; lia).
    rewrite E, Z.quot_div_nonneg by lia.
    assert (n / Z.pos d <= - (- n / Z.pos d)); [|lia].
    Z.div_mod_to_equations. nia.
  - rewrite Z.quot_div_nonneg by lia.
    assert (n / Z.pos d <= - (- n / Z.pos d)); [|lia].
    Z.div_mod_to_equations. nia.
Qed.

Lemma Qfloor_lower (k : Z) (q : Q) : (inject_Z k <= q)%Q -> k <= Qfloor q.
Proof. intros H. rewrite <- (Qfloor_Z k). now apply Qfloor_resp_le. Qed.

Lemma Qceiling_upper (k : Z) (q : Q) : (q <= inject_Z k)%Q -> Qceiling q <= k.
Proof. intros H. rewrite <- (Qceiling_Z k). now apply Qceiling_resp_le. Qed.

Lemma trunc_lower (k : Z) (q : Q) : (inject_Z k <= q)%Q -> k <= trunc q.
Proof. intros H. pose proof (trunc_bounds q). apply Qfloor_lower in H. lia. Qed.

Lemma trunc_upper (k : Z) (q : Q) : (q <= inject_Z k)%Q -> trunc q <= k.
Proof. intros H. pose proof (trunc_bounds q). apply Qceiling_upper in H. lia. Qed.

Lemma trunc_exact (k : Z) (q : Q) : (q == inject_Z k)%Q -> trunc q = k.
Proof.
  intros H. apply Z.le_antisymm.
  - apply trunc_upper. rewrite H. apply Qle_refl.
  - apply trunc_lower. rewrite H. apply Qle_refl.
Qed.

Lemma addMinutes_lower (date K : Z) (minutes : Q) :
  (inject_Z K <= minutes * 60 * 1000)%Q -> date + K <= addMinutes date minutes.
Proof.
  intros H. unfold addMinutes, ofNumber, TimeClip, getTime. apply trunc_lower.
  rewrite inject_Z_plus. apply Qplus_le_r. exact H.
Qed.

Lemma addMinutes_exact (date k : Z) : addMinutes date (inject_Z k) = date + k * 60000.
Proof.
  unfold addMinutes, ofNumber, TimeClip, getTime. apply trunc_exact.
  rewrite inject_Z_plus, inject_Z_mult. 
  change (inject_Z 60000) with (60 * 1000)%Q. ring.
Qed.


Lemma startOfDay_eq t : startOfDay t = t - t mod 86400000.
Proof. unfold_date. Z.div_mod_to_equations. lia. Qed.

Lemma setMinutes_midnight k m : setMinutes (k * 86400000) m = k * 86400000 + m * 60000.
Proof.
  unfold setMinutes, MakeDate, MakeTime, Day, HourFromTime, SecFromTime, msFromTime,
    msPerDay, msPerHour, msPerMinute.
  replace (k * 86400000 / 3600000) with (k * 24)
    by (apply Z.div_unique with 0; lia).
  replace (k * 86400000 / 1000) with (k * 86400)
    by (apply Z.div_unique with 0; lia).
  rewrite Z.div_mul by lia.
  replace (k * 24 mod 24) with 0 by (symmetry; apply Z.mod_mul; lia).
  replace (k * 86400 mod 60) with 0
    by (apply Z.mod_unique with (k * 1440); lia).
  replace (k * 86400000 mod 1000) with 0
    by (apply Z.mod_unique with (k * 86400); lia).
  lia.
Qed.

Lemma dateAtMinutes_eq t m : dateAtMinutes t m = t - t mod 86400000 + m * 60000.
Proof.
  unfold dateAtMinutes. rewrite startOfDay_eq.
  replace (t - t mod 86400000) with (t / 86400000 * 86400000)
    by (Z.div_mod_to_equations; lia).
  apply setMinutes_midnight.
Qed.

Lemma minutesSinceMidnight_eq t : minutesSinceMidnight t = (t mod 86400000) / 60000.
Proof. unfold_date. Z.div_mod_to_equations. lia. Qed.

Lemma setSeconds0_eq t : setSeconds0 t = t - t mod 60000.
Proof. unfold_date. Z.div_mod_to_equations. lia. Qed.



Lemma civil_days z :
  let '(y, m, d) := civil_from_days z in
  days_from_civil y m d = z /\ 1 <= m <= 12 /\ 1 <= d <= monthLength y m.
Proof.
  unfold monthLength, civil_from_days, days_from_civil.
  split_ifs; Z.div_mod_to_equations; lia.
Qed.

Lemma days_lt y m d y2 m2 d2 :
  1 <= m <= 12 -> 1 <= m2 <= 12 -> 1 <= d <= monthLength y m -> 1 <= d2 ->
  y < y2 \/ (y = y2 /\ m < m2) -> days_from_civil y m d < days_from_civil y2 m2 d2.
Proof.
  intros H H2 Hd Hd2 Hlt. unfold monthLength in *. unfold days_from_civil in *.
  revert Hd; split_ifs; intros; Z.div_mod_to_equations; lia.
Qed.

Lemma days_day y m d : days_from_civil y m d = days_from_civil y m 1 + d - 1.
Proof. unfold days_from_civil. lia. Qed.

Lemma days_civil y m d :
  1 <= m <= 12 -> 1 <= d <= monthLength y m ->
  civil_from_days (days_from_civil y m d) = (y, m, d).
Proof.
  intros Hm Hd. pose proof (civil_days (days_from_civil y m d)) as H.
  destruct (civil_from_days (days_from_civil y m d)) as [[y2 m2] d2].
  destruct H as (E & Hm2 & Hd2).
  assert (Hy : y2 = y /\ m2 = m).
  { destruct (Z_lt_le_dec y y2); [exfalso|].
    { pose proof (days_lt y m d y2 m2 d2). lia. }
    destruct (Z_lt_le_dec y2 y); [exfalso|].
    { pose proof (days_lt y2 m2 d2 y m d). lia. }
    destruct (Z_lt_le_dec m m2); [exfalso|].
    { pose proof (days_lt y m d y2 m2 d2). lia. }
    destruct (Z_lt_le_dec m2 m); [exfalso|].
    { pose proof (days_lt y2 m2 d2 y m d). lia. }
    lia. }
  destruct Hy as [-> ->]. rewrite (days_day y m d2), (days_day y m d) in E.
  repeat f_equal. lia.
Qed.

Lemma monthLength_bounds y m : 1 <= m <= 12 -> 28 <= monthLength y m <= 31.
Proof.
  intros H. unfold monthLength, days_from_civil.
  split_ifs; Z.div_mod_to_equations; lia.
Qed.


Lemma monthLength_table y m : 1 <= m <= 12 -> monthLength y m = daysInMonth y (m - 1).
Proof.
  intros H. unfold monthLength, daysInMonth, isLeapYear, days_from_civil.
  assert (C : m = 1 \/ m = 2 \/ m = 3 \/ m = 4 \/ m = 5 \/ m = 6 \/ m = 7 \/ m = 8 \/ m = 9
              \/ m = 10 \/ m = 11 \/ m = 12) by lia.
  repeat (destruct C as [-> | C]); [..|subst m]; cbn -[Z.div Z.modulo Z.mul Z.add Z.sub];
  split_ifs; Z.div_mod_to_equations; lia.
Qed.

Lemma MakeDay_month y m d : 1 <= m <= 12 -> MakeDay y (m - 1) d = days_from_civil y m d.
Proof.
  intros H. unfold MakeDay.
  replace ((m - 1) / 12) with 0 by (Z.div_mod_to_equations; lia).
  replace ((m - 1) mod 12 + 1) with m by (Z.div_mod_to_equations; lia).
  rewrite (days_day y m d). f_equal. f_equal. f_equal. lia.
Qed.

Lemma MakeDay_fields t : MakeDay (YearFromTime t) (MonthFromTime t) (DateFromTime t) = Day t.
Proof.
  unfold YearFromTime, MonthFromTime, DateFromTime.
  pose proof (civil_days (Day t)) as H.
  destruct (civil_from_days (Day t)) as [[y m] d]. cbn [fst snd].
  destruct H as (E & Hm & Hd). rewrite MakeDay_month by lia. exact E.
Qed.

Lemma MakeDay_date y m d n : MakeDay y m (d + n) = MakeDay y m d + n.
Proof. unfold MakeDay. lia. Qed.

Lemma addDays_eq t n : addDays t n = t + n * 86400000.
Proof.
  unfold addDays, setDate, getDate. rewrite MakeDay_date, MakeDay_fields.
  unfold MakeDate, Day, TimeWithinDay, msPerDay. Z.div_mod_to_equations. lia.
Qed.

(** Normalisation *)
Lemma normalizeMinutes_mod q : normalizeMinutes (Fin q) = floor q mod 1440.
Proof.
  unfold normalizeMinutes. change (24 * 60) with 1440.
  destruct (Z_lt_le_dec (floor q) 0) as [Hn|Hn].
  - pose proof (Z.rem_bound_pos_neg (floor q) 1440 ltac:(lia) ltac:(lia)) as B.
    pose proof (Z.quot_rem' (floor q) 1440) as E.
    destruct (Z.rem (floor q) 1440 <? 0) eqn:C.
    + apply Z.mod_unique with (Z.quot (floor q) 1440 - 1); lia.
    + apply Z.mod_unique with (Z.quot (floor q) 1440); lia.
  - rewrite Z.rem_mod_nonneg by lia.
    pose proof (Z.mod_pos_bound (floor q) 1440 ltac:(lia)).
    destruct (floor q mod 1440 <? 0) eqn:C; lia.
Qed.

Lemma normalizeMinutes_range v : 0 <= normalizeMinutes v < 1440.
Proof.
  destruct v as [q| | |]; try (unfold normalizeMinutes; lia).
  rewrite normalizeMinutes_mod. apply Z.mod_pos_bound. lia.
Qed.

Lemma Qle_bool_false a b : Qle_bool a b = false -> (b < a)%Q.
Proof.
  intros H. apply Qnot_le_lt. intros C. apply Qle_bool_iff in C. congruence.
Qed.

Lemma clamp_range v : (5 <= clamp v MIN_INTERVAL MAX_INTERVAL <= 180)%Q.
Proof.
  unfold MIN_INTERVAL, MAX_INTERVAL.
  destruct v as [q| | |]; cbn [clamp]; try (split; [apply Qle_refl | discriminate]).
  unfold JsNum.min, JsNum.max.
  destruct (Qle_bool 5 q) eqn:E1.
  - destruct (Qle_bool 180 q) eqn:E2.
    + split; [discriminate | apply Qle_refl].
    + split; [now apply Qle_bool_iff | apply Qlt_le_weak, Qle_bool_false, E2].
  - destruct (Qle_bool 180 5) eqn:E2; [discriminate|].
    split; [apply Qle_refl | discriminate].
Qed.

Lemma interval_step date interval :
  (5 <= interval)%Q -> date + 300000 <= addMinutes date interval.
Proof.
  intros H. apply addMinutes_lower.
  change (inject_Z 300000) with (5 * 60 * 1000)%Q.
  apply Qmult_le_compat_r; [|discriminate].
  apply Qmult_le_compat_r; [|discriminate]. exact H.
Qed.

Lemma addMinutes_nonneg date minutes : (0 <= minutes)%Q -> date <= addMinutes date minutes.
Proof.
  intros H. pose proof (addMinutes_lower date 0 minutes) as L.
  rewrite Z.add_0_r in L. apply L.
  change (inject_Z 0) with 0%Q.
  apply Qmult_le_0_compat; [|discriminate].
  apply Qmult_le_0_compat; [|discriminate]. exact H.
Qed.

Lemma rem_range (a : Z) (b : Q) : 0 <= a -> (0 < b)%Q -> (0 <= rem (inject_Z a) b < b)%Q.
Proof.
  intros Ha Hb. unfold rem.
  set (x := (inject_Z a / b)%Q).
  assert (Hx : (0 <= x)%Q).
  { unfold x. apply Qle_shift_div_l; [exact Hb|]. rewrite Qmult_0_l.
    change 0%Q with (inject_Z 0). rewrite <- Zle_Qle. exact Ha. }
  assert (Ht : trunc x = Qfloor x).
  { unfold trunc, Qfloor. destruct x as [n d]. cbn [Qnum Qden].
    apply Z.quot_div_nonneg; [|lia].
    unfold Qle in Hx. cbn in Hx. lia. }
  rewrite Ht.
  assert (E : (inject_Z a == b * x)%Q).
  { unfold x. rewrite Qmult_div_r; [reflexivity|]. intros C. rewrite C in Hb. discriminate. }
  pose proof (Qfloor_le x) as L. pose proof (Qlt_floor x) as U.
  rewrite inject_Z_plus in U. change (inject_Z 1) with 1%Q in U.
  split.
  - rewrite E. setoid_replace (b * x - b * inject_Z (Qfloor x))%Q
      with (b * (x - inject_Z (Qfloor x)))%Q by ring.
    apply Qmult_le_0_compat; [apply Qlt_le_weak, Hb|].
    rewrite <- (Qplus_opp_r (inject_Z (Qfloor x))).
    apply Qplus_le_l. exact L.
  - rewrite E at 1. setoid_replace (b * x - b * inject_Z (Qfloor x))%Q
      with (b * (x - inject_Z (Qfloor x)))%Q by ring.
    rewrite <- (Qmult_1_r b) at 2.
    apply Qmult_lt_l; [exact Hb|].
    apply Qplus_lt_l with (z := inject_Z (Qfloor x)).
    setoid_replace (x - inject_Z (Qfloor x) + inject_Z (Qfloor x))%Q with x by ring.
    rewrite Qplus_comm. exact U.
Qed.

Lemma alignToInterval_ge windowStart cursor interval :
  (0 < interval)%Q -> cursor <= alignToInterval windowStart cursor interval.
Proof.
  intros Hi. unfold alignToInterval. apply addMinutes_nonneg.
  destruct (Qeq_bool _ 0); [apply Qle_refl|].
  pose proof (rem_range (Z.max 0 ((getTime cursor - getTime windowStart) / 60000)) interval
                ltac:(lia) Hi) as [_ U].
  apply Qlt_le_weak. unfold Qminus. rewrite <- (Qplus_opp_r (rem (inject_Z (Z.max 0 ((getTime cursor - getTime windowStart) / 60000))) interval)).
  apply Qplus_lt_l. exact U.
Qed.

Lemma minutes_at k s : 0 <= s < 1440 -> minutesSinceMidnight (k * 86400000 + s * 60000) = s.
Proof.
  intros H. rewrite minutesSinceMidnight_eq.
  replace ((k * 86400000 + s * 60000) mod 86400000) with (s * 60000)
    by (apply Z.mod_unique with k; lia).
  apply Z.div_mul. lia.
Qed.

Lemma midnight_split t : t - t mod 86400000 = t / 86400000 * 86400000.
Proof. Z.div_mod_to_equations. lia. Qed.

Section Windows.

Variables (s e : Z).
Hypothesis (Hs : 0 <= s < 1440) (He : 0 <= e < 1440) (Hne : s <> e).

Lemma nextWindowStart_after c :
  isWithinWindow c s e (e <? s) = false ->
  c < nextWindowStart c s e (e <? s) /\
  isWithinWindow (nextWindowStart c s e (e <? s)) s e (e <? s) = true.
Proof.
  intros Hout.
  assert (In_at : forall k, isWithinWindow (k * 86400000 + s * 60000) s e (e <? s) = true).
  { intros k. unfold isWithinWindow. rewrite minutes_at by lia.
    destruct (e <? s) eqn:E; cbn [negb]; lia. }
  unfold nextWindowStart. unfold isWithinWindow in Hout.
  rewrite addDays_eq, dateAtMinutes_eq.
  rewrite minutesSinceMidnight_eq in *.
  replace (c - c mod 86400000 + s * 60000 + 1 * 86400000)
    with ((c / 86400000 + 1) * 86400000 + s * 60000) by (Z.div_mod_to_equations; lia).
  rewrite midnight_split.
  destruct (e <? s) eqn:E; cbn [negb] in *.
  - destruct ((e <=? c mod 86400000 / 60000) && (c mod 86400000 / 60000 <? s)) eqn:C.
    + split; [|apply In_at]. Z.div_mod_to_equations. lia.
    + split; [|apply In_at]. Z.div_mod_to_equations. lia.
  - destruct (c mod 86400000 / 60000 <? s) eqn:C.
    + split; [|apply In_at]. Z.div_mod_to_equations. lia.
    + split; [|apply In_at]. Z.div_mod_to_equations. lia.
Qed.

Lemma windowFor_end c :
  isWithinWindow c s e (e <? s) = true -> c < w_end (windowFor c s e (e <? s)).
Proof.
  intros Hin. unfold windowFor. unfold isWithinWindow in Hin.
  rewrite minutesSinceMidnight_eq in *.
  destruct (e <? s) eqn:E; cbn [negb] in *.
  - destruct (s <=? c mod 86400000 / 60000) eqn:C; cbn [w_end].
    + rewrite addDays_eq, !dateAtMinutes_eq. Z.div_mod_to_equations. lia.
    + rewrite !dateAtMinutes_eq. Z.div_mod_to_equations. lia.
  - cbn [w_end]. rewrite dateAtMinutes_eq. Z.div_mod_to_equations. lia.
Qed.

End Windows.

(** ** A loop scheme shared by the four simple loops *)

Section GenLoop.

Variables (horizon maxCount : Z) (emit : Z -> option Z) (next : Z -> Z).


Lemma genLoop_inv (I : list Z -> Z -> Prop) :
  (forall results cursor, I results cursor -> count results < maxCount -> cursor <= horizon ->
     I (pushOpt results (emit cursor)) (next cursor) /\ cursor + 60000 <= next cursor) ->
  forall fuel results cursor,
    I results cursor ->
    (cursor <= horizon -> (horizon - cursor) / 60000 + 1 <= Z.of_nat fuel) ->
    exists r c, genLoop horizon maxCount emit next fuel results cursor = Some r /\ I r c.
Proof.
  intros Hstep. induction fuel as [|fuel IH]; intros results cursor HI Hfuel.
  - cbn [genLoop].
    destruct ((count results <? maxCount) && (cursor <=? horizon)) eqn:C.
    + exfalso. apply andb_prop in C as [_ C].
      assert (0 <= (horizon - cursor) / 60000) by (apply Z.div_pos; lia). lia.
    + eauto.
  - cbn [genLoop].
    destruct ((count results <? maxCount) && (cursor <=? horizon)) eqn:C.
    + apply andb_prop in C as [C1 C2].
      destruct (Hstep results cursor HI ltac:(lia) ltac:(lia)) as [HI' Hp].
      apply IH; [exact HI'|]. intros Hn.
      assert ((horizon - next cursor) / 60000 + 1 <= (horizon - cursor) / 60000).
      { Z.div_mod_to_equations. lia. }
      lia.
    + eauto.
Qed.

End GenLoop.

Lemma fallbackLoop_gen horizon maxCount i s e days fuel : forall results cursor,
  fallbackLoop horizon maxCount i s e days fuel results cursor =
  genLoop horizon maxCount
    (fun c => if ((s =? e) || isWithinWindow c s e (e <? s)) && isDayActive c days
              then Some c else None)
    (fun c => addMinutes c i) fuel results cursor.
Proof.
  induction fuel as [|fuel IH]; intros results cursor; cbn [fallbackLoop genLoop].
  - reflexivity.
  - destruct ((count results <? maxCount) && (cursor <=? horizon)); [|reflexivity].
    rewrite IH. destruct (((s =? e) || isWithinWindow cursor s e (e <? s)) && isDayActive cursor days);
      reflexivity.
Qed.

Lemma windowLoop_gen now horizon maxCount i days wend fuel : forall results candidate,
  windowLoop now horizon maxCount i days wend fuel results candidate =
  genLoop (Z.min horizon (wend - 1)) maxCount
    (fun c => if (now <? c) && isDayActive c days then Some c else None)
    (fun c => addMinutes c i) fuel results candidate.
Proof.
  induction fuel as [|fuel IH]; intros results candidate; cbn [windowLoop genLoop].
  - replace ((candidate <? wend) && (candidate <=? horizon) && (count results <? maxCount))
      with ((count results <? maxCount) && (candidate <=? Z.min horizon (wend - 1))) by lia.
    reflexivity.
  - replace ((candidate <? wend) && (candidate <=? horizon) && (count results <? maxCount))
      with ((count results <? maxCount) && (candidate <=? Z.min horizon (wend - 1))) by lia.
    destruct ((count results <? maxCount) && (candidate <=? Z.min horizon (wend - 1)));
      [|reflexivity].
    rewrite IH. destruct ((now <? candidate) && isDayActive candidate days); reflexivity.
Qed.

Lemma fixedLoop_gen now horizon maxCount tm days fuel : forall results cursor,
  fixedLoop now horizon maxCount tm days fuel results cursor =
  genLoop horizon maxCount
    (fun c => match dateAtMinutesRaw c tm with
              | Some d => if (now <? d) && (d <=? horizon) && isDayActive d days
                          then Some d else None
              | None => None
              end)
    (fun c => addDays c 1) fuel results cursor.
Proof.
  induction fuel as [|fuel IH]; intros results cursor; cbn [fixedLoop genLoop].
  - reflexivity.
  - destruct ((count results <? maxCount) && (cursor <=? horizon)); [|reflexivity].
    rewrite IH. f_equal.
    destruct (dateAtMinutesRaw cursor tm) as [d|]; cbn [inRange push pushOpt]; [|reflexivity].
    destruct ((now <? d) && (d <=? horizon) && isDayActive d days); reflexivity.
Qed.

Lemma monthlyLoop_gen now horizon maxCount tm dom fuel : forall results cursor,
  monthlyLoop now horizon maxCount tm dom fuel results cursor =
  genLoop horizon maxCount
    (fun c => match dateAtMinutesRaw
                      (ofYMD (getFullYear c) (getMonth c)
                         (Z.min dom (getDaysInMonth (getFullYear c) (getMonth c)))) tm with
              | Some d => if (now <? d) && (d <=? horizon) then Some d else None
              | None => None
              end)
    (fun c => addMonths c 1) fuel results cursor.
Proof.
  induction fuel as [|fuel IH]; intros results cursor; cbn [monthlyLoop genLoop].
  - reflexivity.
  - destruct ((count results <? maxCount) && (cursor <=? horizon)); [|reflexivity].
    rewrite IH. f_equal.
    destruct (dateAtMinutesRaw _ tm) as [d|]; cbn [inRange push pushOpt]; [|reflexivity].
    destruct ((now <? d) && (d <=? horizon)); reflexivity.
Qed.

(** ** Invariants of the result list *)


Lemma Below_weaken b b' results : b <= b' -> Below b results -> Below b' results.
Proof. intros H. apply Forall_impl. intros; lia. Qed.

Lemma increasing_snoc results c :
  StronglySorted Z.lt results -> Below c results -> StronglySorted Z.lt (results ++ [c]).
Proof.
  induction 1 as [|x l Hl IH Hx]; intros Hb; cbn.
  - repeat constructor.
  - inversion Hb; subst. constructor; [auto|].
    apply Forall_app. split; [exact Hx|]. constructor; [assumption|constructor].
Qed.

Lemma count_snoc results c : count (results ++ [c]) = count results + 1.
Proof. unfold count. rewrite length_app. cbn. lia. Qed.

Section Good.

Variables (maxCount : Z) (P : Z -> Prop).


Lemma Good_nil : Good maxCount P [].
Proof. repeat split; try constructor. unfold count. cbn. lia. Qed.

Lemma Good_push results c :
  Good maxCount P results -> Below c results -> P c -> count results < maxCount ->
  Good maxCount P (results ++ [c]).
Proof.
  intros (Hs & Hp & Hc) Hb Hpc Hlt. repeat split.
  - now apply increasing_snoc.
  - apply Forall_app. split; [exact Hp|]. constructor; [exact Hpc|constructor].
  - rewrite count_snoc. lia.
Qed.

Lemma Below_push b results c : Below b results -> c < b -> Below b (results ++ [c]).
Proof. intros H Hc. apply Forall_app. split; [exact H|]. constructor; [exact Hc|constructor]. Qed.

End Good.


Lemma genLoop_peel horizon maxCount emit next (I : list Z -> Z -> Prop) :
  (forall results cursor, I results cursor -> count results < maxCount -> cursor <= horizon ->
     I (pushOpt results (emit cursor)) (next cursor) /\ cursor + 60000 <= next cursor) ->
  forall fuel results cursor,
    I results cursor ->
    (next cursor <= horizon -> (horizon - next cursor) / 60000 + 1 <= Z.of_nat fuel) ->
    exists r c, genLoop horizon maxCount emit next (S fuel) results cursor = Some r /\ I r c.
Proof.
  intros Hstep fuel results cursor HI Hfuel. cbn [genLoop].
  destruct ((count results <? maxCount) && (cursor <=? horizon)) eqn:C; [|eauto].
  apply andb_prop in C as [C1 C2].
  destruct (Hstep results cursor HI ltac:(lia) ltac:(lia)) as [HI' Hp].
  now apply genLoop_inv with (I := I).
Qed.

Lemma budget_enough now horizon cursor :
  now <= cursor -> cursor <= horizon ->
  (horizon - cursor) / 60000 + 1 <= Z.of_nat (S (Z.to_nat ((horizon - now) / msPerMinute))).
Proof.
  intros H1 H2. unfold msPerMinute.
  assert (0 <= (horizon - now) / 60000) by (apply Z.div_pos; lia).
  assert ((horizon - cursor) / 60000 <= (horizon - now) / 60000)
    by (apply Z.div_le_mono; lia).
  lia.
Qed.

(** ** The fallback sweep *)

Lemma generateFallbackDates_good now interval s e days maxCount horizonHours :
  (5 <= interval)%Q ->
  exists dates,
    generateFallbackDates now interval s e days maxCount horizonHours = Some dates /\
    Good maxCount (Emitted now (horizonOf now horizonHours) days) dates.
Proof.
  intros Hi. unfold generateFallbackDates. rewrite fallbackLoop_gen.
  set (horizon := horizonOf now horizonHours).
  set (cursor := setSeconds0 (addMinutes now interval)).
  assert (Hc : now < cursor).
  { unfold cursor. rewrite setSeconds0_eq. pose proof (interval_step now interval Hi).
    pose proof (Z.mod_pos_bound (addMinutes now interval) 60000 ltac:(lia)). lia. }
  pose (I := fun results c =>
    Good maxCount (Emitted now horizon days) results /\ Below c results /\ now < c).
  destruct (genLoop_inv horizon maxCount
    (fun c => if ((s =? e) || isWithinWindow c s e (e <? s)) && isDayActive c days
              then Some c else None)
    (fun c => addMinutes c interval) I) with (fuel := budget now horizon) (results := @nil Z)
    (cursor := cursor) as (r & c & Hr & HI).
  - intros results c (Hg & Hb & Hn) Hcount Hh.
    pose proof (interval_step c interval Hi) as Hstep. split; [|lia].
    destruct (((s =? e) || isWithinWindow c s e (e <? s)) && isDayActive c days) eqn:E;
      cbn [pushOpt].
    + apply andb_prop in E as [_ E]. split; [|split].
      * apply Good_push; [exact Hg|exact Hb| |exact Hcount]. split; [lia|exact E].
      * apply Below_push; [|lia]. eapply Below_weaken; [|exact Hb]. lia.
      * lia.
    + split; [exact Hg|split; [|lia]]. eapply Below_weaken; [|exact Hb]. lia.
  - split; [apply Good_nil|split; [constructor|exact Hc]].
  - intros Hh. unfold budget.
    pose proof (budget_enough now horizon cursor ltac:(lia) Hh). lia.
  - exists r. split; [exact Hr|apply HI].
Qed.

(** ** The window-based search *)

Lemma windowLoop_good now horizon maxCount interval days wend fuel results candidate :
  (5 <= interval)%Q ->
  Good maxCount (Emitted now horizon days) results ->
  Below candidate results -> Below wend results ->
  (candidate <= horizon -> (horizon - candidate) / 60000 + 1 <= Z.of_nat fuel) ->
  exists r, windowLoop now horizon maxCount interval days wend fuel results candidate = Some r /\
            Good maxCount (Emitted now horizon days) r /\ Below wend r.
Proof.
  intros Hi Hg Hb Hw Hfuel. rewrite windowLoop_gen.
  pose (I := fun results c =>
    Good maxCount (Emitted now horizon days) results /\ Below c results /\ Below wend results).
  destruct (genLoop_inv (Z.min horizon (wend - 1)) maxCount
    (fun c => if (now <? c) && isDayActive c days then Some c else None)
    (fun c => addMinutes c interval) I) with (fuel := fuel) (results := results)
    (cursor := candidate) as (r & c & Hr & HI).
  - intros res c (Hg' & Hb' & Hw') Hcount Hh.
    pose proof (interval_step c interval Hi) as Hstep. split; [|lia].
    destruct ((now <? c) && isDayActive c days) eqn:E; cbn [pushOpt].
    + apply andb_prop in E as [E1 E2]. split; [|split].
      * apply Good_push; [exact Hg'|exact Hb'| |exact Hcount]. split; [lia|exact E2].
      * apply Below_push; [|lia]. eapply Below_weaken; [|exact Hb']. lia.
      * apply Below_push; [exact Hw'|lia].
    + split; [exact Hg'|split; [|exact Hw']]. eapply Below_weaken; [|exact Hb']. lia.
  - split; [exact Hg|split; assumption].
  - intros Hh.
    assert ((Z.min horizon (wend - 1) - candidate) / 60000 <= (horizon - candidate) / 60000)
      by (apply Z.div_le_mono; lia).
    lia.
  - exists r. split; [exact Hr|]. split; apply HI.
Qed.

Lemma minute_step date : date + 60000 <= addMinutes date 1.
Proof. apply addMinutes_lower. discriminate. Qed.

Lemma fireLoop_good now horizon maxCount interval s e days :
  (5 <= interval)%Q -> 0 <= s < 1440 -> 0 <= e < 1440 ->
  forall fuel results cursor,
    Good maxCount (Emitted now horizon days) results ->
    Below cursor results -> now <= cursor ->
    (cursor <= horizon -> (horizon - cursor) / 60000 + 1 <= Z.of_nat fuel) ->
    exists r, fireLoop now horizon maxCount interval s e days fuel results cursor = Some r /\
              Good maxCount (Emitted now horizon days) r.
Proof.
  intros Hi Hs He.
  assert (Hpos : (0 < interval)%Q) by (eapply Qlt_le_trans; [|exact Hi]; reflexivity).
  induction fuel as [|fuel IH]; intros results cursor Hg Hb Hn Hfuel.
  - cbn [fireLoop].
    destruct ((count results <? maxCount) && (cursor <=? horizon)) eqn:C; [|eauto].
    exfalso. apply andb_prop in C as [_ C].
    assert (0 <= (horizon - cursor) / 60000) by (apply Z.div_pos; lia). lia.
  - cbn [fireLoop].
    destruct ((count results <? maxCount) && (cursor <=? horizon)) eqn:C; [|eauto].
    apply andb_prop in C as [C1 C2].
    assert (Hm : (horizon - cursor) / 60000 + 1 <= Z.of_nat (S fuel)) by (apply Hfuel; lia).
    destruct (s =? e) eqn:Ese.
    + (* all day *)
      pose proof (alignToInterval_ge (startOfDay cursor) cursor interval Hpos) as Ha.
      set (aligned := alignToInterval (startOfDay cursor) cursor interval) in *.
      pose proof (interval_step aligned interval Hi) as Hstep.
      set (candidate := if aligned <=? now then addMinutes aligned interval else aligned).
      assert (Hcand : now < candidate /\ cursor <= candidate).
      { unfold candidate. destruct (aligned <=? now) eqn:E; lia. }
      destruct (horizon <? candidate) eqn:Hh; [eauto|].
      pose proof (interval_step candidate interval Hi) as Hstep'.
      apply IH.
      * destruct (isDayActive candidate days) eqn:Ea; [|exact Hg].
        apply Good_push; [exact Hg| | |lia].
        -- eapply Below_weaken; [|exact Hb]. lia.
        -- split; [lia|exact Ea].
      * destruct (isDayActive candidate days).
        -- apply Below_push; [|lia]. eapply Below_weaken; [|exact Hb]. lia.
        -- eapply Below_weaken; [|exact Hb]. lia.
      * lia.
      * intros Hle.
        assert ((horizon - addMinutes candidate interval) / 60000 + 1
                <= (horizon - cursor) / 60000) by (Z.div_mod_to_equations; lia).
        lia.
    + (* a bounded window *)
      assert (Hne : s <> e) by lia.
      set (jump := if negb (isWithinWindow cursor s e (e <? s))
                   then if horizon <? nextWindowStart cursor s e (e <? s) then None
                        else Some (nextWindowStart cursor s e (e <? s))
                   else Some cursor).
      assert (Hjump : match jump with
                      | None => True
                      | Some c => cursor <= c /\ isWithinWindow c s e (e <? s) = true
                      end).
      { unfold jump. destruct (isWithinWindow cursor s e (e <? s)) eqn:W; cbn [negb].
        - split; [lia|exact W].
        - destruct (nextWindowStart_after s e Hs He Hne cursor W) as [A B].
          destruct (horizon <? nextWindowStart cursor s e (e <? s)); [exact I|].
          split; [lia|exact B]. }
      destruct jump as [cursor1|]; [|eauto].
      destruct Hjump as [Hc1 Hin].
      pose proof (windowFor_end s e Hs He Hne cursor1 Hin) as Hend.
      set (window := windowFor cursor1 s e (e <? s)) in *.
      pose proof (alignToInterval_ge (w_start window) cursor1 interval Hpos) as Ha.
      set (candidate := alignToInterval (w_start window) cursor1 interval) in *.
      destruct (windowLoop_good now horizon maxCount interval days (w_end window) (S fuel)
                  results candidate Hi Hg) as (r & Hr & Hgr & Hbr).
      * eapply Below_weaken; [|exact Hb]. lia.
      * eapply Below_weaken; [|exact Hb]. lia.
      * intros Hle.
        assert ((horizon - candidate) / 60000 <= (horizon - cursor) / 60000)
          by (apply Z.div_le_mono; lia).
        lia.
      * rewrite Hr. pose proof (minute_step (w_end window)) as Hstep.
        apply IH; [exact Hgr| |lia|].
        -- eapply Below_weaken; [|exact Hbr]. lia.
        -- intros Hle.
           assert ((horizon - addMinutes (w_end window) 1) / 60000 + 1
                   <= (horizon - cursor) / 60000) by (Z.div_mod_to_equations; lia).
           lia.
Qed.

Lemma generateFireDatesVia_good now intervalMinutes startMinutes endMinutes daysOfWeek
    maxCount horizonHours :
  exists via dates,
    generateFireDatesVia now intervalMinutes startMinutes endMinutes daysOfWeek
      maxCount horizonHours = Some (via, dates) /\
    Good (orDefault maxCount 50)
      (Emitted now (horizonOf now (orDefault horizonHours 24)) (normalizeDaysOfWeek daysOfWeek))
      dates.
Proof.
  unfold generateFireDatesVia.
  destruct (negb (existsb (fun b => b) (normalizeDaysOfWeek daysOfWeek))).
  { exists ShortCircuit, []. split; [reflexivity|apply Good_nil]. }
  pose proof (clamp_range intervalMinutes) as [Hi _].
  unfold primarySearch.
  destruct (fireLoop_good now (horizonOf now (orDefault horizonHours 24)) (orDefault maxCount 50)
              (clamp intervalMinutes MIN_INTERVAL MAX_INTERVAL)
              (normalizeMinutes startMinutes) (normalizeMinutes endMinutes)
              (normalizeDaysOfWeek daysOfWeek) Hi
              (normalizeMinutes_range _) (normalizeMinutes_range _)
              (budget now (horizonOf now (orDefault horizonHours 24))) [] now)
    as (r & Hr & Hg).
  - apply Good_nil.
  - constructor.
  - lia.
  - intros Hle. unfold budget.
    pose proof (budget_enough now _ now ltac:(lia) Hle). lia.
  - rewrite Hr. destruct (Nat.eqb (length r) 0).
    + destruct (generateFallbackDates_good now (clamp intervalMinutes MIN_INTERVAL MAX_INTERVAL)
                  (normalizeMinutes startMinutes) (normalizeMinutes endMinutes)
                  (normalizeDaysOfWeek daysOfWeek) (orDefault maxCount 50)
                  (orDefault horizonHours 24) Hi) as (f & Hf & Hgf).
      rewrite Hf. eauto.
    + eauto.
Qed.

(** ** The fixed-time generator *)


Lemma dateAtMinutesRaw_midnight c tm d :
  c mod 86400000 = 0 -> dateAtMinutesRaw c tm = Some d -> d = c + minutesOf tm * 60000.
Proof.
  intros Hc. destruct tm as [q| | |]; cbn [dateAtMinutesRaw minutesOf]; try discriminate.
  intros [= <-]. rewrite dateAtMinutes_eq. lia.
Qed.

Lemma generateFixedTimeDates_good now tm daysOfWeek maxCount horizonHours :
  exists dates,
    generateFixedTimeDates now tm daysOfWeek maxCount horizonHours = Some dates /\
    Good (orDefault maxCount 50)
      (Emitted now (horizonOf now (orDefault horizonHours 24)) (normalizeDaysOfWeek daysOfWeek))
      dates.
Proof.
  unfold generateFixedTimeDates.
  set (mc := orDefault maxCount 50). set (horizon := horizonOf now (orDefault horizonHours 24)).
  set (days := normalizeDaysOfWeek daysOfWeek).
  destruct (negb (existsb (fun b => b) days)).
  { exists []. split; [reflexivity|apply Good_nil]. }
  rewrite fixedLoop_gen. unfold budget.
  pose (I := fun results c =>
    Good mc (Emitted now horizon days) results /\
    Below (c + minutesOf tm * 60000) results /\ c mod 86400000 = 0).
  destruct (genLoop_peel horizon mc
    (fun c => match dateAtMinutesRaw c tm with
              | Some d => if (now <? d) && (d <=? horizon) && isDayActive d days
                          then Some d else None
              | None => None
              end)
    (fun c => addDays c 1) I) with (fuel := S (Z.to_nat ((horizon - now) / msPerMinute)))
    (results := @nil Z) (cursor := startOfDay now) as (r & c & Hr & HI).
  - intros results c (Hg & Hb & Hc) Hcount Hh. rewrite addDays_eq. split; [|lia].
    assert (Hc' : (c + 1 * 86400000) mod 86400000 = 0)
      by (Z.div_mod_to_equations; lia).
    destruct (dateAtMinutesRaw c tm) as [d|] eqn:Ed.
    + apply dateAtMinutesRaw_midnight in Ed; [|exact Hc].
      destruct ((now <? d) && (d <=? horizon) && isDayActive d days) eqn:E; cbn [pushOpt].
      * apply andb_prop in E as [E E3]. apply andb_prop in E as [E1 E2].
        split; [|split; [|exact Hc']].
        -- apply Good_push; [exact Hg| | |exact Hcount].
           ++ eapply Below_weaken; [|exact Hb]. lia.
           ++ split; [lia|exact E3].
        -- apply Below_push; [|lia]. eapply Below_weaken; [|exact Hb]. lia.
      * split; [exact Hg|split; [|exact Hc']]. eapply Below_weaken; [|exact Hb]. lia.
    + cbn [pushOpt]. split; [exact Hg|split; [|exact Hc']].
      eapply Below_weaken; [|exact Hb]. lia.
  - split; [apply Good_nil|split; [constructor|]].
    rewrite startOfDay_eq. Z.div_mod_to_equations. lia.
  - rewrite addDays_eq, startOfDay_eq. intros Hle.
    apply budget_enough; [|exact Hle].
    pose proof (Z.mod_pos_bound now 86400000 ltac:(lia)). lia.
  - exists r. split; [exact Hr|apply HI].
Qed.

(** ** Months *)




Lemma Day_midnight k : Day (k * 86400000) = k.
Proof. unfold Day, msPerDay. apply Z.div_mul. lia. Qed.

Lemma TimeWithinDay_midnight k : TimeWithinDay (k * 86400000) = 0.
Proof. unfold TimeWithinDay, msPerDay. apply Z.mod_mul. lia. Qed.

Lemma fields_of_day y m d :
  1 <= m <= 12 -> 1 <= d <= monthLength y m ->
  getFullYear (days_from_civil y m d * 86400000) = y /\
  getMonth (days_from_civil y m d * 86400000) = m - 1 /\
  getDate (days_from_civil y m d * 86400000) = d.
Proof.
  intros Hm Hd.
  unfold getFullYear, getMonth, getDate, YearFromTime, MonthFromTime, DateFromTime.
  rewrite Day_midnight, days_civil by assumption. cbn [fst snd]. auto.
Qed.

Lemma MakeDay_next y m d :
  1 <= m <= 12 ->
  MakeDay y m d = days_from_civil (fst (nextMonth (y, m))) (snd (nextMonth (y, m))) 1 + d - 1.
Proof.
  intros Hm. unfold MakeDay, nextMonth. destruct (m =? 12) eqn:E; cbn [fst snd].
  - assert (m = 12) by lia. subst m. reflexivity.
  - replace (m / 12) with 0 by (Z.div_mod_to_equations; lia).
    replace (m mod 12) with m by (Z.div_mod_to_equations; lia).
    now rewrite Z.add_0_r.
Qed.

Lemma nextMonth_length y m :
  days_from_civil (fst (nextMonth (y, m))) (snd (nextMonth (y, m))) 1
  = days_from_civil y m 1 + monthLength y m.
Proof. unfold nextMonth, monthLength. destruct (m =? 12); cbn [fst snd]; lia. Qed.

Lemma nextMonth_range y m :
  1 <= m <= 12 -> 1 <= snd (nextMonth (y, m)) <= 12 /\ y <= fst (nextMonth (y, m)).
Proof. intros H. unfold nextMonth. destruct (m =? 12) eqn:E; cbn [fst snd]; lia. Qed.

Lemma ofYMD_eq y m d : 1 <= m <= 12 ->
  ofYMD y (m - 1) d = (days_from_civil (fullYear y) m 1 + d - 1) * 86400000.
Proof.
  intros Hm. unfold ofYMD. fold (fullYear y). rewrite MakeDay_month by assumption.
  rewrite days_day. unfold MakeDate, MakeTime, msPerDay. lia.
Qed.

Lemma addMonths_first y m :
  1 <= m <= 12 ->
  addMonths (firstOfMonth y m) 1
  = firstOfMonth (fst (nextMonth (y, m))) (snd (nextMonth (y, m))).
Proof.
  intros Hm. pose proof (monthLength_bounds y m Hm) as HL.
  destruct (fields_of_day y m 1 Hm ltac:(lia)) as (Ey & Em & Ed).
  unfold addMonths, setMonth, firstOfMonth.
  unfold getFullYear, getMonth, getDate in *. rewrite Ey, Em, Ed.
  rewrite TimeWithinDay_midnight. replace (m - 1 + 1) with m by lia.
  rewrite MakeDay_next by assumption. unfold MakeDate, msPerDay. lia.
Qed.

Lemma getDaysInMonth_eq y m :
  1 <= m <= 12 -> ~ (0 <= y <= 99) -> getDaysInMonth y (m - 1) = monthLength y m.
Proof.
  intros Hm Hy. pose proof (monthLength_bounds y m Hm) as HL.
  unfold getDaysInMonth, ofYMD.
  replace ((0 <=? y) && (y <=? 99)) with false by lia.
  replace (m - 1 + 1) with m by lia.
  rewrite MakeDay_next, nextMonth_length by assumption.
  replace (MakeDate (days_from_civil y m 1 + monthLength y m + 0 - 1) (MakeTime 0 0 0 0))
    with (days_from_civil y m (monthLength y m) * 86400000)
    by (rewrite (days_day y m (monthLength y m)); unfold MakeDate, MakeTime, msPerDay; lia).
  apply fields_of_day; lia.
Qed.

Lemma normalizeDayOfMonth_range v : 1 <= normalizeDayOfMonth v <= 31.
Proof.
  unfold normalizeDayOfMonth, DEFAULT_DAY_OF_MONTH.
  destruct v as [[q| | |]|]; try lia.
  destruct (round q <? 1) eqn:E1; [lia|]. destruct (31 <? round q) eqn:E2; lia.
Qed.

(** ** The monthly generator *)


Lemma monthlyEmit_first now horizon tm dom y m d :
  1 <= m <= 12 ->
  monthlyEmit now horizon tm dom (firstOfMonth y m) = Some d ->
  now < d <= horizon /\
  d = (days_from_civil (fullYear y) m 1
       + Z.min dom (getDaysInMonth y (m - 1)) - 1) * 86400000 + minutesOf tm * 60000.
Proof.
  intros Hm. pose proof (monthLength_bounds y m Hm) as HL.
  destruct (fields_of_day y m 1 Hm ltac:(lia)) as (Ey & Em & _).
  unfold monthlyEmit. fold (firstOfMonth y m) in Ey, Em. rewrite Ey, Em.
  destruct (dateAtMinutesRaw _ tm) as [d'|] eqn:Ed; [|discriminate].
  apply dateAtMinutesRaw_midnight in Ed.
  - destruct ((now <? d') && (d' <=? horizon)) eqn:E; [|discriminate].
    intros [= <-]. split; [lia|]. rewrite Ed, ofYMD_eq by assumption. reflexivity.
  - rewrite ofYMD_eq by assumption. apply Z.mod_mul. lia.
Qed.

Section Monthly.

Variables (now horizon maxCount : Z) (tm : num) (dom : Z).
Hypothesis Hdom : 1 <= dom <= 31.
Variable modern : Prop.


Lemma MonthInv_step results c :
  MonthInv now horizon maxCount tm modern results c ->
  count results < maxCount -> c <= horizon ->
  MonthInv now horizon maxCount tm modern
    (pushOpt results (monthlyEmit now horizon tm dom c)) (addMonths c 1)
  /\ c + 60000 <= addMonths c 1.
Proof.
  intros (y & m & -> & Hm & Hr & Hc & Hmod) Hcount Hh.
  pose proof (monthLength_bounds y m Hm) as HL.
  destruct (nextMonth_range y m Hm) as [Hm' Hy'].
  rewrite addMonths_first by assumption.
  assert (Enext : firstOfMonth (fst (nextMonth (y, m))) (snd (nextMonth (y, m)))
                  = firstOfMonth y m + monthLength y m * 86400000).
  { unfold firstOfMonth. rewrite nextMonth_length. lia. }
  split; [|lia].
  exists (fst (nextMonth (y, m))), (snd (nextMonth (y, m))).
  split; [reflexivity|]. split; [exact Hm'|].
  destruct (monthlyEmit now horizon tm dom (firstOfMonth y m)) as [d|] eqn:Ed; cbn [pushOpt].
  - apply monthlyEmit_first in Ed as [Hd Ed]; [|exact Hm].
    split; [|split].
    + apply Forall_app. split; [exact Hr|]. constructor; [exact Hd|constructor].
    + rewrite count_snoc. lia.
    + intros Hmodern. destruct (Hmod Hmodern) as (H100 & Hs & Hb).
      unfold fullYear in Ed. replace ((0 <=? y) && (y <=? 99)) with false in Ed by lia.
      rewrite getDaysInMonth_eq in Ed by lia.
      fold (firstOfMonth y m) in *.
      assert (Hlo : firstOfMonth y m + minutesOf tm * 60000 <= d)
        by (unfold firstOfMonth; lia).
      assert (Hhi : d < firstOfMonth y m + monthLength y m * 86400000 + minutesOf tm * 60000)
        by (unfold firstOfMonth; lia).
      split; [lia|]. split.
      * apply increasing_snoc; [exact Hs|]. eapply Below_weaken; [|exact Hb]. lia.
      * rewrite Enext. apply Below_push; [|lia]. eapply Below_weaken; [|exact Hb]. lia.
  - split; [exact Hr|]. split; [exact Hc|].
    intros Hmodern. destruct (Hmod Hmodern) as (H100 & Hs & Hb).
    split; [lia|]. split; [exact Hs|].
    rewrite Enext. eapply Below_weaken; [|exact Hb]. lia.
Qed.

End Monthly.

Lemma firstOfMonth_after now :
  let m := getMonth now + 1 in
  let y := fullYear (getFullYear now) in
  1 <= m <= 12 /\ now < firstOfMonth y m + monthLength y m * 86400000 /\
  (100 <= getFullYear now -> 100 <= y).
Proof.
  unfold getMonth, getFullYear, MonthFromTime, YearFromTime.
  pose proof (civil_days (Day now)) as H.
  destruct (civil_from_days (Day now)) as [[y m] d]. cbn [fst snd].
  destruct H as (E & Hm & Hd). replace (m - 1 + 1) with m by lia.
  split; [exact Hm|]. split.
  - assert (Hday : Day now < days_from_civil (fullYear y) m 1 + monthLength (fullYear y) m).
    { unfold fullYear. destruct ((0 <=? y) && (y <=? 99)) eqn:Q.
      - pose proof (days_lt y m d (1900 + y) m 1 Hm Hm Hd ltac:(lia) ltac:(lia)).
        pose proof (monthLength_bounds (1900 + y) m Hm). lia.
      - rewrite <- E, (days_day y m d). lia. }
    unfold firstOfMonth. unfold Day, msPerDay in Hday. Z.div_mod_to_equations. lia.
  - unfold fullYear. destruct ((0 <=? y) && (y <=? 99)); lia.
Qed.

Lemma generateMonthlyDates_good now tm dayOfMonth maxCount horizonHours :
  exists dates,
    generateMonthlyDates now tm dayOfMonth maxCount horizonHours = Some dates /\
    Forall (fun t => now < t <= horizonOf now (orDefault horizonHours 24)) dates /\
    count dates <= Z.max 0 (orDefault maxCount 50) /\
    (100 <= getFullYear now -> StronglySorted Z.lt dates).
Proof.
  unfold generateMonthlyDates.
  set (mc := orDefault maxCount 50). set (horizon := horizonOf now (orDefault horizonHours 24)).
  set (dom := normalizeDayOfMonth (Some dayOfMonth)).
  rewrite monthlyLoop_gen. fold (monthlyEmit now horizon tm dom). unfold budget.
  destruct (firstOfMonth_after now) as (Hm & Hafter & Hy).
  pose proof (ofYMD_eq (getFullYear now) (getMonth now + 1) 1 Hm) as E0.
  replace (getMonth now + 1 - 1) with (getMonth now) in E0 by lia.
  replace (days_from_civil (fullYear (getFullYear now)) (getMonth now + 1) 1 + 1 - 1)
    with (days_from_civil (fullYear (getFullYear now)) (getMonth now + 1) 1) in E0 by lia.
  fold (firstOfMonth (fullYear (getFullYear now)) (getMonth now + 1)) in E0.
  destruct (genLoop_peel horizon mc (monthlyEmit now horizon tm dom)
    (fun c => addMonths c 1)
    (MonthInv now horizon mc tm (100 <= getFullYear now)))
    with (fuel := S (Z.to_nat ((horizon - now) / msPerMinute)))
    (results := @nil Z)
    (cursor := ofYMD (getFullYear now) (getMonth now) 1) as (r & c & Hr & HI).
  - intros results c. apply MonthInv_step. apply normalizeDayOfMonth_range.
  - exists (fullYear (getFullYear now)), (getMonth now + 1).
    split; [exact E0|]. split; [exact Hm|]. split; [constructor|].
    split; [unfold count; cbn; lia|].
    intros H100. split; [auto|]. split; constructor.
  - rewrite E0, addMonths_first by assumption. intros Hle.
    apply budget_enough; [|exact Hle].
    unfold firstOfMonth at 1. rewrite nextMonth_length. unfold firstOfMonth in Hafter. lia.
  - exists r. split; [exact Hr|].
    destruct HI as (y & m & _ & _ & Hrange & Hcount & Hmod).
    split; [exact Hrange|]. split; [exact Hcount|].
    intros H100. apply Hmod, H100.
Qed.

(** ** Sorting *)

Section Sorting.

Context {A : Type}.
Variables (cmp : A -> A -> Z).

Lemma insert_perm x l : Permutation (insert cmp x l) (x :: l).
Proof.
  induction l as [|y l IH]; cbn [insert]; [reflexivity|].
  destruct (cmp x y <=? 0); [reflexivity|].
  rewrite IH. apply perm_swap.
Qed.

Lemma sort_perm l : Permutation (sort cmp l) l.
Proof.
  induction l as [|x l IH]; cbn [sort]; [reflexivity|].
  rewrite insert_perm. now constructor.
Qed.

End Sorting.

Lemma insert_sorted x l :
  StronglySorted notAfter l -> StronglySorted notAfter (insert byDate x l).
Proof.
  induction 1 as [|y l Hl IH Hy]; cbn [insert].
  - repeat constructor.
  - destruct (byDate x y <=? 0) eqn:E.
    + assert (Hxy : notAfter x y) by (unfold notAfter, byDate, getTime in *; lia).
      constructor; [constructor; assumption|].
      constructor; [exact Hxy|].
      eapply Forall_impl; [|exact Hy]. unfold notAfter in *. intros; lia.
    + constructor; [exact IH|].
      eapply Permutation_Forall; [symmetry; apply insert_perm|].
      constructor; [|exact Hy]. unfold notAfter, byDate, getTime in *. lia.
Qed.

Lemma sort_sorted l : StronglySorted notAfter (sort byDate l).
Proof.
  induction l as [|x l IH]; cbn [sort]; [constructor|]. now apply insert_sorted.
Qed.

Lemma insert_stable t x l :
  filter (at_instant t) (insert byDate x l) = filter (at_instant t) (x :: l).
Proof.
  induction l as [|y l IH]; cbn [insert]; [reflexivity|].
  destruct (byDate x y <=? 0) eqn:E; [reflexivity|].
  cbn [filter] in *. rewrite IH.
  destruct (at_instant t x) eqn:Ex; [|reflexivity].
  destruct (at_instant t y) eqn:Ey; [|reflexivity].
  unfold at_instant, byDate, getTime in *. lia.
Qed.

Lemma sort_stable t l : filter (at_instant t) (sort byDate l) = filter (at_instant t) l.
Proof.
  induction l as [|x l IH]; cbn [sort]; [reflexivity|].
  rewrite insert_stable. cbn [filter]. now rewrite IH.
Qed.

Lemma slice0_firstn {A} (l : list A) (e : Z) :
  (e < 0 -> l = []) -> slice0 l e = firstn (Z.to_nat e) l.
Proof.
  intros H. unfold slice0. destruct (e <? 0) eqn:E.
  - rewrite H by lia. now rewrite !firstn_nil.
  - destruct (Z_le_gt_dec e (Z.of_nat (length l))).
    + now rewrite Z.min_l by lia.
    + rewrite Z.min_r by lia. rewrite Nat2Z.id, firstn_all.
      symmetry. apply firstn_all2. lia.
Qed.

(** ** The dispatcher and the queue *)

Lemma datesFor_good schedule now maxCount horizonHours :
  exists dates,
    datesFor schedule now maxCount horizonHours = Some dates /\
    Forall (fun t => now < t <= horizonOf now horizonHours) dates /\
    count dates <= Z.max 0 maxCount /\
    (100 <= getFullYear now \/ type schedule <> monthly -> StronglySorted Z.lt dates).
Proof.
  unfold datesFor. destruct (type schedule) eqn:T.
  - destruct (generateFireDatesVia_good now (intervalMinutes schedule)
                (startMinutesFromMidnight schedule) (endMinutesFromMidnight schedule)
                (daysOfWeek schedule) (Some maxCount) (Some horizonHours))
      as (via & dates & E & Hs & Hp & Hc).
    exists dates. unfold generateFireDates. rewrite E. cbn [option_map snd orDefault] in *.
    split; [reflexivity|]. split; [|auto].
    eapply Forall_impl; [|exact Hp]. intros t [H _]. exact H.
  - destruct (generateFixedTimeDates_good now (startMinutesFromMidnight schedule)
                (daysOfWeek schedule) (Some maxCount) (Some horizonHours))
      as (dates & E & Hs & Hp & Hc).
    exists dates. cbn [orDefault] in *. split; [exact E|]. split; [|auto].
    eapply Forall_impl; [|exact Hp]. intros t [H _]. exact H.
  - destruct (generateFixedTimeDates_good now (startMinutesFromMidnight schedule)
                (daysOfWeek schedule) (Some maxCount) (Some horizonHours))
      as (dates & E & Hs & Hp & Hc).
    exists dates. cbn [orDefault] in *. split; [exact E|]. split; [|auto].
    eapply Forall_impl; [|exact Hp]. intros t [H _]. exact H.
  - destruct (generateMonthlyDates_good now (startMinutesFromMidnight schedule)
                (ofZ (normalizeDayOfMonth (dayOfMonth schedule)))
                (Some maxCount) (Some horizonHours))
      as (dates & E & Hp & Hc & Hs).
    exists dates. cbn [orDefault] in *. split; [exact E|]. split; [exact Hp|].
    split; [exact Hc|]. intros [H|H]; [auto|congruence].
Qed.

Lemma collect_tagged now maxCount horizonHours schedules :
  exists perRule,
    Forall2 (fun schedule dates => datesFor schedule now maxCount horizonHours = Some dates)
      schedules perRule /\
    forall combined,
      collect schedules now maxCount horizonHours combined
      = Some (combined ++ taggedDates schedules perRule).
Proof.
  induction schedules as [|schedule rest IH].
  - exists []. split; [constructor|]. intros combined. cbn. now rewrite app_nil_r.
  - destruct IH as (perRule & HF & Hc).
    destruct (datesFor_good schedule now maxCount horizonHours) as (dates & E & _).
    exists (dates :: perRule). split; [constructor; assumption|].
    intros combined. cbn [collect]. rewrite E, Hc.
    unfold taggedDates. cbn [combine map concat fst snd]. now rewrite app_assoc.
Qed.

Lemma taggedDates_bounds now maxCount horizonHours schedules perRule :
  Forall2 (fun schedule dates => datesFor schedule now maxCount horizonHours = Some dates)
    schedules perRule ->
  Forall (fun n => now < Notification.date n <= horizonOf now horizonHours)
    (taggedDates schedules perRule) /\
  (maxCount < 0 -> taggedDates schedules perRule = []).
Proof.
  induction 1 as [|schedule dates rest perRule E HF IH]; unfold taggedDates in *;
    cbn [combine map concat fst snd].
  - split; [constructor|reflexivity].
  - destruct (datesFor_good schedule now maxCount horizonHours) as (dates' & E' & Hp & Hc & _).
    rewrite E in E'. injection E' as <-. destruct IH as [IH1 IH2]. split.
    + apply Forall_app. split; [|exact IH1].
      apply Forall_map. eapply Forall_impl; [|exact Hp]. cbn. auto.
    + intros Hneg. rewrite IH2 by assumption.
      destruct dates; [reflexivity|]. unfold count in Hc. cbn [length] in Hc. lia.
Qed.

(** Where an entry of the tagged list comes from. *)
Lemma taggedDates_origin now maxCount horizonHours schedules perRule :
  Forall2 (fun schedule dates => datesFor schedule now maxCount horizonHours = Some dates)
    schedules perRule ->
  forall n, In n (taggedDates schedules perRule) ->
    exists schedule dates,
      In schedule schedules /\ datesFor schedule now maxCount horizonHours = Some dates /\
      In (Notification.date n) dates /\
      Notification.scheduleId n = id schedule /\
      Notification.message n = message schedule.
Proof.
  induction 1 as [|schedule dates rest perRule E HF IH]; unfold taggedDates in *;
    cbn [combine map concat fst snd]; intros n Hn; [destruct Hn|].
  apply in_app_or in Hn as [Hn|Hn].
  - apply in_map_iff in Hn as (d & <- & Hd).
    exists schedule, dates. cbn. auto.
  - destruct (IH n Hn) as (s' & d' & Hs' & rest').
    exists s', d'. split; [now right|exact rest'].
Qed.

Lemma Good_WithinBounds now maxCount horizonHours days dates :
  0 <= maxCount ->
  Good maxCount (Emitted now (horizonOf now horizonHours) days) dates ->
  WithinBounds now maxCount horizonHours dates.
Proof.
  intros H (Hs & Hp & Hc). split; [exact Hs|]. split; [|lia].
  eapply Forall_impl; [|exact Hp]. intros t [Ht _]. exact Ht.
Qed.

Lemma Forall_prefix {A} (P : A -> Prop) n (l : list A) : Forall P l -> Forall P (firstn n l).
Proof.
  revert l. induction n as [|n IH]; intros l H; cbn; [constructor|].
  destruct H; constructor; auto.
Qed.

(** C1.  Whenever [maxCount] is not negative, each generator returns, and
    what it returns is strictly increasing, strictly after [now], at or
    before [now + horizonHours] hours, and at most [maxCount] long: the
    within-day generator, the fixed-time generator, the fallback sweep on a
    clamped interval, and the monthly generator, whose result is strictly
    increasing when the clock is in a year written with three digits or
    more.  The merged queue keeps the bounds on the instants and on the
    length. *)
Theorem generation_within_bounds (now : Z) (maxCount horizonHours : option Z) :
  0 <= orDefault maxCount 50 ->
  let mc := orDefault maxCount 50 in
  let hh := orDefault horizonHours 24 in
  (forall intervalMinutes startMinutes endMinutes daysOfWeek,
     exists dates,
       generateFireDates now intervalMinutes startMinutes endMinutes daysOfWeek
         maxCount horizonHours = Some dates /\
       WithinBounds now mc hh dates) /\
  (forall timeMinutes daysOfWeek,
     exists dates,
       generateFixedTimeDates now timeMinutes daysOfWeek maxCount horizonHours = Some dates /\
       WithinBounds now mc hh dates) /\
  (forall timeMinutes dayOfMonth,
     exists dates,
       generateMonthlyDates now timeMinutes dayOfMonth maxCount horizonHours = Some dates /\
       Forall (fun t => now < t <= horizonOf now hh) dates /\
       count dates <= mc /\
       (100 <= getFullYear now -> StronglySorted Z.lt dates)) /\
  (forall interval startMinutes endMinutes daysOfWeek,
     (5 <= interval)%Q ->
     exists dates,
       generateFallbackDates now interval startMinutes endMinutes daysOfWeek mc hh
       = Some dates /\
       WithinBounds now mc hh dates) /\
  (forall schedules,
     exists queue,
       buildNotificationQueue now schedules maxCount horizonHours = Some queue /\
       Forall (fun n => now < Notification.date n <= horizonOf now hh) queue /\
       Z.of_nat (length queue) <= mc).
Proof.
  intros Hmc mc hh. repeat apply conj.
  - intros i s e d.
    destruct (generateFireDatesVia_good now i s e d maxCount horizonHours)
      as (via & dates & E & Hg).
    exists dates. unfold generateFireDates. rewrite E. split; [reflexivity|].
    eapply Good_WithinBounds; eassumption.
  - intros tm d.
    destruct (generateFixedTimeDates_good now tm d maxCount horizonHours) as (dates & E & Hg).
    exists dates. split; [exact E|]. eapply Good_WithinBounds; eassumption.
  - intros tm dom.
    destruct (generateMonthlyDates_good now tm dom maxCount horizonHours)
      as (dates & E & Hp & Hc & Hs).
    exists dates. split; [exact E|]. split; [exact Hp|]. split; [|exact Hs].
    fold mc in Hc. lia.
  - intros i s e d Hi.
    destruct (generateFallbackDates_good now i s e d mc hh Hi) as (dates & E & Hg).
    exists dates. split; [exact E|]. eapply Good_WithinBounds; eassumption.
  - intros schedules. unfold buildNotificationQueue. fold mc hh.
    destruct (collect_tagged now mc hh schedules) as (perRule & HF & Hc).
    rewrite Hc. cbn [app].
    destruct (taggedDates_bounds now mc hh schedules perRule HF) as [Hb Hneg].
    eexists. split; [reflexivity|].
    rewrite slice0_firstn by (intros; lia). split.
    + apply Forall_prefix. eapply Permutation_Forall; [symmetry; apply sort_perm|exact Hb].
    + pose proof (firstn_le_length (Z.to_nat mc) (sort byDate (taggedDates schedules perRule))).
      lia.
Qed.

Lemma generation_within_bounds_witness :
  (exists dates,
     generateFixedTimeDates (clock monday 8 10) (ofZ 540) None None None = Some dates /\
     WithinBounds (clock monday 8 10) 50 24 dates) /\
  (exists dates,
     generateMonthlyDates (clock monday 8 10) (ofZ 540) (ofZ 31) None None = Some dates /\
     Forall (fun t => clock monday 8 10 < t <= horizonOf (clock monday 8 10) 24) dates /\
     count dates <= 50 /\
     StronglySorted Z.lt dates) /\
  (exists dates,
     generateFallbackDates (clock monday 8 10) 5 0 0 everyDay 50 24 = Some dates /\
     WithinBounds (clock monday 8 10) 50 24 dates).
Proof.
  assert (H : 0 <= orDefault None 50) by (cbn; lia).
  pose proof (generation_within_bounds (clock monday 8 10) None None H) as G.
  cbn zeta in G. destruct G as (_ & Gfixed & Gmonthly & Gfallback & _).
  split; [exact (Gfixed (ofZ 540) None)|]. split.
  - destruct (Gmonthly (ofZ 540) (ofZ 31)) as (dates & E & Hr & Hc & Hs).
    exists dates. split; [exact E|]. split; [exact Hr|]. split; [exact Hc|].
    apply Hs. vm_compute. discriminate.
  - apply (Gfallback 5%Q 0 0 everyDay). discriminate.
Defined.

(** C2.  The queue is the first [maxCount] entries of a list that holds
    every generated instant once for its rule, in an entry whose
    [scheduleId] is the identifier of that rule and whose [message] is the
    message of that rule, the entries concatenated in the order of the rules
    and then sorted: a permutation of that list, non-decreasing by instant, in
    which the entries of any one instant keep the order they had. *)
Theorem queue_sorted_stable_prefix (now : Z) (schedules : list ScheduleRule)
    (maxCount horizonHours : option Z) :
  let mc := orDefault maxCount 50 in
  let hh := orDefault horizonHours 24 in
  exists perRule sorted,
    Forall2 (fun schedule dates => datesFor schedule now mc hh = Some dates)
      schedules perRule /\
    (let tagged :=
      concat (map (fun p => map (fun instant =>
                                   {| Notification.scheduleId := id (fst p);
                                      Notification.date := instant;
                                      Notification.message := message (fst p) |})
                             (snd p))
                (combine schedules perRule)) in
    Permutation sorted tagged /\
    Forall (fun n => exists schedule dates,
              In schedule schedules /\ datesFor schedule now mc hh = Some dates /\
              In (Notification.date n) dates /\
              Notification.scheduleId n = id schedule /\
              Notification.message n = message schedule) sorted /\
    StronglySorted notAfter sorted /\
    (forall t, filter (at_instant t) sorted = filter (at_instant t) tagged) /\
    buildNotificationQueue now schedules maxCount horizonHours
    = Some (firstn (Z.to_nat mc) sorted)).
Proof.
  intros mc hh.
  destruct (collect_tagged now mc hh schedules) as (perRule & HF & Hc).
  exists perRule, (sort byDate (taggedDates schedules perRule)).
  split; [exact HF|]. cbv zeta.
  change (concat (map (fun p => map (fun instant =>
                                   {| Notification.scheduleId := id (fst p);
                                      Notification.date := instant;
                                      Notification.message := message (fst p) |})
                             (snd p))
                (combine schedules perRule)))
    with (taggedDates schedules perRule).
  split; [apply sort_perm|].
  split.
  { apply Forall_forall. intros n Hn.
    apply (taggedDates_origin now mc hh schedules perRule HF).
    eapply Permutation_in; [apply sort_perm|exact Hn]. }
  split; [apply sort_sorted|].
  split; [intros t; apply sort_stable|].
  unfold buildNotificationQueue. fold mc hh. rewrite Hc. cbn [app].
  rewrite slice0_firstn; [reflexivity|].
  intros Hneg. destruct (taggedDates_bounds now mc hh schedules perRule HF) as [_ Hnil].
  now rewrite Hnil.
Qed.

(** ** An empty weekday mask *)

Lemma all_false_existsb mask :
  Forall (fun b => b = false) mask -> existsb (fun b => b) mask = false.
Proof. induction 1 as [|b l Hb _ IH]; cbn; [reflexivity|]. now rewrite Hb, IH. Qed.

Lemma normalizeDaysOfWeek_seven mask :
  length mask = 7%nat -> normalizeDaysOfWeek (Some mask) = mask.
Proof. intros H. unfold normalizeDaysOfWeek. rewrite H. cbn. apply map_id. Qed.

(** C3.  A rule of a kind whose generator is handed the weekday mask
    (within-day, daily, weekly), with a seven-element mask that is false
    everywhere, generates nothing, whatever the horizon and the cap; the
    within-day generator returns from its first return statement, before the
    search and the fallback sweep. *)
Theorem empty_mask_short_circuit (schedule : ScheduleRule) (mask : list bool)
    (now maxCount horizonHours : Z) :
  usesWeekdayMask (type schedule) = true ->
  daysOfWeek schedule = Some mask ->
  length mask = 7%nat ->
  Forall (fun b => b = false) mask ->
  datesFor schedule now maxCount horizonHours = Some [] /\
  generateFireDatesVia now (intervalMinutes schedule) (startMinutesFromMidnight schedule)
    (endMinutesFromMidnight schedule) (daysOfWeek schedule) (Some maxCount) (Some horizonHours)
  = Some (ShortCircuit, []).
Proof.
  intros Hk Hd Hlen Hall.
  assert (Hvia : generateFireDatesVia now (intervalMinutes schedule)
            (startMinutesFromMidnight schedule) (endMinutesFromMidnight schedule)
            (daysOfWeek schedule) (Some maxCount) (Some horizonHours)
          = Some (ShortCircuit, [])).
  { unfold generateFireDatesVia.
    rewrite Hd, normalizeDaysOfWeek_seven, all_false_existsb by assumption. reflexivity. }
  split; [|exact Hvia].
  unfold datesFor. destruct (type schedule); try discriminate Hk.
  - unfold generateFireDates. now rewrite Hvia.
  - unfold generateFixedTimeDates.
    rewrite Hd, normalizeDaysOfWeek_seven, all_false_existsb by assumption. reflexivity.
  - unfold generateFixedTimeDates.
    rewrite Hd, normalizeDaysOfWeek_seven, all_false_existsb by assumption. reflexivity.
Qed.

Lemma empty_mask_short_circuit_witness :
  datesFor (rule weekly 60 540 0 (Some (repeat false 7)) None) (clock monday 8 10) 50 24
  = Some [] /\
  generateFireDatesVia (clock monday 8 10) (ofZ 60) (ofZ 540) (ofZ 0)
    (Some (repeat false 7)) (Some 50) (Some 24)
  = Some (ShortCircuit, []).
Proof.
  apply (empty_mask_short_circuit (rule weekly 60 540 0 (Some (repeat false 7)) None)
           (repeat false 7) (clock monday 8 10) 50 24).
  - reflexivity.
  - reflexivity.
  - reflexivity.
  - repeat constructor.
Defined.

(** ** Monthly rules and the weekday mask *)

Lemma datesFor_remask remask schedule now maxCount horizonHours :
  datesFor (remaskMonthly remask schedule) now maxCount horizonHours
  = datesFor schedule now maxCount horizonHours.
Proof.
  unfold remaskMonthly. destruct (type schedule) eqn:T; try reflexivity.
  unfold datesFor. cbn [type withDaysOfWeek]. rewrite T. reflexivity.
Qed.

Lemma tag_remask remask schedule d : tag (remaskMonthly remask schedule) d = tag schedule d.
Proof. unfold remaskMonthly. destruct (type schedule); reflexivity. Qed.

Lemma collect_remask remask now maxCount horizonHours schedules : forall combined,
  collect (map (remaskMonthly remask) schedules) now maxCount horizonHours combined
  = collect schedules now maxCount horizonHours combined.
Proof.
  induction schedules as [|schedule rest IH]; intros combined; cbn [map collect]; [reflexivity|].
  rewrite datesFor_remask.
  destruct (datesFor schedule now maxCount horizonHours) as [dates|]; [|reflexivity].
  rewrite IH. do 2 f_equal. apply map_ext. intros d. apply tag_remask.
Qed.

(** C10.  Replacing the weekday mask of the monthly rules by any other
    mask, or by none, changes neither the dates generated for a rule nor the
    queue built from the rules. *)
Theorem monthly_ignores_daysOfWeek (remask : ScheduleRule -> option (list bool))
    (now : Z) (schedules : list ScheduleRule) (maxCount horizonHours : option Z) :
  Forall (fun schedule =>
            datesFor (remaskMonthly remask schedule) now (orDefault maxCount 50)
              (orDefault horizonHours 24)
            = datesFor schedule now (orDefault maxCount 50) (orDefault horizonHours 24))
    schedules /\
  buildNotificationQueue now (map (remaskMonthly remask) schedules) maxCount horizonHours
  = buildNotificationQueue now schedules maxCount horizonHours.
Proof.
  split.
  - apply Forall_forall. intros schedule _. apply datesFor_remask.
  - unfold buildNotificationQueue. now rewrite collect_remask.
Qed.

(** ** Normalisation of the minutes and of the interval *)

Lemma clamp_saturate v :
  clamp v MIN_INTERVAL MAX_INTERVAL
  = match v with Fin q => saturateQ 5 180 q | _ => 5%Q end.
Proof.
  destruct v as [q| | |]; try reflexivity.
  unfold clamp, saturateQ, JsNum.min, JsNum.max, MIN_INTERVAL, MAX_INTERVAL.
  destruct (Qle_bool 5 q) eqn:E1.
  - destruct (Qle_bool 180 q); reflexivity.
  - destruct (Qle_bool 180 q) eqn:E2; [|reflexivity].
    exfalso. apply Qle_bool_iff in E2. apply Qle_bool_false in E1.
    assert (H : (180 < 5)%Q) by (eapply Qle_lt_trans; eassumption). discriminate H.
Qed.

Lemma clamp_idem v :
  clamp (Fin (clamp v MIN_INTERVAL MAX_INTERVAL)) MIN_INTERVAL MAX_INTERVAL
  = clamp v MIN_INTERVAL MAX_INTERVAL.
Proof.
  rewrite !clamp_saturate. destruct v as [q| | |]; try reflexivity.
  unfold saturateQ. destruct (Qle_bool 180 q) eqn:E1; [reflexivity|].
  destruct (Qle_bool 5 q) eqn:E2; [|reflexivity].
  now rewrite E1, E2.
Qed.

Lemma normalizeMinutes_idem v : normalizeMinutes (ofZ (normalizeMinutes v)) = normalizeMinutes v.
Proof.
  pose proof (normalizeMinutes_range v) as H. unfold ofZ.
  rewrite normalizeMinutes_mod. unfold floor. rewrite Qfloor_Z.
  apply Z.mod_small. exact H.
Qed.

(** C5 fails as stated: 1500 minutes are not clamped to 1439 but wrapped to
    60, and the within-day generator run on 1500 and 1560 differs from the
    run on the clamped values. *)
Lemma minutes_wrap_not_clamp :
  normalizeMinutes (ofZ 1500) = 60 /\
  saturate 0 1439 1500 = 1439 /\
  generateFireDates (clock monday 0 30) (ofZ 60) (ofZ 1500) (ofZ 1560) None None None
  <> generateFireDates (clock monday 0 30) (ofZ 60)
       (ofZ (saturate 0 1439 1500)) (ofZ (saturate 0 1439 1560)) None None None.
Proof.
  split; [reflexivity|]. split; [reflexivity|]. vm_compute. discriminate.
Qed.

(** C5, amended.  [intervalMinutes] is clamped into [5, 180], a value that
    is not finite becoming 5; [startMinutesFromMidnight] and
    [endMinutesFromMidnight] are floored and wrapped modulo 1440 into
    [0, 1440), a value that is not finite becoming 0; the within-day
    generator computes with these values: its result is the one it gives on
    the normalised inputs. *)
Theorem minutes_and_interval_normalised :
  (forall v, (5 <= clamp v MIN_INTERVAL MAX_INTERVAL <= 180)%Q /\
             clamp v MIN_INTERVAL MAX_INTERVAL
             = match v with Fin q => saturateQ 5 180 q | _ => 5%Q end) /\
  (forall v, 0 <= normalizeMinutes v < 1440 /\
             normalizeMinutes v = match v with Fin q => floor q mod 1440 | _ => 0 end) /\
  (forall now intervalMinutes startMinutes endMinutes daysOfWeek maxCount horizonHours,
     generateFireDates now intervalMinutes startMinutes endMinutes daysOfWeek
       maxCount horizonHours
     = generateFireDates now (Fin (clamp intervalMinutes MIN_INTERVAL MAX_INTERVAL))
         (ofZ (normalizeMinutes startMinutes)) (ofZ (normalizeMinutes endMinutes))
         daysOfWeek maxCount horizonHours).
Proof.
  split; [|split].
  - intros v. split; [apply clamp_range|apply clamp_saturate].
  - intros v. split; [apply normalizeMinutes_range|].
    destruct v; try reflexivity. apply normalizeMinutes_mod.
  - intros. unfold generateFireDates, generateFireDatesVia.
    now rewrite clamp_idem, !normalizeMinutes_idem.
Qed.

(** The fixed-time and monthly generators take [startMinutesFromMidnight]
    as it comes: 1500 minutes on a daily rule fire at 01:00 of the next day,
    past a 24-hour horizon, where 60 minutes fire at 01:00 today. *)
Lemma fixed_time_minutes_not_normalised :
  datesFor (rule daily 60 1500 0 None None) (clock monday 0 30) 50 24 = Some [] /\
  datesFor (rule daily 60 60 0 None None) (clock monday 0 30) 50 24
  = Some [clock monday 1 0].
Proof. split; vm_compute; reflexivity. Qed.

(** ** Normalisation of the day of the month *)

Lemma round_ofZ k : round (inject_Z k) = k.
Proof.
  unfold round, Qfloor, Qplus, inject_Z. cbn [Qnum Qden].
  change (Z.pos (1 * 2)) with 2. Z.div_mod_to_equations. lia.
Qed.

Lemma normalizeDayOfMonth_idem v :
  normalizeDayOfMonth (Some (ofZ (normalizeDayOfMonth v))) = normalizeDayOfMonth v.
Proof.
  pose proof (normalizeDayOfMonth_range v) as H.
  unfold ofZ. unfold normalizeDayOfMonth at 1. rewrite round_ofZ.
  destruct (normalizeDayOfMonth v <? 1) eqn:E1; [lia|].
  destruct (31 <? normalizeDayOfMonth v) eqn:E2; [lia|]. reflexivity.
Qed.

(** C6 fails as stated: a day of the month of 40 is out of range and is
    replaced with 31, not with 1, and the monthly dates are those of day 31. *)
Lemma dayOfMonth_40_is_31 :
  normalizeDayOfMonth (Some (ofZ 40)) = 31 /\
  normalizeDayOfMonth (Some (ofZ 40)) <> 1 /\
  datesFor (rule monthly 60 540 0 None (Some (ofZ 40))) (clock monday 8 10) 50 1000
  = Some [clock (monday + 30 * msPerDay) 9 0] /\
  datesFor (rule monthly 60 540 0 None (Some (ofZ 40))) (clock monday 8 10) 50 1000
  <> datesFor (rule monthly 60 540 0 None (Some (ofZ 1))) (clock monday 8 10) 50 1000.
Proof.
  split; [reflexivity|]. split; [discriminate|].
  split; [vm_compute; reflexivity|vm_compute; discriminate].
Qed.

(** C6, amended.  A day of the month that is missing or not finite is
    replaced with 1; a finite one is rounded and clamped into [1, 31], so a
    value below 1 becomes 1 and a value above 31 becomes 31.  The monthly
    generator and the dispatcher give the result they give on the normalised
    value. *)
Theorem dayOfMonth_normalised :
  (forall v, 1 <= normalizeDayOfMonth v <= 31 /\
             normalizeDayOfMonth v
             = match v with Some (Fin q) => saturate 1 31 (round q) | _ => 1 end) /\
  (forall now timeMinutes dayOfMonth maxCount horizonHours,
     generateMonthlyDates now timeMinutes dayOfMonth maxCount horizonHours
     = generateMonthlyDates now timeMinutes
         (ofZ (normalizeDayOfMonth (Some dayOfMonth))) maxCount horizonHours) /\
  (forall schedule now maxCount horizonHours,
     datesFor schedule now maxCount horizonHours
     = datesFor (withDayOfMonth schedule
                   (Some (ofZ (normalizeDayOfMonth (dayOfMonth schedule)))))
         now maxCount horizonHours).
Proof.
  split; [|split].
  - intros v. split; [apply normalizeDayOfMonth_range|].
    unfold normalizeDayOfMonth, saturate, DEFAULT_DAY_OF_MONTH.
    destruct v as [[q| | |]|]; try reflexivity.
    destruct (round q <? 1) eqn:E1; [lia|]. destruct (31 <? round q) eqn:E2; lia.
  - intros. unfold generateMonthlyDates. now rewrite normalizeDayOfMonth_idem.
  - intros. unfold datesFor. cbn [type withDayOfMonth intervalMinutes startMinutesFromMidnight
      endMinutesFromMidnight daysOfWeek dayOfMonth].
    destruct (type schedule); try reflexivity.
    now rewrite normalizeDayOfMonth_idem.
Qed.

(** ** The examples of the spec on 1 January 2024 *)

Lemma all_day_grid_2024 :
  generateFireDates (clock monday 8 10) (ofZ 60) (ofZ 0) (ofZ 0) (Some everyDay) None (Some 24)
  = Some (map (fun k => clock monday (9 + Z.of_nat k) 0) (seq 0 24)).
Proof. vm_compute. reflexivity. Qed.

Lemma all_day_grid_seconds_2024 :
  generateFireDates (clock monday 8 10 + 30 * 1000) (ofZ 60) (ofZ 0) (ofZ 0)
    (Some everyDay) None (Some 24)
  = Some (map (fun k => clock monday (9 + Z.of_nat k) 0 + 30 * 1000) (seq 0 24)).
Proof. vm_compute. reflexivity. Qed.

Lemma midnight_spanning_2024 :
  generateFireDates (clock monday 20 0) (ofZ 60) (ofZ (21 * 60)) (ofZ (6 * 60))
    (Some mondayOnly) None (Some 24)
  = Some [clock monday 21 0; clock monday 22 0; clock monday 23 0] /\
  generateFireDates (clock monday 20 0) (ofZ 60) (ofZ (21 * 60)) (ofZ (6 * 60))
    (Some everyDay) None (Some 24)
  = Some ([clock monday 21 0; clock monday 22 0; clock monday 23 0]
          ++ [clock tuesday 0 0; clock tuesday 1 0; clock tuesday 2 0;
              clock tuesday 3 0; clock tuesday 4 0; clock tuesday 5 0]).
Proof. split; vm_compute; reflexivity. Qed.

(** ** Closed form of the loop scheme *)

Section Closed.

Variables (horizon maxCount : Z) (emit : Z -> option Z) (next : Z -> Z).

Lemma genLoop_closed n : forall fuel results cursor,
  (exists k, (k <= n)%nat /\ horizon < iterN next k cursor) ->
  (n <= fuel)%nat ->
  genLoop horizon maxCount emit next fuel results cursor
  = Some (results ++ firstn (Z.to_nat (maxCount - count results))
                       (emitAll emit (upTo horizon (iterates next n cursor)))).
Proof.
  induction n as [|n IH]; intros fuel results cursor (k & Hk & Hbeyond) Hfuel.
  - assert (k = 0%nat) by lia. subst k. cbn [iterN] in Hbeyond.
    cbn [iterates upTo emitAll flat_map]. rewrite firstn_nil, app_nil_r.
    destruct fuel; cbn [genLoop];
      replace (cursor <=? horizon) with false by lia; now rewrite andb_false_r.
  - cbn [iterates upTo].
    destruct (cursor <=? horizon) eqn:Ch.
    + destruct (count results <? maxCount) eqn:Cc.
      * destruct fuel as [|fuel]; [lia|]. cbn [genLoop]. rewrite Cc, Ch. cbn [andb].
        rewrite IH; [|destruct k as [|k]; [cbn in Hbeyond; lia|exists k; split; [lia|exact Hbeyond]]|lia].
        f_equal. cbn [emitAll flat_map].
        destruct (emit cursor) as [d|]; cbn [pushOpt].
        -- rewrite count_snoc, <- app_assoc. f_equal. cbn [app].
           replace (Z.to_nat (maxCount - count results))
             with (S (Z.to_nat (maxCount - (count results + 1)))) by lia.
           reflexivity.
        -- reflexivity.
      * replace (Z.to_nat (maxCount - count results)) with 0%nat by lia.
        cbn [firstn]. rewrite app_nil_r.
        destruct fuel; cbn [genLoop]; rewrite Cc; reflexivity.
    + cbn [emitAll flat_map]. rewrite firstn_nil, app_nil_r.
      destruct fuel; cbn [genLoop]; rewrite Ch; now rewrite andb_false_r.
Qed.

Lemma iterN_lower (Dom : Z -> Prop) (delta : Z) :
  (forall c, Dom c -> Dom (next c) /\ c + delta <= next c) ->
  forall n c, Dom c -> c + Z.of_nat n * delta <= iterN next n c.
Proof.
  intros Hstep. induction n as [|n IH]; intros c Hc; cbn [iterN]; [lia|].
  destruct (Hstep c Hc) as [Hd Hn]. specialize (IH (next c) Hd). lia.
Qed.

End Closed.


Lemma upTo_stable next horizon n : forall m c,
  (exists k, (k <= n)%nat /\ horizon < iterN next k c) -> (n <= m)%nat ->
  upTo horizon (iterates next m c) = upTo horizon (iterates next n c).
Proof.
  induction n as [|n IH]; intros m c (k & Hk & Hb) Hm.
  - assert (k = 0%nat) by lia. subst k. cbn [iterN] in Hb.
    destruct m; cbn [iterates upTo]; [reflexivity|].
    replace (c <=? horizon) with false by lia. reflexivity.
  - destruct m as [|m]; [lia|]. cbn [iterates upTo].
    destruct (c <=? horizon) eqn:C; [|reflexivity].
    f_equal. apply IH; [|lia].
    destruct k as [|k]; [cbn in Hb; lia|]. exists k. split; [lia|exact Hb].
Qed.

Lemma budget_reaches now horizon start delta (next : Z -> Z) (Dom : Z -> Prop) :
  (forall c, Dom c -> Dom (next c) /\ c + delta <= next c) ->
  Dom start -> 60000 <= delta -> now + 60000 <= start + 2 * delta ->
  horizon < iterN next (budget now horizon) start.
Proof.
  intros Hstep Hd Hdelta Hs.
  pose proof (iterN_lower next Dom delta Hstep (budget now horizon) start Hd) as Hlow.
  unfold budget in *. unfold msPerMinute in *.
  set (k := Z.of_nat (Z.to_nat ((horizon - now) / 60000))) in *.
  assert (Hk : 0 <= k) by (unfold k; lia).
  rewrite !Nat2Z.inj_succ in Hlow. fold k in Hlow.
  assert (Hmul : k * 60000 <= k * delta) by (apply Z.mul_le_mono_nonneg_l; lia).
  replace (Z.succ (Z.succ k) * delta) with (k * delta + 2 * delta) in Hlow by ring.
  destruct (Z_lt_le_dec horizon now) as [Hn|Hn].
  - lia.
  - assert (0 <= (horizon - now) / 60000) by (apply Z.div_pos; lia).
    assert (Ek : k = (horizon - now) / 60000) by (unfold k; lia).
    assert (horizon - now < 60000 * ((horizon - now) / 60000) + 60000)
      by (Z.div_mod_to_equations; lia).
    lia.
Qed.

(** ** The fallback as an interval sweep *)


Lemma filter_none {A} (p : A -> bool) l : (forall x, p x = false) -> filter p l = [].
Proof. intros H. induction l as [|x l IH]; cbn; [reflexivity|]. now rewrite H. Qed.

Lemma inactive_everywhere days t :
  existsb (fun b => b) days = false -> isDayActive t days = false.
Proof.
  intros H. unfold isDayActive.
  generalize (Z.to_nat (if getDay t =? 0 then 6 else getDay t - 1)). intros n.
  revert n. induction days as [|b days IH]; intros [|n]; cbn in *; try reflexivity.
  - apply orb_false_elim in H as [H _]. exact H.
  - apply orb_false_elim in H as [_ H]. now apply IH.
Qed.



Example fallback_example :
  generateFireDatesVia (clock monday 22 0) (ofZ 150) (ofZ (23 * 60)) (ofZ 60)
    (Some [false; true; false; false; false; false; false]) None None
  = Some (Fallback, [clock tuesday 0 30]).
Proof. vm_compute. reflexivity. Qed.

(** ** The monthly instants, month by month *)

Lemma monthlyEmit_modern now horizon q dom y m :
  100 <= y -> 1 <= m <= 12 -> 1 <= dom <= 31 ->
  monthlyEmit now horizon (Fin q) dom (firstOfMonth y m)
  = (let d := fireInstant dom (trunc q) (y, m) in
     if (now <? d) && (d <=? horizon) then Some d else None).
Proof.
  intros Hy Hm Hdom. pose proof (monthLength_bounds y m Hm) as HL.
  destruct (fields_of_day y m 1 Hm ltac:(lia)) as (Ey & Em & _).
  unfold monthlyEmit. fold (firstOfMonth y m) in Ey, Em. rewrite Ey, Em.
  rewrite getDaysInMonth_eq, monthLength_table by lia.
  cbn [dateAtMinutesRaw]. rewrite dateAtMinutes_eq, ofYMD_eq by assumption.
  unfold fullYear. replace ((0 <=? y) && (y <=? 99)) with false by lia.
  rewrite Z.mod_mul by lia.
  unfold fireInstant. rewrite (days_day y m (Z.min dom _)).
  unfold MakeDate, msPerDay, msPerMinute.
  match goal with |- context[Z.min dom ?x] => set (fireDay := Z.min dom x) end.
  replace ((days_from_civil y m 1 + fireDay - 1) * 86400000 - 0 + trunc q * 60000)
    with ((days_from_civil y m 1 + fireDay - 1) * 86400000 + trunc q * 60000) by lia.
  reflexivity.
Qed.

Lemma fireInstant_lower dom T y m :
  1 <= m <= 12 -> 1 <= dom -> 0 <= T -> firstOfMonth y m <= fireInstant dom T (y, m).
Proof.
  intros Hm Hdom HT. unfold fireInstant, firstOfMonth.
  rewrite (days_day y m (Z.min dom _)). rewrite <- monthLength_table by assumption.
  pose proof (monthLength_bounds y m Hm). unfold MakeDate, msPerDay, msPerMinute. lia.
Qed.

Lemma iterates_months n : forall y m,
  1 <= m <= 12 ->
  iterates (fun c => addMonths c 1) n (firstOfMonth y m)
  = map (fun ym => firstOfMonth (fst ym) (snd ym)) (monthsFrom n (y, m)).
Proof.
  induction n as [|n IH]; intros y m Hm; cbn [iterates monthsFrom map fst snd]; [reflexivity|].
  f_equal. rewrite addMonths_first by assumption.
  destruct (nextMonth_range y m Hm) as [Hm' _].
  destruct (nextMonth (y, m)) as [y' m'] eqn:E. cbn [fst snd] in *. now apply IH.
Qed.

Lemma months_beyond now horizon dom T n : forall y m,
  1 <= m <= 12 -> 1 <= dom -> 0 <= T -> horizon < firstOfMonth y m ->
  filter (fun t => (now <? t) && (t <=? horizon))
    (map (fireInstant dom T) (monthsFrom n (y, m))) = [].
Proof.
  induction n as [|n IH]; intros y m Hm Hdom HT Hh; cbn [monthsFrom map filter]; [reflexivity|].
  pose proof (fireInstant_lower dom T y m Hm Hdom HT).
  replace (fireInstant dom T (y, m) <=? horizon) with false by lia.
  rewrite andb_false_r.
  destruct (nextMonth_range y m Hm) as [Hm' _].
  pose proof (nextMonth_length y m) as E. pose proof (monthLength_bounds y m Hm).
  destruct (nextMonth (y, m)) as [y' m']. cbn [fst snd] in *.
  apply IH; try assumption. unfold firstOfMonth in *. lia.
Qed.

Lemma emitAll_cons emit c l :
  emitAll emit (c :: l)
  = match emit c with Some d => d :: emitAll emit l | None => emitAll emit l end.
Proof. unfold emitAll. cbn [flat_map]. destruct (emit c); reflexivity. Qed.

Lemma monthly_closed now horizon q dom n : forall y m,
  100 <= y -> 1 <= m <= 12 -> 1 <= dom <= 31 -> 0 <= trunc q ->
  emitAll (monthlyEmit now horizon (Fin q) dom)
    (upTo horizon (iterates (fun c => addMonths c 1) n (firstOfMonth y m)))
  = filter (fun t => (now <? t) && (t <=? horizon))
      (map (fireInstant dom (trunc q)) (monthsFrom n (y, m))).
Proof.
  induction n as [|n IH]; intros y m Hy Hm Hdom HT; [reflexivity|].
  destruct (firstOfMonth y m <=? horizon) eqn:Ch.
  - cbn [iterates upTo]. rewrite Ch. cbn [monthsFrom map filter].
    rewrite emitAll_cons, monthlyEmit_modern by assumption. cbn zeta.
    rewrite addMonths_first by assumption.
    destruct (nextMonth_range y m Hm) as [Hm' Hy'].
    destruct (nextMonth (y, m)) as [y' m']. cbn [fst snd] in *.
    rewrite IH by (assumption || lia).
    destruct ((now <? fireInstant dom (trunc q) (y, m))
              && (fireInstant dom (trunc q) (y, m) <=? horizon)); reflexivity.
  - cbn [iterates upTo]. rewrite Ch. cbn [emitAll flat_map].
    symmetry. apply months_beyond; lia.
Qed.

Lemma monthsFrom_S n ym : monthsFrom (S n) ym = ym :: monthsFrom n (nextMonth ym).
Proof. reflexivity. Qed.

Lemma iterN_S next n c : iterN next (S n) c = iterN next n (next c).
Proof. reflexivity. Qed.

Lemma months_stable now horizon dom T n : forall k y m,
  1 <= m <= 12 -> 1 <= dom -> 0 <= T ->
  horizon < iterN (fun c => addMonths c 1) n (firstOfMonth y m) -> (n <= k)%nat ->
  filter (fun t => (now <? t) && (t <=? horizon))
    (map (fireInstant dom T) (monthsFrom k (y, m)))
  = filter (fun t => (now <? t) && (t <=? horizon))
      (map (fireInstant dom T) (monthsFrom n (y, m))).
Proof.
  induction n as [|n IH]; intros k y m Hm Hdom HT Hb Hk.
  - rewrite (months_beyond now horizon dom T k y m Hm Hdom HT Hb). reflexivity.
  - destruct k as [|k]; [lia|]. rewrite !monthsFrom_S, !map_cons. rewrite iterN_S in Hb.
    rewrite addMonths_first in Hb by assumption.
    destruct (nextMonth_range y m Hm) as [Hm' _].
    destruct (nextMonth (y, m)) as [y' m']. cbn [fst snd] in *.
    cbn [filter]. rewrite (IH k y' m') by (assumption || lia). reflexivity.
Qed.

Lemma generateMonthlyDates_instants now q dayOfMonth maxCount horizonHours months :
  100 <= getFullYear now -> 0 <= trunc q ->
  (budget now (horizonOf now (orDefault horizonHours 24)) <= months)%nat ->
  generateMonthlyDates now (Fin q) dayOfMonth maxCount horizonHours
  = Some (monthlyInstants now (normalizeDayOfMonth (Some dayOfMonth)) (trunc q)
            (orDefault maxCount 50) (orDefault horizonHours 24) months).
Proof.
  intros Hy HT Hmonths. unfold generateMonthlyDates, monthlyInstants.
  set (mc := orDefault maxCount 50).
  set (horizon := horizonOf now (orDefault horizonHours 24)) in *.
  set (dom := normalizeDayOfMonth (Some dayOfMonth)).
  pose proof (normalizeDayOfMonth_range (Some dayOfMonth)) as Hdom. fold dom in Hdom.
  rewrite monthlyLoop_gen. fold (monthlyEmit now horizon (Fin q) dom).
  destruct (firstOfMonth_after now) as (Hm & Hafter & _).
  pose proof (ofYMD_eq (getFullYear now) (getMonth now + 1) 1 Hm) as E0.
  replace (getMonth now + 1 - 1) with (getMonth now) in E0 by lia.
  unfold fullYear in E0, Hafter.
  replace ((0 <=? getFullYear now) && (getFullYear now <=? 99)) with false in E0, Hafter by lia.
  replace (days_from_civil (getFullYear now) (getMonth now + 1) 1 + 1 - 1)
    with (days_from_civil (getFullYear now) (getMonth now + 1) 1) in E0 by lia.
  fold (firstOfMonth (getFullYear now) (getMonth now + 1)) in E0. rewrite E0.
  pose proof (monthLength_bounds (getFullYear now) (getMonth now + 1) Hm) as HL.
  assert (Hreach : horizon < iterN (fun c => addMonths c 1) (budget now horizon)
                               (firstOfMonth (getFullYear now) (getMonth now + 1))).
  { apply (budget_reaches now horizon _ (28 * 86400000) (fun c => addMonths c 1)
             (fun c => exists y m, 1 <= m <= 12 /\ c = firstOfMonth y m)).
    - intros c (y & m & Hm' & ->). rewrite addMonths_first by assumption.
      destruct (nextMonth_range y m Hm') as [? ?].
      pose proof (nextMonth_length y m). pose proof (monthLength_bounds y m Hm').
      split; [eauto|unfold firstOfMonth; lia].
    - eauto.
    - lia.
    - lia. }
  rewrite (genLoop_closed horizon mc _ _ (budget now horizon)); [|eauto|lia].
  cbn [app]. unfold count. cbn [length]. rewrite Z.sub_0_r.
  rewrite monthly_closed by assumption. do 2 f_equal. symmetry.
  now apply months_stable; try lia.
Qed.

Lemma time_in_day day tod :
  0 <= tod < 86400000 -> Day (day * 86400000 + tod) = day.
Proof. intros H. unfold Day, msPerDay. symmetry. apply Z.div_unique with tod; lia. Qed.

Lemma february_fields y tod :
  0 <= tod < 86400000 ->
  getFullYear (days_from_civil y 2 15 * 86400000 + tod) = y /\
  getMonth (days_from_civil y 2 15 * 86400000 + tod) = 1.
Proof.
  intros Htod. pose proof (monthLength_bounds y 2 ltac:(lia)).
  unfold getFullYear, getMonth, YearFromTime, MonthFromTime.
  rewrite time_in_day, days_civil by lia. cbn [fst snd]. lia.
Qed.

Lemma fireInstant_february y :
  isLeapYear y = false ->
  fireInstant 31 540 (y, 2) = clock (days_from_civil y 2 28 * msPerDay) 9 0.
Proof.
  intros H. unfold fireInstant, daysInMonth.
  replace (2 - 1 =? 1) with true by reflexivity. rewrite H.
  replace (Z.min 31 28) with 28 by reflexivity.
  unfold MakeDate, clock, msPerDay, msPerHour, msPerMinute. lia.
Qed.

Lemma monthlyInstants_head now dom T maxCount horizonHours months first :
  1 <= maxCount -> (1 <= months)%nat ->
  fireInstant dom T (getFullYear now, getMonth now + 1) = first ->
  now < first <= horizonOf now horizonHours ->
  exists rest, monthlyInstants now dom T maxCount horizonHours months = first :: rest.
Proof.
  intros Hmc Hmonths Hfirst Hr. unfold monthlyInstants.
  destruct months as [|months]; [lia|]. cbn [monthsFrom map filter].
  rewrite Hfirst.
  replace ((now <? first) && (first <=? horizonOf now horizonHours)) with true by lia.
  destruct (Z.to_nat maxCount) as [|k] eqn:E; [lia|]. cbn [firstn]. eauto.
Qed.

(** C4.  With the clock in a year of three digits or more and a fire time
    that is not negative, the monthly generator returns the first [maxCount]
    of these instants: for each calendar month from the month of [now] on,
    the day [min(dayOfMonth, days in that month)] at the fire time, kept when
    it is strictly after [now] and at or before the horizon; looking at more
    months than the budget of the loop adds nothing.  For day 31 at 09:00 and
    [now] on 15 February of a year that is not a leap year, the first instant
    is 28 February at 09:00 of that year, whenever the horizon reaches it and
    [maxCount] is at least 1. *)
Theorem monthly_fire_instants :
  (forall now q dayOfMonth maxCount horizonHours months,
     100 <= getFullYear now -> 0 <= trunc q ->
     (budget now (horizonOf now (orDefault horizonHours 24)) <= months)%nat ->
     generateMonthlyDates now (Fin q) dayOfMonth maxCount horizonHours
     = Some (monthlyInstants now (normalizeDayOfMonth (Some dayOfMonth)) (trunc q)
               (orDefault maxCount 50) (orDefault horizonHours 24) months)) /\
  (forall year timeOfDay maxCount horizonHours,
     100 <= year -> isLeapYear year = false ->
     0 <= timeOfDay < msPerDay -> 1 <= maxCount ->
     let now := days_from_civil year 2 15 * msPerDay + timeOfDay in
     let first := clock (days_from_civil year 2 28 * msPerDay) 9 0 in
     first <= horizonOf now horizonHours ->
     exists rest,
       datesFor (rule monthly 60 540 0 None (Some (ofZ 31))) now maxCount horizonHours
       = Some (first :: rest)).
Proof.
  split.
  - apply generateMonthlyDates_instants.
  - intros year tod maxCount horizonHours Hy Hleap Htod Hmc now first Hh.
    unfold msPerDay in Htod.
    destruct (february_fields year tod Htod) as [Ey Em]. fold msPerDay now in Ey, Em.
    unfold datesFor. cbn [type rule startMinutesFromMidnight dayOfMonth].
    unfold ofZ at 1.
    rewrite (generateMonthlyDates_instants _ _ _ _ _
               (budget now (horizonOf now (orDefault (Some horizonHours) 24))));
      [|lia|vm_compute; discriminate|lia].
    cbn [orDefault].
    destruct (monthlyInstants_head now
                (normalizeDayOfMonth (Some (ofZ (normalizeDayOfMonth (Some (ofZ 31))))))
                (trunc (inject_Z 540)) maxCount horizonHours
                (budget now (horizonOf now horizonHours)) first Hmc)
      as (rest & E).
    + unfold budget. lia.
    + rewrite Ey, Em.
      replace (normalizeDayOfMonth (Some (ofZ (normalizeDayOfMonth (Some (ofZ 31)))))) with 31
        by (vm_compute; reflexivity).
      replace (trunc (inject_Z 540)) with 540 by (vm_compute; reflexivity).
      replace (1 + 1) with 2 by reflexivity. now apply fireInstant_february.
    + split; [|exact Hh]. unfold now, first, clock, msPerDay, msPerHour, msPerMinute.
      rewrite (days_day year 2 15), (days_day year 2 28). lia.
    + rewrite E. eauto.
Qed.

Lemma monthly_fire_instants_witness :
  generateMonthlyDates (clock feb15 12 0) (Fin 540) (ofZ 31) None (Some 2000)
  = Some (monthlyInstants (clock feb15 12 0) (normalizeDayOfMonth (Some (ofZ 31)))
            (trunc 540) 50 2000 (budget (clock feb15 12 0) (horizonOf (clock feb15 12 0) 2000)))
  /\
  exists rest,
    datesFor (rule monthly 60 540 0 None (Some (ofZ 31)))
      (days_from_civil 2023 2 15 * msPerDay + 12 * msPerHour) 50 720
    = Some (clock (days_from_civil 2023 2 28 * msPerDay) 9 0 :: rest).
Proof.
  split.
  - apply (proj1 monthly_fire_instants (clock feb15 12 0) 540%Q (ofZ 31) None (Some 2000)).
    + vm_compute. discriminate.
    + vm_compute. discriminate.
    + apply Nat.le_refl.
  - apply (proj2 monthly_fire_instants 2023 (12 * msPerHour) 50 720).
    + lia.
    + reflexivity.
    + vm_compute. split; [discriminate|reflexivity].
    + lia.
    + vm_compute. discriminate.
Defined.

Example monthly_clamp_example :
  monthlyInstants (clock feb15 12 0) 31 540 50 2000 3
  = [clock feb28 9 0;
     clock (days_from_civil 2023 3 31 * msPerDay) 9 0;
     clock (days_from_civil 2023 4 30 * msPerDay) 9 0].
Proof. vm_compute. reflexivity. Qed.

(** ** Moving the clock by whole weeks *)

Section WeekShift.

Variable k : Z.
Let w : Z := k * 604800000.

Lemma mod_day_shift c : (c + w) mod 86400000 = c mod 86400000.
Proof.
  unfold w. replace (c + k * 604800000) with (c + (k * 7) * 86400000) by lia.
  apply Z.mod_add. lia.
Qed.

Lemma startOfDay_shift c : startOfDay (c + w) = startOfDay c + w.
Proof. rewrite !startOfDay_eq, mod_day_shift. lia. Qed.

Lemma dateAtMinutes_shift c m : dateAtMinutes (c + w) m = dateAtMinutes c m + w.
Proof. rewrite !dateAtMinutes_eq, mod_day_shift. lia. Qed.

Lemma minutesSinceMidnight_shift c : minutesSinceMidnight (c + w) = minutesSinceMidnight c.
Proof. now rewrite !minutesSinceMidnight_eq, mod_day_shift. Qed.

Lemma setSeconds0_shift c : setSeconds0 (c + w) = setSeconds0 c + w.
Proof.
  rewrite !setSeconds0_eq.
  replace ((c + w) mod 60000) with (c mod 60000); [lia|].
  unfold w. replace (c + k * 604800000) with (c + (k * 10080) * 60000) by lia.
  symmetry. apply Z.mod_add. lia.
Qed.

Lemma addDays_shift c n : addDays (c + w) n = addDays c n + w.
Proof. rewrite !addDays_eq. lia. Qed.

Lemma getDay_shift c : getDay (c + w) = getDay c.
Proof.
  unfold getDay, WeekDay, Day, msPerDay, w.
  replace (c + k * 604800000) with (c + (k * 7) * 86400000) by lia.
  rewrite Z.div_add by lia.
  replace (c / 86400000 + k * 7 + 4) with (c / 86400000 + 4 + k * 7) by lia.
  apply Z.mod_add. lia.
Qed.

Lemma isDayActive_shift c days : isDayActive (c + w) days = isDayActive c days.
Proof. unfold isDayActive. now rewrite getDay_shift. Qed.

Lemma isWithinWindow_shift c s e spans :
  isWithinWindow (c + w) s e spans = isWithinWindow c s e spans.
Proof. unfold isWithinWindow. now rewrite minutesSinceMidnight_shift. Qed.

Lemma nextWindowStart_shift c s e spans :
  nextWindowStart (c + w) s e spans = nextWindowStart c s e spans + w.
Proof.
  unfold nextWindowStart.
  rewrite minutesSinceMidnight_shift, dateAtMinutes_shift, addDays_shift.
  destruct (negb spans); [destruct (minutesSinceMidnight c <? s); reflexivity|].
  destruct ((e <=? minutesSinceMidnight c) && (minutesSinceMidnight c <? s)); reflexivity.
Qed.

Lemma windowFor_shift c s e spans :
  w_start (windowFor (c + w) s e spans) = w_start (windowFor c s e spans) + w /\
  w_end (windowFor (c + w) s e spans) = w_end (windowFor c s e spans) + w.
Proof.
  unfold windowFor.
  rewrite minutesSinceMidnight_shift, !dateAtMinutes_shift, !addDays_shift,
    !dateAtMinutes_shift.
  destruct (negb spans); [cbn [w_start w_end]; auto|].
  destruct (s <=? minutesSinceMidnight c); cbn [w_start w_end]; auto.
Qed.


Lemma addMinutes_whole c minutes z :
  (minutes * 60 * 1000 == inject_Z z)%Q -> addMinutes c minutes = c + z.
Proof.
  intros H. unfold addMinutes, ofNumber, TimeClip, getTime. apply trunc_exact.
  rewrite H, inject_Z_plus. reflexivity.
Qed.

Lemma addMinutes_shift c minutes :
  wholeMs minutes -> addMinutes (c + w) minutes = addMinutes c minutes + w.
Proof. intros [z H]. rewrite !(addMinutes_whole _ minutes z H). lia. Qed.

Lemma alignToInterval_shift windowStart c interval :
  wholeMs interval ->
  alignToInterval (windowStart + w) (c + w) interval
  = alignToInterval windowStart c interval + w.
Proof.
  intros [z H]. unfold alignToInterval, getTime.
  replace (c + w - (windowStart + w)) with (c - windowStart) by lia.
  apply addMinutes_shift.
  destruct (Qeq_bool _ 0).
  - exists 0. reflexivity.
  - unfold rem.
    set (a := Z.max 0 ((c - windowStart) / 60000)).
    set (t := trunc (inject_Z a / interval)).
    exists (z * (1 + t) - a * 60000).
    setoid_replace ((interval - (inject_Z a - interval * inject_Z t)) * 60 * 1000)%Q
      with (interval * 60 * 1000 * (1 + inject_Z t) - inject_Z a * (60 * 1000))%Q by ring.
    rewrite H. unfold Zminus.
    rewrite inject_Z_plus, inject_Z_opp, !inject_Z_mult, inject_Z_plus.
    change (inject_Z 60000) with (60 * 1000)%Q. change (inject_Z 1) with 1%Q. ring.
Qed.


Lemma count_shift results : count (shift w results) = count results.
Proof. unfold count, shift. now rewrite length_map. Qed.

Lemma shift_snoc results c : shift w results ++ [c + w] = shift w (results ++ [c]).
Proof. unfold shift. now rewrite map_app. Qed.

Variables (now horizon maxCount : Z) (interval : Q) (days : list bool).
Hypothesis Hwhole : wholeMs interval.

Lemma windowLoop_shift wend fuel : forall results candidate,
  windowLoop (now + w) (horizon + w) maxCount interval days (wend + w) fuel
    (shift w results) (candidate + w)
  = option_map (shift w)
      (windowLoop now horizon maxCount interval days wend fuel results candidate).
Proof.
  induction fuel as [|fuel IH]; intros results candidate; cbn [windowLoop];
    rewrite count_shift;
    replace (candidate + w <? wend + w) with (candidate <? wend) by lia;
    replace (candidate + w <=? horizon + w) with (candidate <=? horizon) by lia;
    destruct ((candidate <? wend) && (candidate <=? horizon) && (count results <? maxCount));
    try reflexivity.
  replace (now + w <? candidate + w) with (now <? candidate) by lia.
  rewrite isDayActive_shift, addMinutes_shift by exact Hwhole.
  destruct ((now <? candidate) && isDayActive candidate days).
  - rewrite shift_snoc. apply IH.
  - apply IH.
Qed.

Lemma fallbackLoop_shift s e fuel : forall results cursor,
  fallbackLoop (horizon + w) maxCount interval s e days fuel (shift w results) (cursor + w)
  = option_map (shift w)
      (fallbackLoop horizon maxCount interval s e days fuel results cursor).
Proof.
  induction fuel as [|fuel IH]; intros results cursor; cbn [fallbackLoop];
    rewrite count_shift;
    replace (cursor + w <=? horizon + w) with (cursor <=? horizon) by lia;
    destruct ((count results <? maxCount) && (cursor <=? horizon)); try reflexivity.
  rewrite isWithinWindow_shift, isDayActive_shift, addMinutes_shift by exact Hwhole.
  destruct (((s =? e) || isWithinWindow cursor s e (e <? s)) && isDayActive cursor days).
  - rewrite shift_snoc. apply IH.
  - apply IH.
Qed.

Lemma fireLoop_shift s e fuel : forall results cursor,
  fireLoop (now + w) (horizon + w) maxCount interval s e days fuel
    (shift w results) (cursor + w)
  = option_map (shift w)
      (fireLoop now horizon maxCount interval s e days fuel results cursor).
Proof.
  induction fuel as [|fuel IH]; intros results cursor; cbn [fireLoop];
    rewrite count_shift;
    replace (cursor + w <=? horizon + w) with (cursor <=? horizon) by lia;
    destruct ((count results <? maxCount) && (cursor <=? horizon)); try reflexivity.
  destruct (s =? e).
  - rewrite startOfDay_shift, alignToInterval_shift by exact Hwhole.
    set (aligned := alignToInterval (startOfDay cursor) cursor interval).
    replace (aligned + w <=? now + w) with (aligned <=? now) by lia.
    rewrite addMinutes_shift by exact Hwhole.
    destruct (aligned <=? now).
    + set (candidate := addMinutes aligned interval).
      replace (horizon + w <? candidate + w) with (horizon <? candidate) by lia.
      destruct (horizon <? candidate); [reflexivity|].
      rewrite isDayActive_shift, addMinutes_shift by exact Hwhole.
      destruct (isDayActive candidate days); [rewrite shift_snoc|]; apply IH.
    + replace (horizon + w <? aligned + w) with (horizon <? aligned) by lia.
      destruct (horizon <? aligned); [reflexivity|].
      rewrite isDayActive_shift, addMinutes_shift by exact Hwhole.
      destruct (isDayActive aligned days); [rewrite shift_snoc|]; apply IH.
  - rewrite isWithinWindow_shift, nextWindowStart_shift.
    replace (horizon + w <? nextWindowStart cursor s e (e <? s) + w)
      with (horizon <? nextWindowStart cursor s e (e <? s)) by lia.
    assert (Hwin : forall c results',
      match windowLoop (now + w) (horizon + w) maxCount interval days
              (w_end (windowFor (c + w) s e (e <? s))) (S fuel) (shift w results')
              (alignToInterval (w_start (windowFor (c + w) s e (e <? s))) (c + w) interval) with
      | Some r => fireLoop (now + w) (horizon + w) maxCount interval s e days fuel r
                    (addMinutes (w_end (windowFor (c + w) s e (e <? s))) 1)
      | None => None
      end
      = option_map (shift w)
          match windowLoop now horizon maxCount interval days
                  (w_end (windowFor c s e (e <? s))) (S fuel) results'
                  (alignToInterval (w_start (windowFor c s e (e <? s))) c interval) with
          | Some r => fireLoop now horizon maxCount interval s e days fuel r
                        (addMinutes (w_end (windowFor c s e (e <? s))) 1)
          | None => None
          end).
    { intros c results'. destruct (windowFor_shift c s e (e <? s)) as [Es Ee].
      rewrite Es, Ee, alignToInterval_shift, windowLoop_shift by exact Hwhole.
      destruct (windowLoop now horizon maxCount interval days _ (S fuel) results' _) as [r|];
        [|reflexivity].
      cbn [option_map]. rewrite addMinutes_shift by (exists 60000; reflexivity). apply IH. }
    destruct (negb (isWithinWindow cursor s e (e <? s))).
    + destruct (horizon <? nextWindowStart cursor s e (e <? s)); [reflexivity|]. apply Hwin.
    + apply Hwin.
Qed.

End WeekShift.

(** ** The within-day generator, one week later *)

Lemma budget_shift w now horizon : budget (now + w) (horizon + w) = budget now horizon.
Proof. unfold budget. now replace (horizon + w - (now + w)) with (horizon - now) by lia. Qed.

Lemma horizonOf_shift w now horizonHours :
  horizonOf (now + w) horizonHours = horizonOf now horizonHours + w.
Proof. unfold horizonOf, getTime. lia. Qed.

Lemma generateFireDates_week_shift k now intervalMinutes startMinutes endMinutes daysOfWeek
    maxCount horizonHours :
  wholeMs (clamp intervalMinutes MIN_INTERVAL MAX_INTERVAL) ->
  generateFireDates (now + k * 604800000) intervalMinutes startMinutes endMinutes daysOfWeek
    maxCount horizonHours
  = option_map (shift (k * 604800000))
      (generateFireDates now intervalMinutes startMinutes endMinutes daysOfWeek
         maxCount horizonHours).
Proof.
  intros Hwhole. unfold generateFireDates, generateFireDatesVia.
  destruct (negb (existsb (fun b => b) (normalizeDaysOfWeek daysOfWeek))); [reflexivity|].
  unfold primarySearch. rewrite horizonOf_shift, budget_shift.
  change (@nil Z) with (shift (k * 604800000) []) at 1.
  rewrite fireLoop_shift by exact Hwhole.
  destruct (fireLoop now _ _ _ _ _ _ _ [] now) as [r|]; [|reflexivity].
  cbn [option_map]. unfold shift at 1. rewrite length_map.
  destruct (Nat.eqb (length r) 0); [|reflexivity].
  unfold generateFallbackDates.
  rewrite horizonOf_shift, budget_shift, addMinutes_shift, setSeconds0_shift by exact Hwhole.
  change (@nil Z) with (shift (k * 604800000) []) at 1.
  rewrite fallbackLoop_shift by exact Hwhole.
  destruct (fallbackLoop _ _ _ _ _ _ _ [] _) as [f|]; reflexivity.
Qed.

Lemma hourly_whole : wholeMs (clamp (ofZ 60) MIN_INTERVAL MAX_INTERVAL).
Proof. exists 3600000. vm_compute. reflexivity. Qed.

Lemma monday_midnights day :
  day mod msPerDay = 0 -> getDay day = 1 -> exists k, day = monday + k * 604800000.
Proof.
  unfold getDay, WeekDay, Day, monday, msPerDay. intros Hd Hw.
  exists ((day / 86400000 - 19723) / 7). Z.div_mod_to_equations. lia.
Qed.

Lemma clock_shift day w h m : clock (day + w) h m = clock day h m + w.
Proof. unfold clock. lia. Qed.

(** The all-day example of the spec, on any Monday at 08:10 sharp: the
    hourly rule fires at 09:00 and then every 60 minutes up to Tuesday
    08:00. *)
Lemma all_day_grid_example day :
  day mod msPerDay = 0 -> getDay day = 1 ->
  generateFireDates (clock day 8 10) (ofZ 60) (ofZ 0) (ofZ 0) (Some everyDay) None (Some 24)
  = Some (map (fun k => clock day (9 + Z.of_nat k) 0) (seq 0 24)).
Proof.
  intros Hd Hw. destruct (monday_midnights day Hd Hw) as [k ->].
  rewrite clock_shift, generateFireDates_week_shift, all_day_grid_2024 by exact hourly_whole.
  cbn [option_map]. unfold shift. rewrite map_map. f_equal.
  apply map_ext. intros n. now rewrite clock_shift.
Qed.

(** C8 at a clock with seconds.  On any Monday at 08:10:30 the first
    instant is 09:00:30 and the later ones follow every 60 minutes, each
    thirty seconds off the hour: the cursor keeps the seconds of [now]. *)
Theorem all_day_grid_keeps_seconds (day : Z) :
  day mod msPerDay = 0 -> getDay day = 1 ->
  generateFireDates (clock day 8 10 + 30 * 1000) (ofZ 60) (ofZ 0) (ofZ 0)
    (Some everyDay) None (Some 24)
  = Some (map (fun k => clock day (9 + Z.of_nat k) 0 + 30 * 1000) (seq 0 24)).
Proof.
  intros Hd Hw. destruct (monday_midnights day Hd Hw) as [k ->].
  replace (clock (monday + k * 604800000) 8 10 + 30 * 1000)
    with (clock monday 8 10 + 30 * 1000 + k * 604800000) by (rewrite clock_shift; lia).
  rewrite generateFireDates_week_shift, all_day_grid_seconds_2024 by exact hourly_whole.
  cbn [option_map]. unfold shift. rewrite map_map. f_equal.
  apply map_ext. intros n. rewrite clock_shift. lia.
Qed.

Lemma all_day_grid_keeps_seconds_witness :
  generateFireDates (clock monday 8 10 + 30 * 1000) (ofZ 60) (ofZ 0) (ofZ 0)
    (Some everyDay) None (Some 24)
  = Some (map (fun k => clock monday (9 + Z.of_nat k) 0 + 30 * 1000) (seq 0 24)).
Proof. apply (all_day_grid_keeps_seconds monday); reflexivity. Defined.

(** C9.  The hourly rule with the window 21:00 to 06:00, on any Monday at
    20:00 with a horizon of 24 hours: with Monday as the only active day it
    fires on Monday at 21:00, 22:00 and 23:00 and at no other instant; with
    every day active it fires at those three and on Tuesday at 00:00, 01:00,
    02:00, 03:00, 04:00 and 05:00. *)
Theorem midnight_spanning_example (day : Z) :
  day mod msPerDay = 0 -> getDay day = 1 ->
  let nextDay := day + msPerDay in
  generateFireDates (clock day 20 0) (ofZ 60) (ofZ (21 * 60)) (ofZ (6 * 60))
    (Some mondayOnly) None (Some 24)
  = Some [clock day 21 0; clock day 22 0; clock day 23 0] /\
  generateFireDates (clock day 20 0) (ofZ 60) (ofZ (21 * 60)) (ofZ (6 * 60))
    (Some everyDay) None (Some 24)
  = Some ([clock day 21 0; clock day 22 0; clock day 23 0]
          ++ [clock nextDay 0 0; clock nextDay 1 0; clock nextDay 2 0;
              clock nextDay 3 0; clock nextDay 4 0; clock nextDay 5 0]).
Proof.
  intros Hd Hw nextDay. destruct (monday_midnights day Hd Hw) as [k ->].
  destruct midnight_spanning_2024 as [E1 E2].
  rewrite clock_shift, !generateFireDates_week_shift, E1, E2 by exact hourly_whole.
  unfold nextDay, tuesday.
  replace (monday + k * 604800000 + msPerDay) with (monday + msPerDay + k * 604800000) by lia.
  cbn [option_map shift map app]. rewrite !clock_shift. split; reflexivity.
Qed.

Lemma midnight_spanning_example_witness :
  generateFireDates (clock monday 20 0) (ofZ 60) (ofZ (21 * 60)) (ofZ (6 * 60))
    (Some mondayOnly) None (Some 24)
  = Some [clock monday 21 0; clock monday 22 0; clock monday 23 0] /\
  generateFireDates (clock monday 20 0) (ofZ 60) (ofZ (21 * 60)) (ofZ (6 * 60))
    (Some everyDay) None (Some 24)
  = Some ([clock monday 21 0; clock monday 22 0; clock monday 23 0]
          ++ [clock (monday + msPerDay) 0 0; clock (monday + msPerDay) 1 0;
              clock (monday + msPerDay) 2 0; clock (monday + msPerDay) 3 0;
              clock (monday + msPerDay) 4 0; clock (monday + msPerDay) 5 0]).
Proof. apply (midnight_spanning_example monday); reflexivity. Defined.

(* ===================================================================== *)
(** * Further properties of the scheduler's helpers *)

(** ** Calendar helpers *)

(** X1.  [addDays] moves an instant by exactly [days] times 24 hours: the
    time of day is kept, and two moves add up. *)
Theorem addDays_whole_days (date days : Z) :
  addDays date days = date + days * msPerDay /\
  minutesSinceMidnight (addDays date days) = minutesSinceMidnight date /\
  startOfDay (addDays date days) = addDays (startOfDay date) days /\
  forall more, addDays (addDays date days) more = addDays date (days + more).
Proof.
  assert (Hmod : (date + days * 86400000) mod 86400000 = date mod 86400000)
    by (apply Z.mod_add; lia).
  split; [apply addDays_eq|]. split; [|split].
  - now rewrite !minutesSinceMidnight_eq, addDays_eq, Hmod.
  - rewrite !addDays_eq, !startOfDay_eq, Hmod. lia.
  - intros more. rewrite !addDays_eq. lia.
Qed.

(** X2.  [dateAtMinutes] is [minutes] minutes after the midnight of the day
    of [date]; it is not reduced to the day, so 1440 minutes more are the
    same minutes of the next day.  For minutes within a day it stays on the
    day of [date] and [minutesSinceMidnight] reads the minutes back. *)
Theorem dateAtMinutes_round_trip (date minutes : Z) :
  0 <= minutes < 1440 ->
  dateAtMinutes date minutes = startOfDay date + minutes * msPerMinute /\
  dateAtMinutes date (minutes + 1440) = dateAtMinutes (addDays date 1) minutes /\
  minutesSinceMidnight (dateAtMinutes date minutes) = minutes /\
  startOfDay (dateAtMinutes date minutes) = startOfDay date /\
  startOfDay date <= date < startOfDay date + msPerDay.
Proof.
  intros Hm. unfold msPerMinute, msPerDay.
  pose proof (Z.mod_pos_bound date 86400000 ltac:(lia)) as Hb.
  split; [rewrite dateAtMinutes_eq, startOfDay_eq; lia|]. split; [|split; [|split]].
  - rewrite !dateAtMinutes_eq, addDays_eq.
    replace ((date + 1 * 86400000) mod 86400000) with (date mod 86400000)
      by (symmetry; apply Z.mod_add; lia).
    lia.
  - rewrite dateAtMinutes_eq, midnight_split. now apply minutes_at.
  - rewrite dateAtMinutes_eq, !startOfDay_eq.
    pose proof (Z.div_mod date 86400000 ltac:(lia)) as Hdm.
    replace ((date - date mod 86400000 + minutes * 60000) mod 86400000)
      with (minutes * 60000)
      by (apply Z.mod_unique with (date / 86400000); lia).
    lia.
  - rewrite startOfDay_eq. lia.
Qed.

Lemma dateAtMinutes_round_trip_witness :
  minutesSinceMidnight (dateAtMinutes (clock monday 8 10) 540) = 540.
Proof.
  apply (dateAtMinutes_round_trip (clock monday 8 10) 540). lia.
Defined.

Lemma getDaysInMonth_fullYear y m :
  1 <= m <= 12 -> getDaysInMonth y (m - 1) = monthLength (fullYear y) m.
Proof.
  intros Hm. pose proof (monthLength_bounds (fullYear y) m Hm) as HL.
  unfold getDaysInMonth, ofYMD. fold (fullYear y).
  replace (m - 1 + 1) with m by lia.
  rewrite MakeDay_next, nextMonth_length by assumption.
  replace (MakeDate (days_from_civil (fullYear y) m 1 + monthLength (fullYear y) m + 0 - 1)
             (MakeTime 0 0 0 0))
    with (days_from_civil (fullYear y) m (monthLength (fullYear y) m) * 86400000)
    by (rewrite (days_day (fullYear y) m (monthLength (fullYear y) m));
        unfold MakeDate, MakeTime, msPerDay; lia).
  apply fields_of_day; lia.
Qed.

(** X3.  [getDaysInMonth] gives the length of the month in the Gregorian
    calendar: 28 or 29 days for February by the leap-year rule, 30 or 31
    otherwise.  The year is the one the [Date] constructor takes: a year
    from 0 to 99 counts as 1900 more. *)
Theorem getDaysInMonth_calendar (year monthIndex : Z) :
  0 <= monthIndex <= 11 ->
  getDaysInMonth year monthIndex = daysInMonth (fullYear year) monthIndex /\
  28 <= getDaysInMonth year monthIndex <= 31.
Proof.
  intros Hm. replace monthIndex with (monthIndex + 1 - 1) by lia.
  rewrite getDaysInMonth_fullYear by lia. split.
  - apply monthLength_table. lia.
  - apply monthLength_bounds. lia.
Qed.

Lemma getDaysInMonth_calendar_witness :
  getDaysInMonth 2024 1 = daysInMonth (fullYear 2024) 1 /\ 28 <= getDaysInMonth 2024 1 <= 31.
Proof. apply (getDaysInMonth_calendar 2024 1). lia. Defined.

Lemma fields_in_day y m d tod :
  1 <= m <= 12 -> 1 <= d <= monthLength y m -> 0 <= tod < 86400000 ->
  getFullYear (days_from_civil y m d * 86400000 + tod) = y /\
  getMonth (days_from_civil y m d * 86400000 + tod) = m - 1 /\
  getDate (days_from_civil y m d * 86400000 + tod) = d.
Proof.
  intros Hm Hd Htod.
  unfold getFullYear, getMonth, getDate, YearFromTime, MonthFromTime, DateFromTime.
  rewrite time_in_day, days_civil by assumption. cbn [fst snd]. auto.
Qed.

Lemma date_fields t :
  exists y m d,
    getFullYear t = y /\ getMonth t = m - 1 /\ getDate t = d /\
    1 <= m <= 12 /\ 1 <= d <= monthLength y m /\
    t = days_from_civil y m d * 86400000 + t mod 86400000.
Proof.
  unfold getFullYear, getMonth, getDate, YearFromTime, MonthFromTime, DateFromTime.
  pose proof (civil_days (Day t)) as H.
  destruct (civil_from_days (Day t)) as [[y m] d]. cbn [fst snd].
  destruct H as (E & Hm & Hd). exists y, m, d. repeat split; try lia.
  rewrite E. unfold Day, msPerDay. Z.div_mod_to_equations. lia.
Qed.

(** X4.  [addMonths date 1] keeps the time of day and goes to the same day
    of the next month when that month has such a day; otherwise it runs over
    into the month after, by the days that are missing. *)
Theorem addMonths_next_month (date : Z) :
  let year := getFullYear date in
  let month := getMonth date + 1 in
  let day := getDate date in
  let next := nextMonth (year, month) in
  let moved := addMonths date 1 in
  minutesSinceMidnight moved = minutesSinceMidnight date /\
  moved mod msPerDay = date mod msPerDay /\
  (day <= monthLength (fst next) (snd next) ->
   getFullYear moved = fst next /\ getMonth moved = snd next - 1 /\ getDate moved = day) /\
  (monthLength (fst next) (snd next) < day ->
   getFullYear moved = fst (nextMonth next) /\
   getMonth moved = snd (nextMonth next) - 1 /\
   getDate moved = day - monthLength (fst next) (snd next)).
Proof.
  cbn zeta. destruct (date_fields date) as (y & m & d & Ey & Em & Ed & Hm & Hd & Et).
  rewrite Ey, Em, Ed. replace (m - 1 + 1) with m by lia.
  pose proof (Z.mod_pos_bound date 86400000 ltac:(lia)) as Hb.
  destruct (nextMonth_range y m Hm) as [Hm1 _].
  pose proof (nextMonth_length y m) as EL.
  pose proof (monthLength_bounds y m Hm) as HL.
  destruct (nextMonth (y, m)) as [y1 m1] eqn:En. cbn [fst snd] in *.
  pose proof (monthLength_bounds y1 m1 Hm1) as HL1.
  assert (Emoved : addMonths date 1
                   = (days_from_civil y1 m1 1 + d - 1) * 86400000 + date mod 86400000).
  { unfold addMonths, setMonth. unfold getMonth, getFullYear, getDate in *.
    rewrite Ey, Em, Ed. replace (m - 1 + 1) with m by lia.
    rewrite MakeDay_next, En by assumption. cbn [fst snd].
    unfold MakeDate, TimeWithinDay, msPerDay. lia. }
  assert (Hmod : addMonths date 1 mod 86400000 = date mod 86400000).
  { rewrite Emoved. symmetry.
    apply Z.mod_unique with (days_from_civil y1 m1 1 + d - 1); lia. }
  split; [now rewrite !minutesSinceMidnight_eq, Hmod|]. split; [exact Hmod|]. split.
  - intros Hfit. rewrite Emoved, <- (days_day y1 m1 d).
    apply fields_in_day; lia.
  - intros Hover.
    destruct (nextMonth_range y1 m1 Hm1) as [Hm2 _].
    pose proof (nextMonth_length y1 m1) as EL2.
    destruct (nextMonth (y1, m1)) as [y2 m2]. cbn [fst snd] in *.
    pose proof (monthLength_bounds y2 m2 Hm2) as HL2.
    replace ((days_from_civil y1 m1 1 + d - 1) * 86400000 + date mod 86400000)
      with (days_from_civil y2 m2 (d - monthLength y1 m1) * 86400000 + date mod 86400000)
      in Emoved by (rewrite (days_day y2 m2 (d - monthLength y1 m1)); lia).
    rewrite Emoved. apply fields_in_day; lia.
Qed.

Lemma addMonths_next_month_witness :
  getFullYear (addMonths (clock feb15 12 0) 1) = 2023 /\
  getMonth (addMonths (clock feb15 12 0) 1) = 2 /\
  getDate (addMonths (clock feb15 12 0) 1) = 15.
Proof.
  apply (proj1 (proj2 (proj2 (addMonths_next_month (clock feb15 12 0))))).
  vm_compute. discriminate.
Defined.

(** ** The window model *)

Lemma minute_of_day t :
  0 <= minutesSinceMidnight t < 1440 /\
  t mod 86400000 = minutesSinceMidnight t * 60000 + t mod 60000 /\
  0 <= t mod 60000 < 60000.
Proof.
  rewrite minutesSinceMidnight_eq. Z.div_mod_to_equations. lia.
Qed.

Lemma within_by_minutes t u s e spans :
  minutesSinceMidnight t = minutesSinceMidnight u ->
  isWithinWindow t s e spans = isWithinWindow u s e spans.
Proof. intros H. unfold isWithinWindow. now rewrite H. Qed.

(** The minutes since midnight of an instant given by its day, its minute
    and the rest. *)
Lemma minutes_of_parts day minute rest :
  0 <= minute < 1440 -> 0 <= rest < 60000 ->
  minutesSinceMidnight (day * 86400000 + minute * 60000 + rest) = minute.
Proof.
  intros Hm Hr. rewrite minutesSinceMidnight_eq.
  replace ((day * 86400000 + minute * 60000 + rest) mod 86400000)
    with (minute * 60000 + rest)
    by (apply Z.mod_unique with day; lia).
  symmetry. apply Z.div_unique with rest; lia.
Qed.

Lemma instant_parts t :
  exists day minute rest,
    t = day * 86400000 + minute * 60000 + rest /\
    0 <= minute < 1440 /\ 0 <= rest < 60000 /\
    minutesSinceMidnight t = minute /\ startOfDay t = day * 86400000.
Proof.
  exists (t / 86400000), (minutesSinceMidnight t), (t mod 60000).
  destruct (minute_of_day t) as (Hm & E & Hr).
  pose proof (Z.div_mod t 86400000 ltac:(lia)) as Hdm.
  rewrite startOfDay_eq. repeat split; lia.
Qed.

(** X5.  For a bounded window and an instant outside it, [nextWindowStart]
    is the next opening of the window: it is later than the instant by 24
    hours at most, it is a whole minute with the start minutes on the clock,
    it is inside the window, and no instant before it, from the given one on,
    is inside the window. *)
Theorem nextWindowStart_is_next_opening (date startMinutes endMinutes : Z) :
  0 <= startMinutes < 1440 -> 0 <= endMinutes < 1440 -> startMinutes <> endMinutes ->
  let spansMidnight := endMinutes <? startMinutes in
  isWithinWindow date startMinutes endMinutes spansMidnight = false ->
  let opening := nextWindowStart date startMinutes endMinutes spansMidnight in
  date < opening <= date + msPerDay /\
  opening = startOfDay opening + startMinutes * msPerMinute /\
  isWithinWindow opening startMinutes endMinutes spansMidnight = true /\
  forall t, date <= t < opening ->
            isWithinWindow t startMinutes endMinutes spansMidnight = false.
Proof.
  intros Hs He Hne spans Hout opening.
  destruct (nextWindowStart_after startMinutes endMinutes Hs He Hne date Hout) as [Hlt Hin].
  fold spans opening in Hlt, Hin.
  destruct (instant_parts date) as (day & minute & rest & Ed & Hm & Hr & Emin & Esod).
  assert (Hcases : (opening = day * 86400000 + startMinutes * 60000 /\ minute < startMinutes)
                   \/ (opening = (day + 1) * 86400000 + startMinutes * 60000 /\
                       spans = false /\ endMinutes <= minute)).
  { clear Hlt Hin. unfold opening, nextWindowStart, isWithinWindow in *.
    rewrite addDays_eq, dateAtMinutes_eq, <- startOfDay_eq, Esod.
    rewrite Emin in *.
    unfold spans in *. destruct (endMinutes <? startMinutes) eqn:Esp; cbn [negb] in *.
    - replace ((endMinutes <=? minute) && (minute <? startMinutes)) with true by lia.
      left. lia.
    - destruct (minute <? startMinutes) eqn:C; [left; lia|right; lia]. }
  clearbody opening.
  assert (Hord : spans = false -> startMinutes < endMinutes) by (unfold spans; lia).
  split; [|split; [|split]].
  - unfold msPerDay. destruct Hcases as [[Eo Hlow]|[Eo [Hsp Hhigh]]].
    + lia.
    + specialize (Hord Hsp). lia.
  - rewrite startOfDay_eq. unfold msPerMinute.
    destruct Hcases as [[-> _]|[-> _]].
    + replace ((day * 86400000 + startMinutes * 60000) mod 86400000)
        with (startMinutes * 60000) by (apply Z.mod_unique with day; lia).
      lia.
    + replace (((day + 1) * 86400000 + startMinutes * 60000) mod 86400000)
        with (startMinutes * 60000) by (apply Z.mod_unique with (day + 1); lia).
      lia.
  - exact Hin.
  - intros t Ht.
    destruct (instant_parts t) as (day' & minute' & rest' & Et & Hm' & Hr' & Emin' & _).
    unfold isWithinWindow. rewrite Emin'.
    unfold isWithinWindow in Hout. rewrite Emin in Hout.
    unfold spans in *.
    destruct Hcases as [[Eo Hlow]|[Eo [Hsp Hhigh]]].
    + assert (day' = day) by lia. subst day'.
      destruct (endMinutes <? startMinutes) eqn:Esp; cbn [negb] in *; lia.
    + rewrite Hsp in *. cbn [negb] in *.
      assert (day' = day \/ day' = day + 1) as [-> | ->] by lia; lia.
Qed.

Lemma nextWindowStart_is_next_opening_witness :
  clock monday 20 0 < nextWindowStart (clock monday 20 0) (21 * 60) (6 * 60) true
  <= clock monday 20 0 + msPerDay.
Proof.
  apply (nextWindowStart_is_next_opening (clock monday 20 0) (21 * 60) (6 * 60));
    try lia; reflexivity.
Defined.

Lemma within_parts d m r s e spans :
  0 <= m < 1440 -> 0 <= r < 60000 ->
  isWithinWindow (d * 86400000 + m * 60000 + r) s e spans
  = if negb spans then (s <=? m) && (m <? e) else (s <=? m) || (m <? e).
Proof. intros Hm Hr. unfold isWithinWindow. now rewrite minutes_of_parts. Qed.

(** The three shapes of the window around an instant inside it: a window
    within the day; a window across midnight seen from its evening; the same
    seen from its morning. *)
Lemma windowFor_cases day minute rest s e :
  0 <= s < 1440 -> 0 <= e < 1440 -> 0 <= minute < 1440 -> 0 <= rest < 60000 ->
  let date := day * 86400000 + minute * 60000 + rest in
  let window := windowFor date s e (e <? s) in
  isWithinWindow date s e (e <? s) = true ->
  (s <= e /\ s <= minute < e /\
   w_start window = day * 86400000 + s * 60000 /\
   w_end window = day * 86400000 + e * 60000) \/
  (e < s /\ s <= minute /\
   w_start window = day * 86400000 + s * 60000 /\
   w_end window = (day + 1) * 86400000 + e * 60000) \/
  (e < s /\ minute < e /\
   w_start window = (day - 1) * 86400000 + s * 60000 /\
   w_end window = day * 86400000 + e * 60000).
Proof.
  intros Hs He Hm Hr date window Hin.
  assert (Emin : minutesSinceMidnight date = minute) by (now apply minutes_of_parts).
  assert (Esod : date - date mod 86400000 = day * 86400000).
  { replace (date mod 86400000) with (minute * 60000 + rest); [unfold date; lia|].
    apply Z.mod_unique with day; unfold date; lia. }
  unfold window, windowFor, isWithinWindow in *. rewrite Emin in *.
  rewrite !dateAtMinutes_eq, !addDays_eq, Esod.
  destruct (e <? s) eqn:Esp; cbn [negb] in *.
  - destruct (s <=? minute) eqn:C; cbn [w_start w_end].
    + right. left. repeat split; try lia.
      replace ((day * 86400000 + s * 60000 + 1 * 86400000) mod 86400000)
        with (s * 60000) by (apply Z.mod_unique with (day + 1); lia).
      lia.
    + right. right. repeat split; try lia.
      replace ((day * 86400000 + s * 60000 + -1 * 86400000) mod 86400000)
        with (s * 60000) by (apply Z.mod_unique with (day - 1); lia).
      lia.
  - cbn [w_start w_end]. left. repeat split; lia.
Qed.

(** The window around an instant inside it starts no later than the
    instant, and all of it is inside. *)
Lemma windowFor_covers date s e :
  0 <= s < 1440 -> 0 <= e < 1440 ->
  isWithinWindow date s e (e <? s) = true ->
  w_start (windowFor date s e (e <? s)) <= date /\
  forall t, w_start (windowFor date s e (e <? s)) <= t < w_end (windowFor date s e (e <? s)) ->
            isWithinWindow t s e (e <? s) = true.
Proof.
  intros Hs He Hin.
  destruct (instant_parts date) as (day & minute & rest & Ed & Hm & Hr & _ & _).
  subst date.
  destruct (windowFor_cases day minute rest s e Hs He Hm Hr Hin)
    as [(Hsp & Hmin & Es & Ee)|[(Hsp & Hmin & Es & Ee)|(Hsp & Hmin & Es & Ee)]];
    rewrite Es, Ee; (split; [lia|]); intros t Ht;
    destruct (instant_parts t) as (d' & m' & r' & -> & Hm' & Hr' & _ & _);
    rewrite within_parts by assumption.
  - replace (e <? s) with false by lia. cbn [negb].
    assert (d' = day) by lia. subst d'. lia.
  - replace (e <? s) with true by lia. cbn [negb].
    assert (d' = day \/ d' = day + 1) as [-> | ->] by lia; lia.
  - replace (e <? s) with true by lia. cbn [negb].
    assert (d' = day - 1 \/ d' = day) as [-> | ->] by lia; lia.
Qed.

(** X6.  For a bounded window and an instant inside it, [windowFor] is the
    run of the window around the instant: it holds the instant, it starts on
    the start minutes and lasts as long as the window does, every instant
    from its start to before its end is inside the window, and the
    millisecond before its start and the instant of its end are outside. *)
Theorem windowFor_is_the_window_around (date startMinutes endMinutes : Z) :
  0 <= startMinutes < 1440 -> 0 <= endMinutes < 1440 -> startMinutes <> endMinutes ->
  let spansMidnight := endMinutes <? startMinutes in
  isWithinWindow date startMinutes endMinutes spansMidnight = true ->
  let window := windowFor date startMinutes endMinutes spansMidnight in
  w_start window <= date < w_end window /\
  minutesSinceMidnight (w_start window) = startMinutes /\
  w_end window - w_start window
  = ((endMinutes - startMinutes) mod 1440) * msPerMinute /\
  (forall t, w_start window <= t < w_end window ->
             isWithinWindow t startMinutes endMinutes spansMidnight = true) /\
  isWithinWindow (w_start window - 1) startMinutes endMinutes spansMidnight = false /\
  isWithinWindow (w_end window) startMinutes endMinutes spansMidnight = false.
Proof.
  intros Hs He Hne spans Hin window.
  destruct (windowFor_covers date startMinutes endMinutes Hs He Hin) as [Hstart Hall].
  pose proof (windowFor_end startMinutes endMinutes Hs He Hne date Hin) as Hend.
  fold spans window in Hstart, Hall, Hend.
  destruct (instant_parts date) as (day & minute & rest & Ed & Hm & Hr & _ & _).
  pose proof (windowFor_cases day minute rest startMinutes endMinutes Hs He Hm Hr) as Ewin.
  cbv zeta in Ewin. rewrite <- Ed in Ewin. specialize (Ewin Hin).
  fold spans window in Ewin. clearbody window.
  split; [lia|]. unfold msPerMinute.
  destruct Ewin as [(Hsp & Hmin & Es & Ee)|[(Hsp & Hmin & Es & Ee)|(Hsp & Hmin & Es & Ee)]];
    rewrite Es, Ee in *; clear Es Ee.
  - assert (Esp : spans = false) by (unfold spans; lia). rewrite Esp in *.
    split; [apply minutes_at; lia|]. split; [|split; [exact Hall|split]].
    + replace ((endMinutes - startMinutes) mod 1440) with (endMinutes - startMinutes);
        [lia|]. apply Z.mod_unique with 0; lia.
    + destruct (Z.eq_dec startMinutes 0) as [E0|E0].
      * replace (day * 86400000 + startMinutes * 60000 - 1)
          with ((day - 1) * 86400000 + 1439 * 60000 + 59999) by lia.
        rewrite within_parts by lia. cbn [negb]. lia.
      * replace (day * 86400000 + startMinutes * 60000 - 1)
          with (day * 86400000 + (startMinutes - 1) * 60000 + 59999) by lia.
        rewrite within_parts by lia. cbn [negb]. lia.
    + replace (day * 86400000 + endMinutes * 60000)
        with (day * 86400000 + endMinutes * 60000 + 0) by lia.
      rewrite within_parts by lia. cbn [negb]. lia.
  - assert (Esp : spans = true) by (unfold spans; lia). rewrite Esp in *.
    split; [apply minutes_at; lia|]. split; [|split; [exact Hall|split]].
    + replace ((endMinutes - startMinutes) mod 1440) with (endMinutes - startMinutes + 1440);
        [lia|]. apply Z.mod_unique with (-1); lia.
    + replace (day * 86400000 + startMinutes * 60000 - 1)
        with (day * 86400000 + (startMinutes - 1) * 60000 + 59999) by lia.
      rewrite within_parts by lia. cbn [negb]. lia.
    + replace ((day + 1) * 86400000 + endMinutes * 60000)
        with ((day + 1) * 86400000 + endMinutes * 60000 + 0) by lia.
      rewrite within_parts by lia. cbn [negb]. lia.
  - assert (Esp : spans = true) by (unfold spans; lia). rewrite Esp in *.
    split; [apply minutes_at; lia|]. split; [|split; [exact Hall|split]].
    + replace ((endMinutes - startMinutes) mod 1440) with (endMinutes - startMinutes + 1440);
        [lia|]. apply Z.mod_unique with (-1); lia.
    + replace ((day - 1) * 86400000 + startMinutes * 60000 - 1)
        with ((day - 1) * 86400000 + (startMinutes - 1) * 60000 + 59999) by lia.
      rewrite within_parts by lia. cbn [negb]. lia.
    + replace (day * 86400000 + endMinutes * 60000)
        with (day * 86400000 + endMinutes * 60000 + 0) by lia.
      rewrite within_parts by lia. cbn [negb]. lia.
Qed.

Lemma windowFor_is_the_window_around_witness :
  w_start (windowFor (clock tuesday 1 0) (21 * 60) (6 * 60) true) <= clock tuesday 1 0
  < w_end (windowFor (clock tuesday 1 0) (21 * 60) (6 * 60) true).
Proof.
  apply (windowFor_is_the_window_around (clock tuesday 1 0) (21 * 60) (6 * 60));
    try lia; reflexivity.
Defined.

(** ** Alignment on whole-minute intervals *)

Lemma trunc_ratio (a k : Z) : 0 <= a -> 0 < k -> trunc (inject_Z a / inject_Z k) = a / k.
Proof.
  intros Ha Hk. destruct k as [|p|p]; try lia.
  unfold trunc, Qdiv, Qinv, Qmult, inject_Z. cbn [Qnum Qden].
  rewrite Z.mul_1_r. change (Z.pos (1 * p)) with (Z.pos p).
  apply Z.quot_div_nonneg; lia.
Qed.

Lemma rem_whole (a k : Z) :
  0 <= a -> 0 < k -> (rem (inject_Z a) (inject_Z k) == inject_Z (a mod k))%Q.
Proof.
  intros Ha Hk. unfold rem. rewrite trunc_ratio by assumption.
  unfold Qminus. rewrite <- inject_Z_mult, <- inject_Z_opp, <- inject_Z_plus.
  replace (a + - (k * (a / k))) with (a mod k); [reflexivity|].
  pose proof (Z.div_mod a k ltac:(lia)). lia.
Qed.

Lemma alignToInterval_whole (windowStart cursor k : Z) :
  0 < k ->
  alignToInterval windowStart cursor (inject_Z k)
  = cursor + ((- Z.max 0 ((cursor - windowStart) / 60000)) mod k) * 60000.
Proof.
  intros Hk. unfold alignToInterval, getTime.
  set (a := Z.max 0 ((cursor - windowStart) / 60000)).
  assert (Ha : 0 <= a) by (unfold a; lia).
  pose proof (rem_whole a k Ha Hk) as Hrem.
  pose proof (Z.mod_pos_bound a k Hk) as Hmod.
  destruct (Qeq_bool (rem (inject_Z a) (inject_Z k)) 0) eqn:E.
  - apply Qeq_bool_iff in E. rewrite Hrem in E.
    assert (E0 : a mod k = 0)
      by (unfold Qeq, inject_Z in E; cbn [Qnum Qden] in E; lia).
    change 0%Q with (inject_Z 0). rewrite addMinutes_exact.
    replace ((- a) mod k) with 0; [lia|].
    apply Z.mod_unique with (- (a / k)); [lia|].
    pose proof (Z.div_mod a k ltac:(lia)). lia.
  - assert (Hnz : a mod k <> 0).
    { intros H0. rewrite H0 in Hrem. apply Qeq_bool_iff in Hrem.
      change (inject_Z 0) with 0%Q in Hrem. congruence. }
    rewrite (addMinutes_whole cursor _ ((k - a mod k) * 60000)).
    + replace ((- a) mod k) with (k - a mod k); [reflexivity|].
      apply Z.mod_unique with (- (a / k) - 1); [lia|].
      pose proof (Z.div_mod a k ltac:(lia)). lia.
    + rewrite Hrem, inject_Z_mult. unfold Z.sub. rewrite inject_Z_plus, inject_Z_opp.
      change (inject_Z 60000) with (60 * 1000)%Q. ring.
Qed.

(** X7.  [alignToInterval] with an interval of [k] whole minutes moves the
    cursor forward by less than one interval and by whole minutes only, so
    the seconds and milliseconds of the cursor stay; a cursor less than a
    minute after the window start, or before it, is not moved; and a cursor
    a whole number of minutes after the window start is moved to the first
    instant, not before it, that is a whole number of intervals after the
    window start. *)
Theorem alignToInterval_grid (windowStart cursor k : Z) :
  1 <= k ->
  let aligned := alignToInterval windowStart cursor (inject_Z k) in
  cursor <= aligned < cursor + k * msPerMinute /\
  (aligned - cursor) mod msPerMinute = 0 /\
  aligned mod msPerMinute = cursor mod msPerMinute /\
  (cursor < windowStart + msPerMinute -> aligned = cursor) /\
  (windowStart <= cursor -> (cursor - windowStart) mod msPerMinute = 0 ->
   (aligned - windowStart) mod (k * msPerMinute) = 0 /\
   forall t, cursor <= t -> (t - windowStart) mod (k * msPerMinute) = 0 -> aligned <= t).
Proof.
  intros Hk aligned. unfold aligned, msPerMinute.
  rewrite alignToInterval_whole by lia.
  set (a := Z.max 0 ((cursor - windowStart) / 60000)).
  pose proof (Z.mod_pos_bound (- a) k ltac:(lia)) as Hm.
  set (m := (- a) mod k) in *.
  split; [|split; [|split; [|split]]].
  - split; [lia|]. apply Z.add_lt_mono_l. apply Z.mul_lt_mono_pos_r; lia.
  - replace (cursor + m * 60000 - cursor) with (m * 60000) by lia. apply Z.mod_mul. lia.
  - apply Z.mod_add. lia.
  - intros Hc.
    assert (Ea : a = 0).
    { unfold a. assert ((cursor - windowStart) / 60000 <= 0); [|lia].
      apply Z.lt_succ_r. apply Z.div_lt_upper_bound; lia. }
    unfold m. rewrite Ea. cbn [Z.opp]. rewrite Z.mod_0_l by lia. lia.
  - intros Hle Hwhole.
    assert (Ed : cursor - windowStart = a * 60000).
    { unfold a. pose proof (Z.div_mod (cursor - windowStart) 60000 ltac:(lia)).
      assert (0 <= (cursor - windowStart) / 60000) by (apply Z.div_pos; lia). lia. }
    pose proof (Z.div_mod (- a) k ltac:(lia)) as Hdm. fold m in Hdm.
    set (q := (- a) / k) in *.
    assert (Esum : a + m = (- q) * k) by lia.
    split.
    + replace (cursor + m * 60000 - windowStart) with ((- q) * (k * 60000)) by lia.
      apply Z.mod_mul. lia.
    + intros t Ht Hgrid.
      pose proof (Z.div_mod (t - windowStart) (k * 60000) ltac:(lia)) as Ht'.
      rewrite Hgrid in Ht'. set (j := (t - windowStart) / (k * 60000)) in *.
      assert (Hj : - q <= j).
      { destruct (Z_le_gt_dec (- q) j) as [|Hgt]; [assumption|exfalso].
        assert (j + 1 <= - q) by lia.
        assert ((j + 1) * k <= (- q) * k) by (apply Z.mul_le_mono_nonneg_r; lia).
        assert (a * 60000 <= j * k * 60000) by lia.
        lia. }
      assert ((- q) * k <= j * k) by (apply Z.mul_le_mono_nonneg_r; lia).
      lia.
Qed.

Lemma alignToInterval_grid_witness :
  alignToInterval (clock monday 9 0) (clock monday 9 10) (inject_Z 30) mod msPerMinute
  = clock monday 9 10 mod msPerMinute.
Proof.
  destruct (alignToInterval_grid (clock monday 9 0) (clock monday 9 10) 30)
    as (_ & _ & H & _); [lia|exact H].
Defined.

(** ** The weekday mask *)

Lemma getDay_of_week (week i tod : Z) :
  0 <= i < 7 -> 0 <= tod < 86400000 ->
  getDay (monday + (7 * week + i) * 86400000 + tod) = (i + 1) mod 7.
Proof.
  intros Hi Ht. unfold getDay, WeekDay, Day, monday, msPerDay.
  replace ((19723 * 86400000 + (7 * week + i) * 86400000 + tod) / 86400000)
    with (19723 + 7 * week + i)
    by (apply Z.div_unique with tod; lia).
  replace (19723 + 7 * week + i + 4) with ((i + 1) + (week + 2818) * 7) by lia.
  apply Z.mod_add. lia.
Qed.

(** X8.  The weekday mask is read Monday first: an instant of the [i]-th day
    after a Monday is active exactly when entry [i] of the mask is true,
    Sunday being entry 6.  The normalised mask always has seven entries, a
    seven-entry mask is kept as it is, and with a missing mask or one of
    another length every instant is active. *)
Theorem isDayActive_monday_first (value : option (list bool)) (week i tod : Z) :
  0 <= i < 7 -> 0 <= tod < msPerDay ->
  let instant := monday + (7 * week + i) * msPerDay + tod in
  (forall mask, isDayActive instant mask = nth (Z.to_nat i) mask false) /\
  getDay instant = (if i =? 6 then 0 else i + 1) /\
  length (normalizeDaysOfWeek value) = 7%nat /\
  (forall mask, value = Some mask -> length mask = 7%nat ->
                normalizeDaysOfWeek value = mask) /\
  ((forall mask, value = Some mask -> length mask <> 7%nat) ->
   isDayActive instant (normalizeDaysOfWeek value) = true).
Proof.
  intros Hi Ht instant. unfold msPerDay in *.
  assert (Eday : getDay instant = if i =? 6 then 0 else i + 1).
  { unfold instant, msPerDay. rewrite getDay_of_week by assumption.
    destruct (i =? 6) eqn:E.
    - replace i with 6 by lia. reflexivity.
    - apply Z.mod_small. lia. }
  assert (Eact : forall mask, isDayActive instant mask = nth (Z.to_nat i) mask false).
  { intros mask. unfold isDayActive. rewrite Eday.
    destruct (i =? 6) eqn:E.
    - replace i with 6 by lia. reflexivity.
    - replace (i + 1 =? 0) with false by lia.
      now replace (i + 1 - 1) with i by lia. }
  assert (Edef : isDayActive instant DEFAULT_DAYS = true).
  { rewrite Eact. unfold DEFAULT_DAYS.
    assert (Hn : (Z.to_nat i < 7)%nat) by lia.
    revert Hn. generalize (Z.to_nat i). intros n Hn.
    do 7 (destruct n as [|n]; [reflexivity|]). lia. }
  split; [exact Eact|]. split; [exact Eday|]. split; [|split].
  - unfold normalizeDaysOfWeek. destruct value as [l|]; [|reflexivity].
    destruct (Nat.eqb (length l) 7) eqn:E; cbn [negb]; [|reflexivity].
    rewrite length_map. now apply Nat.eqb_eq.
  - intros mask -> Hlen. now apply normalizeDaysOfWeek_seven.
  - intros Hbad. unfold normalizeDaysOfWeek. destruct value as [l|]; [|exact Edef].
    destruct (Nat.eqb (length l) 7) eqn:E; cbn [negb]; [|exact Edef].
    apply Nat.eqb_eq in E. now destruct (Hbad l eq_refl).
Qed.

Lemma isDayActive_monday_first_witness :
  isDayActive (monday + (7 * 0 + 2) * msPerDay + 0) mondayOnly
  = nth (Z.to_nat 2) mondayOnly false.
Proof.
  destruct (isDayActive_monday_first None 0 2 0) as (H & _);
    [lia|unfold msPerDay; lia|apply H].
Defined.

(** ** What the generators emit *)

(** Anything that holds of what the loop pushes, at the cursors it can
    reach, holds of its result. *)
Lemma genLoop_forall (Q : Z -> Prop) (Dom : Z -> Prop) horizon maxCount emit next :
  (forall c x, Dom c -> c <= horizon -> emit c = Some x -> Q x) ->
  (forall c, Dom c -> Dom (next c)) ->
  forall fuel results cursor r,
    Dom cursor -> Forall Q results ->
    genLoop horizon maxCount emit next fuel results cursor = Some r -> Forall Q r.
Proof.
  intros Hemit Hnext.
  induction fuel as [|fuel IH]; intros results cursor r Hd Hq; cbn [genLoop];
    destruct ((count results <? maxCount) && (cursor <=? horizon)) eqn:C;
    try discriminate; try (intros [= <-]; exact Hq).
  apply andb_prop in C as [_ C]. apply IH; [now apply Hnext|].
  destruct (emit cursor) as [x|] eqn:E; cbn [pushOpt]; [|exact Hq].
  apply Forall_app. split; [exact Hq|]. constructor; [|constructor].
  apply (Hemit cursor); [exact Hd|lia|exact E].
Qed.

Lemma fireLoop_inside now horizon maxCount interval s e days :
  (0 < interval)%Q -> 0 <= s < 1440 -> 0 <= e < 1440 ->
  forall fuel results cursor r,
    Forall (fun t => s <> e -> isWithinWindow t s e (e <? s) = true) results ->
    fireLoop now horizon maxCount interval s e days fuel results cursor = Some r ->
    Forall (fun t => s <> e -> isWithinWindow t s e (e <? s) = true) r.
Proof.
  intros Hi Hs He.
  induction fuel as [|fuel IH]; intros results cursor r Hq; cbn [fireLoop];
    destruct ((count results <? maxCount) && (cursor <=? horizon)) eqn:C;
    try discriminate; try (intros [= <-]; exact Hq).
  destruct (s =? e) eqn:Ese.
  - destruct (horizon <? _); [intros [= <-]; exact Hq|].
    apply IH. destruct (isDayActive _ days); [|exact Hq].
    apply Forall_app. split; [exact Hq|]. constructor; [|constructor]. lia.
  - set (jump := if negb (isWithinWindow cursor s e (e <? s))
                 then if horizon <? nextWindowStart cursor s e (e <? s) then None
                      else Some (nextWindowStart cursor s e (e <? s))
                 else Some cursor).
    assert (Hjump : match jump with
                    | None => True
                    | Some c => isWithinWindow c s e (e <? s) = true
                    end).
    { unfold jump. destruct (isWithinWindow cursor s e (e <? s)) eqn:W; cbn [negb].
      - exact W.
      - destruct (nextWindowStart_after s e Hs He ltac:(lia) cursor W) as [_ B].
        destruct (horizon <? nextWindowStart cursor s e (e <? s)); [exact I|exact B]. }
    destruct jump as [cursor1|]; [|intros [= <-]; exact Hq].
    destruct (windowFor_covers cursor1 s e Hs He Hjump) as [Hstart Hall].
    set (window := windowFor cursor1 s e (e <? s)) in *.
    pose proof (alignToInterval_ge (w_start window) cursor1 interval Hi) as Ha.
    destruct (windowLoop now horizon maxCount interval days (w_end window) (S fuel) results
                (alignToInterval (w_start window) cursor1 interval)) as [r'|] eqn:Ew;
      [|discriminate].
    apply IH. rewrite windowLoop_gen in Ew.
    apply (genLoop_forall (fun t => s <> e -> isWithinWindow t s e (e <? s) = true)
             (fun c => w_start window <= c)) in Ew; [exact Ew| | | |exact Hq].
    + intros c x Hc Hle. destruct ((now <? c) && isDayActive c days); [|discriminate].
      intros [= <-] _. apply Hall. lia.
    + intros c Hc. pose proof (addMinutes_nonneg c interval (Qlt_le_weak _ _ Hi)). lia.
    + lia.
Qed.

(** X9.  The within-day generator always returns, and every instant it
    returns falls on a day that the normalised mask marks active and, unless
    the rule is an all-day rule, inside the window of the rule; this holds of
    the window search and of the fallback sweep alike. *)
Theorem within_day_instants_inside_window (now : Z)
    (intervalMinutes startMinutesFromMidnight endMinutesFromMidnight : num)
    (daysOfWeek : option (list bool)) (maxCount horizonHours : option Z) :
  let startMinutes := normalizeMinutes startMinutesFromMidnight in
  let endMinutes := normalizeMinutes endMinutesFromMidnight in
  exists dates,
    generateFireDates now intervalMinutes startMinutesFromMidnight endMinutesFromMidnight
      daysOfWeek maxCount horizonHours = Some dates /\
    Forall (fun t =>
              isDayActive t (normalizeDaysOfWeek daysOfWeek) = true /\
              (startMinutes <> endMinutes ->
               isWithinWindow t startMinutes endMinutes (endMinutes <? startMinutes) = true))
      dates.
Proof.
  intros s e.
  destruct (generateFireDatesVia_good now intervalMinutes startMinutesFromMidnight
              endMinutesFromMidnight daysOfWeek maxCount horizonHours)
    as (via & dates & E & _ & Hact & _).
  exists dates. unfold generateFireDates. rewrite E. split; [reflexivity|].
  apply Forall_and; [eapply Forall_impl; [|exact Hact]; intros t [_ H]; exact H|].
  pose proof (clamp_range intervalMinutes) as [Hi _].
  assert (Hpos : (0 < clamp intervalMinutes MIN_INTERVAL MAX_INTERVAL)%Q)
    by (eapply Qlt_le_trans; [|exact Hi]; reflexivity).
  unfold generateFireDatesVia in E. fold s e in E.
  destruct (negb (existsb (fun b => b) (normalizeDaysOfWeek daysOfWeek)));
    [injection E as _ <-; constructor|].
  unfold primarySearch in E.
  destruct (fireLoop now _ _ _ s e _ _ [] now) as [r|] eqn:Er; [|discriminate].
  apply fireLoop_inside in Er;
    [|exact Hpos|apply normalizeMinutes_range|apply normalizeMinutes_range|constructor].
  destruct (Nat.eqb (length r) 0); [|injection E as _ <-; exact Er].
  destruct (generateFallbackDates now _ s e _ _ _) as [f|] eqn:Ef; [|discriminate].
  injection E as _ <-. unfold generateFallbackDates in Ef. rewrite fallbackLoop_gen in Ef.
  apply (genLoop_forall (fun t => s <> e -> isWithinWindow t s e (e <? s) = true)
           (fun _ => True)) in Ef; [exact Ef| | |exact I|constructor].
  - intros c x _ _.
    destruct (((s =? e) || isWithinWindow c s e (e <? s)) && isDayActive c _) eqn:C;
      [|discriminate].
    intros [= <-] Hne. apply andb_prop in C as [C _].
    apply orb_prop in C as [C|C]; [lia|exact C].
  - auto.
Qed.

(** ** The fixed-time generator: the clock time of the instants *)

Lemma same_time_apart (m : Z) (dates : list Z) :
  StronglySorted Z.lt dates -> Forall (fun t => t mod 86400000 = m) dates ->
  StronglySorted (fun a b => a + 86400000 <= b) dates.
Proof.
  induction 1 as [|a l Hl IH Ha]; intros Hm; [constructor|].
  inversion Hm as [|? ? Ea Hml]; subst. constructor; [now apply IH|].
  rewrite Forall_forall in *. intros b Hb.
  specialize (Ha b Hb). specialize (Hml b Hb).
  pose proof (Z.div_mod a 86400000 ltac:(lia)).
  pose proof (Z.div_mod b 86400000 ltac:(lia)). lia.
Qed.

(** X10.  With a fire time of [m] whole minutes, 0 <= m < 1440, the
    fixed-time generator returns instants that all show [m] minutes since
    midnight on the clock, with the seconds at zero, on active days, and
    that lie a day or more from one another: one instant a day at most. *)
Theorem fixed_time_instants_on_the_clock (now m : Z) (daysOfWeek : option (list bool))
    (maxCount horizonHours : option Z) :
  0 <= m < 1440 ->
  exists dates,
    generateFixedTimeDates now (ofZ m) daysOfWeek maxCount horizonHours = Some dates /\
    Forall (fun t => minutesSinceMidnight t = m /\ t mod msPerMinute = 0 /\
                     isDayActive t (normalizeDaysOfWeek daysOfWeek) = true) dates /\
    StronglySorted (fun a b => a + msPerDay <= b) dates.
Proof.
  intros Hm.
  destruct (generateFixedTimeDates_good now (ofZ m) daysOfWeek maxCount horizonHours)
    as (dates & E & Hsorted & Hact & _).
  exists dates. split; [exact E|].
  assert (Hclock : Forall (fun t => t mod 86400000 = m * 60000) dates).
  { unfold generateFixedTimeDates in E.
    destruct (negb (existsb (fun b => b) (normalizeDaysOfWeek daysOfWeek)));
      [injection E as <-; constructor|].
    rewrite fixedLoop_gen in E.
    apply (genLoop_forall (fun t => t mod 86400000 = m * 60000)
             (fun c => c mod 86400000 = 0)) in E; [exact E| | | |constructor].
    - intros c x Hc _. cbn [ofZ dateAtMinutesRaw].
      destruct (_ && _); [|discriminate]. intros [= <-].
      rewrite dateAtMinutes_eq, Hc, trunc_exact with (k := m) by reflexivity.
      replace (c - 0 + m * 60000) with (m * 60000 + (c / 86400000) * 86400000)
        by (pose proof (Z.div_mod c 86400000 ltac:(lia)); lia).
      rewrite Z.mod_add by lia. apply Z.mod_small. lia.
    - intros c Hc. rewrite addDays_eq.
      replace (c + 1 * 86400000) with (c + 1 * 86400000) by lia.
      rewrite Z.mod_add by lia. exact Hc.
    - rewrite startOfDay_eq. pose proof (Z.div_mod now 86400000 ltac:(lia)).
      replace (now - now mod 86400000) with (0 + (now / 86400000) * 86400000) by lia.
      rewrite Z.mod_add by lia. reflexivity. }
  split.
  - apply Forall_and; [|apply Forall_and].
    + eapply Forall_impl; [|exact Hclock]. intros t Ht. cbn beta in *.
      rewrite minutesSinceMidnight_eq, Ht. apply Z.div_mul. lia.
    + eapply Forall_impl; [|exact Hclock]. intros t Ht. cbn beta in *.
      unfold msPerMinute. pose proof (Z.div_mod t 86400000 ltac:(lia)) as Hd.
      rewrite Ht in Hd.
      replace t with (0 + (1440 * (t / 86400000) + m) * 60000) by lia.
      rewrite Z.mod_add by lia. reflexivity.
    + eapply Forall_impl; [|exact Hact]. intros t [_ H]. exact H.
  - unfold msPerDay. now apply same_time_apart with (m := m * 60000).
Qed.

Lemma fixed_time_instants_on_the_clock_witness :
  exists dates,
    generateFixedTimeDates (clock monday 8 10) (ofZ 540) None None None = Some dates /\
    Forall (fun t => minutesSinceMidnight t = 540 /\ t mod msPerMinute = 0 /\
                     isDayActive t (normalizeDaysOfWeek None) = true) dates /\
    StronglySorted (fun a b => a + msPerDay <= b) dates.
Proof.
  apply (fixed_time_instants_on_the_clock (clock monday 8 10) 540 None None None). lia.
Defined.

(** X11.  With a fire time that is not a finite number (NaN or an
    infinity) the fixed-time generator and the monthly generator walk the
    whole horizon and return the empty list: every candidate is an Invalid
    Date, which fails both comparisons. *)
Theorem non_finite_time_generates_nothing (now : Z) (timeMinutes dayOfMonth : num)
    (daysOfWeek : option (list bool)) (maxCount horizonHours : option Z) :
  (forall q, timeMinutes <> Fin q) ->
  generateFixedTimeDates now timeMinutes daysOfWeek maxCount horizonHours = Some [] /\
  generateMonthlyDates now timeMinutes dayOfMonth maxCount horizonHours = Some [].
Proof.
  intros Hnf.
  assert (Hraw : forall c, dateAtMinutesRaw c timeMinutes = None).
  { intros c. destruct timeMinutes as [q| | |]; [now destruct (Hnf q)|reflexivity..]. }
  assert (Hnil : forall l : list Z, Forall (fun _ => False) l -> l = []).
  { intros l H. destruct l as [|x l]; [reflexivity|]. now inversion H. }
  split.
  - destruct (generateFixedTimeDates_good now timeMinutes daysOfWeek maxCount horizonHours)
      as (dates & E & _).
    rewrite E. f_equal. apply Hnil.
    unfold generateFixedTimeDates in E.
    destruct (negb (existsb (fun b => b) (normalizeDaysOfWeek daysOfWeek)));
      [injection E as <-; constructor|].
    rewrite fixedLoop_gen in E.
    apply (genLoop_forall (fun _ => False) (fun _ => True)) in E;
      [exact E| |auto|exact I|constructor].
    intros c x _ _. rewrite Hraw. discriminate.
  - destruct (generateMonthlyDates_good now timeMinutes dayOfMonth maxCount horizonHours)
      as (dates & E & _).
    rewrite E. f_equal. apply Hnil.
    unfold generateMonthlyDates in E. rewrite monthlyLoop_gen in E.
    apply (genLoop_forall (fun _ => False) (fun _ => True)) in E;
      [exact E| |auto|exact I|constructor].
    intros c x _ _. rewrite Hraw. discriminate.
Qed.

Lemma non_finite_time_generates_nothing_witness :
  generateFixedTimeDates (clock monday 8 10) NaN None None None = Some [] /\
  generateMonthlyDates (clock monday 8 10) NaN (ofZ 15) None None = Some [].
Proof.
  apply (non_finite_time_generates_nothing (clock monday 8 10) NaN (ofZ 15) None None None).
  intros q. discriminate.
Defined.

(** ** Whole-minute intervals: seconds and grids *)

Lemma Qle_bool_whole a b : Qle_bool (inject_Z a) (inject_Z b) = (a <=? b).
Proof. unfold Qle_bool, inject_Z. cbn [Qnum Qden]. now rewrite !Z.mul_1_r. Qed.

Lemma clamp_whole k :
  clamp (ofZ k) MIN_INTERVAL MAX_INTERVAL = inject_Z (saturate 5 180 k).
Proof.
  rewrite clamp_saturate. unfold ofZ, saturateQ, saturate.
  change 180%Q with (inject_Z 180). change 5%Q with (inject_Z 5).
  rewrite !Qle_bool_whole.
  destruct (180 <=? k) eqn:E1; [f_equal; lia|].
  destruct (5 <=? k) eqn:E2; f_equal; lia.
Qed.

Lemma saturate_range k : 5 <= saturate 5 180 k <= 180.
Proof. unfold saturate. lia. Qed.

Lemma minute_multiple_shift c n : (c + n * 60000) mod 60000 = c mod 60000.
Proof. apply Z.mod_add. lia. Qed.

Lemma fireLoop_all_day_seconds now horizon maxCount K s days :
  0 < K ->
  forall fuel results cursor r,
    cursor mod 60000 = now mod 60000 ->
    Forall (fun t => t mod 60000 = now mod 60000) results ->
    fireLoop now horizon maxCount (inject_Z K) s s days fuel results cursor = Some r ->
    Forall (fun t => t mod 60000 = now mod 60000) r.
Proof.
  intros HK.
  induction fuel as [|fuel IH]; intros results cursor r Hc Hq; cbn [fireLoop];
    destruct ((count results <? maxCount) && (cursor <=? horizon)) eqn:C;
    try discriminate; try (intros [= <-]; exact Hq).
  rewrite Z.eqb_refl, alignToInterval_whole by exact HK.
  set (aligned := cursor + _ * 60000).
  assert (Ha : aligned mod 60000 = now mod 60000)
    by (unfold aligned; now rewrite minute_multiple_shift).
  set (candidate := if aligned <=? now then addMinutes aligned (inject_Z K) else aligned).
  assert (Hcand : candidate mod 60000 = now mod 60000).
  { unfold candidate. destruct (aligned <=? now); [|exact Ha].
    now rewrite addMinutes_exact, minute_multiple_shift. }
  destruct (horizon <? candidate); [intros [= <-]; exact Hq|].
  apply IH.
  - now rewrite addMinutes_exact, minute_multiple_shift.
  - destruct (isDayActive candidate days); [|exact Hq].
    apply Forall_app. split; [exact Hq|]. constructor; [exact Hcand|constructor].
Qed.

(** X12.  For an all-day rule with an interval of a whole number of
    minutes, the instants of the window search all carry the seconds and
    milliseconds of [now], while the instants of the fallback sweep are
    whole minutes: the two paths of the generator disagree on the seconds. *)
Theorem all_day_instants_keep_seconds (now k : Z)
    (startMinutesFromMidnight endMinutesFromMidnight : num)
    (daysOfWeek : option (list bool)) (maxCount horizonHours : option Z) :
  normalizeMinutes startMinutesFromMidnight = normalizeMinutes endMinutesFromMidnight ->
  exists via dates,
    generateFireDatesVia now (ofZ k) startMinutesFromMidnight endMinutesFromMidnight
      daysOfWeek maxCount horizonHours = Some (via, dates) /\
    match via with
    | ShortCircuit => dates = []
    | Primary => dates <> [] /\ Forall (fun t => t mod msPerMinute = now mod msPerMinute) dates
    | Fallback => Forall (fun t => t mod msPerMinute = 0) dates
    end.
Proof.
  intros Hall.
  destruct (generateFireDatesVia_good now (ofZ k) startMinutesFromMidnight
              endMinutesFromMidnight daysOfWeek maxCount horizonHours)
    as (via & dates & E & _).
  exists via, dates. split; [exact E|].
  pose proof (saturate_range k) as HK.
  unfold generateFireDatesVia in E. rewrite clamp_whole, Hall in E.
  destruct (negb (existsb (fun b => b) (normalizeDaysOfWeek daysOfWeek)));
    [injection E as <- <-; reflexivity|].
  unfold primarySearch in E.
  destruct (fireLoop now _ _ _ _ _ _ _ [] now) as [r|] eqn:Er; [|discriminate].
  apply fireLoop_all_day_seconds in Er; [|lia|reflexivity|constructor].
  destruct (Nat.eqb (length r) 0) eqn:El.
  - destruct (generateFallbackDates now _ _ _ _ _ _) as [f|] eqn:Ef; [|discriminate].
    injection E as <- <-. unfold generateFallbackDates in Ef.
    rewrite fallbackLoop_gen in Ef. unfold msPerMinute.
    apply (genLoop_forall (fun t => t mod 60000 = 0) (fun c => c mod 60000 = 0)) in Ef;
      [exact Ef| | | |constructor].
    + intros c x Hc _. destruct (_ && _); [|discriminate]. now intros [= <-].
    + intros c Hc. now rewrite addMinutes_exact, minute_multiple_shift.
    + rewrite setSeconds0_eq.
      set (c := addMinutes now (inject_Z (saturate 5 180 k))).
      pose proof (Z.div_mod c 60000 ltac:(lia)).
      replace (c - c mod 60000) with (0 + (c / 60000) * 60000) by lia.
      now rewrite Z.mod_add by lia.
  - injection E as <- <-. split; [|exact Er].
    intros ->. discriminate El.
Qed.

Lemma all_day_instants_keep_seconds_witness :
  exists via dates,
    generateFireDatesVia (clock monday 8 10 + 30 * 1000) (ofZ 60) (ofZ 0) (ofZ 0)
      (Some everyDay) None (Some 24) = Some (via, dates) /\
    match via with
    | ShortCircuit => dates = []
    | Primary => dates <> [] /\
                 Forall (fun t => t mod msPerMinute
                                  = (clock monday 8 10 + 30 * 1000) mod msPerMinute) dates
    | Fallback => Forall (fun t => t mod msPerMinute = 0) dates
    end.
Proof.
  apply (all_day_instants_keep_seconds (clock monday 8 10 + 30 * 1000) 60 (ofZ 0) (ofZ 0)
           (Some everyDay) None (Some 24)).
  reflexivity.
Defined.

(** The window around an instant inside it starts at the start minutes of
    some day, no later than the instant, and lasts a day at most. *)
Lemma windowFor_shape date s e :
  0 <= s < 1440 -> 0 <= e < 1440 ->
  isWithinWindow date s e (e <? s) = true ->
  exists day len,
    w_start (windowFor date s e (e <? s)) = day * 86400000 + s * 60000 /\
    w_end (windowFor date s e (e <? s)) = day * 86400000 + s * 60000 + len * 60000 /\
    0 <= len <= 1440 /\ day * 86400000 + s * 60000 <= date.
Proof.
  intros Hs He Hin.
  destruct (instant_parts date) as (day & minute & rest & Ed & Hm & Hr & _ & _).
  subst date.
  destruct (windowFor_cases day minute rest s e Hs He Hm Hr Hin)
    as [(Hsp & Hmin & Es & Ee)|[(Hsp & Hmin & Es & Ee)|(Hsp & Hmin & Es & Ee)]];
    rewrite Es, Ee.
  - exists day, (e - s). repeat split; lia.
  - exists day, (e - s + 1440). repeat split; lia.
  - exists (day - 1), (e - s + 1440). repeat split; lia.
Qed.

(** An instant of a window whose whole minute is a multiple of [K] minutes
    after the window start shows, on the clock, a multiple of [K] minutes
    after the start minutes, counted around midnight. *)
Lemma grid_minutes day s len K t :
  0 <= s < 1440 -> 0 <= len <= 1440 -> 0 < K ->
  day * 86400000 + s * 60000 <= t < day * 86400000 + s * 60000 + len * 60000 ->
  (t - t mod 60000 - (day * 86400000 + s * 60000)) mod (K * 60000) = 0 ->
  ((minutesSinceMidnight t - s) mod 1440) mod K = 0.
Proof.
  intros Hs Hl HK Ht Hg.
  destruct (instant_parts t) as (d' & m' & r' & Et & Hm' & Hr' & Emin & _).
  rewrite Emin.
  assert (Er : t mod 60000 = r').
  { subst t. symmetry. apply Z.mod_unique with (d' * 1440 + m'); lia. }
  rewrite Er in Hg.
  set (n := (d' - day) * 1440 + m' - s).
  replace (t - r' - (day * 86400000 + s * 60000)) with (n * 60000) in Hg
    by (unfold n; lia).
  assert (Hn : 0 <= n < 1440) by (unfold n; lia).
  replace ((m' - s) mod 1440) with n
    by (apply Z.mod_unique with (- (d' - day)); unfold n; lia).
  pose proof (Z.div_mod (n * 60000) (K * 60000) ltac:(lia)) as Hd.
  rewrite Hg in Hd. set (q := n * 60000 / (K * 60000)) in *.
  assert (En : n = q * K) by lia.
  rewrite En. apply Z.mod_mul. lia.
Qed.

Lemma fireLoop_grid now horizon maxCount K s e days :
  0 < K -> 0 <= s < 1440 -> 0 <= e < 1440 -> s <> e ->
  let Q := fun t => ((minutesSinceMidnight t - s) mod 1440) mod K = 0 /\
                    (t mod 60000 = 0 \/ t mod 60000 = now mod 60000) in
  forall fuel results cursor r,
    cursor mod 60000 = 0 \/ cursor mod 60000 = now mod 60000 ->
    Forall Q results ->
    fireLoop now horizon maxCount (inject_Z K) s e days fuel results cursor = Some r ->
    Forall Q r.
Proof.
  intros HK Hs He Hne Q.
  induction fuel as [|fuel IH]; intros results cursor r Hc Hq; cbn [fireLoop];
    destruct ((count results <? maxCount) && (cursor <=? horizon)) eqn:C;
    try discriminate; try (intros [= <-]; exact Hq).
  replace (s =? e) with false by lia.
  set (jump := if negb (isWithinWindow cursor s e (e <? s))
               then if horizon <? nextWindowStart cursor s e (e <? s) then None
                    else Some (nextWindowStart cursor s e (e <? s))
               else Some cursor).
  assert (Hjump : match jump with
                  | None => True
                  | Some c => isWithinWindow c s e (e <? s) = true /\
                              (c mod 60000 = 0 \/ c mod 60000 = now mod 60000)
                  end).
  { unfold jump. destruct (isWithinWindow cursor s e (e <? s)) eqn:W; cbn [negb].
    - split; [exact W|exact Hc].
    - destruct (nextWindowStart_after s e Hs He Hne cursor W) as [_ B].
      destruct (horizon <? nextWindowStart cursor s e (e <? s)); [exact I|].
      split; [exact B|]. left. clear.
      unfold nextWindowStart. rewrite addDays_eq, dateAtMinutes_eq.
      pose proof (Z.div_mod cursor 86400000 ltac:(lia)) as Hd.
      destruct (negb (e <? s)); [destruct (_ <? _)|destruct (_ && _)].
      + replace (cursor - cursor mod 86400000 + s * 60000)
          with (0 + (cursor / 86400000 * 1440 + s) * 60000) by lia.
        now rewrite Z.mod_add by lia.
      + replace (cursor - cursor mod 86400000 + s * 60000 + 1 * 86400000)
          with (0 + (cursor / 86400000 * 1440 + s + 1440) * 60000) by lia.
        now rewrite Z.mod_add by lia.
      + replace (cursor - cursor mod 86400000 + s * 60000)
          with (0 + (cursor / 86400000 * 1440 + s) * 60000) by lia.
        now rewrite Z.mod_add by lia.
      + replace (cursor - cursor mod 86400000 + s * 60000 + 1 * 86400000)
          with (0 + (cursor / 86400000 * 1440 + s + 1440) * 60000) by lia.
        now rewrite Z.mod_add by lia. }
  destruct jump as [cursor1|]; [|intros [= <-]; exact Hq].
  destruct Hjump as [Hin Hsec].
  destruct (windowFor_shape cursor1 s e Hs He Hin) as (day & len & Es & Ee & Hlen & Hstart).
  set (window := windowFor cursor1 s e (e <? s)) in *.
  set (ws := day * 86400000 + s * 60000) in *.
  rewrite alignToInterval_whole by exact HK.
  set (a := Z.max 0 ((cursor1 - w_start window) / 60000)).
  destruct (windowLoop now horizon maxCount (inject_Z K) days (w_end window) (S fuel) results
              (cursor1 + (- a) mod K * 60000)) as [r'|] eqn:Ew; [|discriminate].
  apply IH.
  - left. change 1%Q with (inject_Z 1).
    rewrite addMinutes_exact, minute_multiple_shift, Ee.
    replace (ws + len * 60000) with (0 + (day * 1440 + s + len) * 60000) by (unfold ws; lia).
    now rewrite Z.mod_add by lia.
  - rewrite windowLoop_gen in Ew.
    apply (genLoop_forall Q
             (fun c => ws <= c /\ (c - c mod 60000 - ws) mod (K * 60000) = 0 /\
                       (c mod 60000 = 0 \/ c mod 60000 = now mod 60000))) in Ew;
      [exact Ew| | | |exact Hq].
    + intros c x (Hlo & Hg & Hcs) Hle.
      destruct ((now <? c) && isDayActive c days); [|discriminate].
      intros [= <-]. split; [|exact Hcs].
      apply grid_minutes with (day := day) (len := len); try assumption.
      fold ws. rewrite Ee in Hle. lia.
    + intros c (Hlo & Hg & Hcs). rewrite addMinutes_exact, minute_multiple_shift.
      split; [lia|]. split; [|exact Hcs].
      replace (c + K * 60000 - c mod 60000 - ws)
        with (c - c mod 60000 - ws + 1 * (K * 60000)) by lia.
      now rewrite Z.mod_add by lia.
    + rewrite minute_multiple_shift.
      pose proof (Z.mod_pos_bound (- a) K HK) as Hm.
      split; [lia|]. split; [|exact Hsec].
      assert (Ews : ws mod 60000 = 0).
      { unfold ws. replace (day * 86400000 + s * 60000) with (0 + (day * 1440 + s) * 60000)
          by lia. now rewrite Z.mod_add by lia. }
      assert (Ea : cursor1 - cursor1 mod 60000 - ws = a * 60000).
      { unfold a. rewrite Es.
        pose proof (Z.div_mod cursor1 60000 ltac:(lia)).
        pose proof (Z.div_mod ws 60000 ltac:(lia)).
        assert ((cursor1 - ws) / 60000 = cursor1 / 60000 - ws / 60000) as ->.
        { symmetry. apply Z.div_unique with (cursor1 mod 60000); [|lia].
          pose proof (Z.mod_pos_bound cursor1 60000 ltac:(lia)). lia. }
        assert (0 <= cursor1 / 60000 - ws / 60000).
        { pose proof (Z.div_le_mono ws cursor1 60000 ltac:(lia) Hstart). lia. }
        lia. }
      pose proof (Z.div_mod (- a) K ltac:(lia)) as Hdm.
      replace (cursor1 + (- a) mod K * 60000 - cursor1 mod 60000 - ws)
        with ((- ((- a) / K)) * (K * 60000)) by lia.
      apply Z.mod_mul. lia.
Qed.

(** X13.  For a rule with a bounded window and an interval of [K] whole
    minutes (after clamping), every instant found by the window search lies
    on the grid of the window: on the clock it is a multiple of [K] minutes
    after the start minutes, counted around midnight, and its seconds are
    zero or those of [now]. *)
Theorem window_instants_on_the_grid (now k : Z)
    (startMinutesFromMidnight endMinutesFromMidnight : num)
    (daysOfWeek : option (list bool)) (maxCount horizonHours : option Z) :
  let startMinutes := normalizeMinutes startMinutesFromMidnight in
  let endMinutes := normalizeMinutes endMinutesFromMidnight in
  let K := saturate 5 180 k in
  startMinutes <> endMinutes ->
  exists via dates,
    generateFireDatesVia now (ofZ k) startMinutesFromMidnight endMinutesFromMidnight
      daysOfWeek maxCount horizonHours = Some (via, dates) /\
    (via = Primary ->
     Forall (fun t => ((minutesSinceMidnight t - startMinutes) mod 1440) mod K = 0 /\
                      (t mod msPerMinute = 0 \/ t mod msPerMinute = now mod msPerMinute))
       dates).
Proof.
  intros s e K Hne.
  destruct (generateFireDatesVia_good now (ofZ k) startMinutesFromMidnight
              endMinutesFromMidnight daysOfWeek maxCount horizonHours)
    as (via & dates & E & _).
  exists via, dates. split; [exact E|]. intros ->.
  pose proof (saturate_range k) as HK. fold K in HK.
  unfold generateFireDatesVia in E. rewrite clamp_whole in E. fold s e K in E.
  destruct (negb (existsb (fun b => b) (normalizeDaysOfWeek daysOfWeek))); [discriminate|].
  unfold primarySearch in E.
  destruct (fireLoop now _ _ _ s e _ _ [] now) as [r|] eqn:Er; [|discriminate].
  apply fireLoop_grid in Er; try (apply normalizeMinutes_range); try assumption;
    [|lia|now right|constructor].
  destruct (Nat.eqb (length r) 0).
  - destruct (generateFallbackDates now _ s e _ _ _); discriminate.
  - injection E as <-. exact Er.
Qed.

Lemma window_instants_on_the_grid_witness :
  exists via dates,
    generateFireDatesVia (clock monday 20 0) (ofZ 60) (ofZ (21 * 60)) (ofZ (6 * 60))
      (Some everyDay) None (Some 24) = Some (via, dates) /\
    (via = Primary ->
     Forall (fun t => ((minutesSinceMidnight t - normalizeMinutes (ofZ (21 * 60))) mod 1440)
                        mod saturate 5 180 60 = 0 /\
                      (t mod msPerMinute = 0 \/
                       t mod msPerMinute = (clock monday 20 0) mod msPerMinute))
       dates).
Proof.
  apply (window_instants_on_the_grid (clock monday 20 0) 60 (ofZ (21 * 60)) (ofZ (6 * 60))
           (Some everyDay) None (Some 24)).
  vm_compute. discriminate.
Defined.

(** ** The queue: what is kept *)

Lemma sorted_split {A} (R : A -> A -> Prop) (l1 l2 : list A) :
  StronglySorted R (l1 ++ l2) -> Forall (fun a => Forall (R a) l2) l1.
Proof.
  induction l1 as [|a l1 IH]; cbn; intros H; [constructor|].
  inversion H as [|? ? Hs Ha]; subst. constructor; [|now apply IH].
  apply Forall_app in Ha. apply Ha.
Qed.

(** X14.  The queue holds the earliest entries: its length is the smaller
    of [maxCount] and the number of generated instants; each of its entries
    carries an instant of one of the given rules, later than [now] and not
    past the horizon, with the identifier of that rule as its [scheduleId]
    and the message of that rule as its [message]; and no entry that was
    left out comes before an entry that was kept. *)
Theorem queue_keeps_the_earliest (now : Z) (schedules : list ScheduleRule)
    (maxCount horizonHours : option Z) :
  let mc := orDefault maxCount 50 in
  let hh := orDefault horizonHours 24 in
  exists perRule queue,
    Forall2 (fun schedule dates => datesFor schedule now mc hh = Some dates)
      schedules perRule /\
    buildNotificationQueue now schedules maxCount horizonHours = Some queue /\
    length queue = Nat.min (Z.to_nat mc) (length (taggedDates schedules perRule)) /\
    Forall (fun n =>
              now < Notification.date n <= horizonOf now hh /\
              exists schedule dates,
                In schedule schedules /\ datesFor schedule now mc hh = Some dates /\
                In (Notification.date n) dates /\
                Notification.scheduleId n = id schedule /\
                Notification.message n = message schedule)
      queue /\
    (forall n, In n (taggedDates schedules perRule) -> ~ In n queue ->
               Forall (fun kept => notAfter kept n) queue).
Proof.
  intros mc hh.
  destruct (collect_tagged now mc hh schedules) as (perRule & HF & Hc).
  set (all := taggedDates schedules perRule).
  set (sorted := sort byDate all).
  exists perRule, (firstn (Z.to_nat mc) sorted).
  assert (Hperm : Permutation sorted all) by apply sort_perm.
  destruct (taggedDates_bounds now mc hh schedules perRule HF) as [Hbounds Hneg].
  fold all in Hbounds, Hneg.
  assert (Hsub : forall n, In n (firstn (Z.to_nat mc) sorted) -> In n all).
  { intros n Hn. eapply Permutation_in; [exact Hperm|].
    rewrite <- (firstn_skipn (Z.to_nat mc) sorted). apply in_or_app. now left. }
  split; [exact HF|]. split; [|split; [|split]].
  - unfold buildNotificationQueue. fold mc hh. rewrite Hc. cbn [app]. fold all sorted.
    rewrite slice0_firstn; [reflexivity|].
    intros H. unfold sorted. now rewrite (Hneg H).
  - rewrite length_firstn. f_equal. now apply Permutation_length.
  - apply Forall_forall. intros n Hn. apply Hsub in Hn. split.
    + rewrite Forall_forall in Hbounds. now apply Hbounds.
    + now apply (taggedDates_origin now mc hh schedules perRule HF).
  - intros n Hall Hout.
    assert (Hs : In n sorted) by (eapply Permutation_in; [symmetry; exact Hperm|exact Hall]).
    rewrite <- (firstn_skipn (Z.to_nat mc) sorted) in Hs.
    apply in_app_or in Hs as [Hs|Hs]; [contradiction|].
    pose proof (sort_sorted all) as Hsorted. fold sorted in Hsorted.
    rewrite <- (firstn_skipn (Z.to_nat mc) sorted) in Hsorted.
    apply sorted_split in Hsorted.
    eapply Forall_impl; [|exact Hsorted].
    intros kept Hk. rewrite Forall_forall in Hk. now apply Hk.
Qed.

(** ** One week later *)

Section WeekLater.

Variable k : Z.

Lemma dateAtMinutesRaw_shift c tm :
  dateAtMinutesRaw (c + k * 604800000) tm
  = option_map (fun d => d + k * 604800000) (dateAtMinutesRaw c tm).
Proof.
  destruct tm as [q| | |]; cbn [dateAtMinutesRaw option_map]; try reflexivity.
  f_equal. apply dateAtMinutes_shift.
Qed.

Lemma fixedLoop_shift now horizon maxCount tm days fuel : forall results cursor,
  fixedLoop (now + k * 604800000) (horizon + k * 604800000) maxCount tm days fuel
    (shift (k * 604800000) results) (cursor + k * 604800000)
  = option_map (shift (k * 604800000))
      (fixedLoop now horizon maxCount tm days fuel results cursor).
Proof.
  induction fuel as [|fuel IH]; intros results cursor; cbn [fixedLoop];
    rewrite count_shift;
    replace (cursor + k * 604800000 <=? horizon + k * 604800000)
      with (cursor <=? horizon) by lia;
    destruct ((count results <? maxCount) && (cursor <=? horizon)); try reflexivity.
  rewrite dateAtMinutesRaw_shift, addDays_shift.
  destruct (dateAtMinutesRaw cursor tm) as [d|]; cbn [option_map inRange push].
  - replace (now + k * 604800000 <? d + k * 604800000) with (now <? d) by lia.
    replace (d + k * 604800000 <=? horizon + k * 604800000) with (d <=? horizon) by lia.
    rewrite isDayActive_shift.
    destruct ((now <? d) && (d <=? horizon) && isDayActive d days).
    + rewrite shift_snoc. apply IH.
    + apply IH.
  - apply IH.
Qed.

End WeekLater.

(** X15.  The within-day generator, for an interval of a whole number of
    minutes, and the fixed-time generator repeat weekly: moving [now] by a
    whole number of weeks, forward or back, moves every instant they return
    by as much and changes nothing else. *)
Theorem generators_repeat_weekly (weeks now interval : Z)
    (startMinutesFromMidnight endMinutesFromMidnight : num)
    (daysOfWeek : option (list bool)) (maxCount horizonHours : option Z) :
  generateFireDates (now + weeks * (7 * msPerDay)) (ofZ interval) startMinutesFromMidnight
    endMinutesFromMidnight daysOfWeek maxCount horizonHours
  = option_map (shift (weeks * (7 * msPerDay)))
      (generateFireDates now (ofZ interval) startMinutesFromMidnight
         endMinutesFromMidnight daysOfWeek maxCount horizonHours) /\
  generateFixedTimeDates (now + weeks * (7 * msPerDay)) startMinutesFromMidnight daysOfWeek
    maxCount horizonHours
  = option_map (shift (weeks * (7 * msPerDay)))
      (generateFixedTimeDates now startMinutesFromMidnight daysOfWeek maxCount horizonHours).
Proof.
  change (7 * msPerDay) with 604800000. split.
  - apply generateFireDates_week_shift. rewrite clamp_whole.
    exists (saturate 5 180 interval * 60000). rewrite inject_Z_mult.
    change (inject_Z 60000) with (60 * 1000)%Q. ring.
  - unfold generateFixedTimeDates.
    destruct (negb (existsb (fun b => b) (normalizeDaysOfWeek daysOfWeek))); [reflexivity|].
    rewrite horizonOf_shift, budget_shift, startOfDay_shift.
    change (@nil Z) with (shift (weeks * 604800000) []) at 1.
    apply fixedLoop_shift.
Qed.

(** ** The start of a window search after a jump *)

Lemma alignToInterval_at_start start interval : alignToInterval start start interval = start.
Proof.
  unfold alignToInterval, getTime. rewrite Z.sub_diag.
  change (Z.max 0 (0 / 60000)) with 0.
  assert (E : Qeq_bool (rem (inject_Z 0) interval) 0 = true).
  { apply Qeq_bool_iff. unfold rem.
    assert (T : trunc (inject_Z 0 / interval) = 0).
    { apply trunc_exact. unfold Qdiv. change (inject_Z 0) with 0%Q. ring. }
    rewrite T. change (inject_Z 0) with 0%Q. ring. }
  rewrite E. change 0%Q with (inject_Z 0). rewrite addMinutes_exact. lia.
Qed.

Lemma windowFor_at_opening date s e :
  0 <= s < 1440 -> 0 <= e < 1440 -> s <> e ->
  isWithinWindow date s e (e <? s) = false ->
  w_start (windowFor (nextWindowStart date s e (e <? s)) s e (e <? s))
  = nextWindowStart date s e (e <? s).
Proof.
  intros Hs He Hne Hout.
  destruct (nextWindowStart_after s e Hs He Hne date Hout) as [_ Hin].
  assert (Eo : exists day, nextWindowStart date s e (e <? s) = day * 86400000 + s * 60000 + 0).
  { unfold nextWindowStart. rewrite addDays_eq, dateAtMinutes_eq.
    pose proof (Z.div_mod date 86400000 ltac:(lia)).
    destruct (negb (e <? s));
      [destruct (minutesSinceMidnight date <? s)
      |destruct ((e <=? minutesSinceMidnight date) && (minutesSinceMidnight date <? s))];
      (exists (date / 86400000); lia) || (exists (date / 86400000 + 1); lia). }
  destruct Eo as [day Eo]. rewrite Eo in *.
  pose proof (windowFor_cases day s 0 s e Hs He Hs ltac:(lia) Hin) as Hc.
  cbv zeta in Hc.
  destruct Hc as [(_ & _ & Es & _)|[(_ & _ & Es & _)|(Hsp & Hlt & _)]];
    [rewrite Es; lia|rewrite Es; lia|lia].
Qed.

(** X16.  After a jump the window search starts on the opening itself: the
    window around [nextWindowStart] starts at that instant, and aligning
    that instant to the interval, whatever the interval, leaves it where it
    is. *)
Theorem search_starts_at_the_opening (date startMinutes endMinutes : Z) (interval : Q) :
  0 <= startMinutes < 1440 -> 0 <= endMinutes < 1440 -> startMinutes <> endMinutes ->
  let spansMidnight := endMinutes <? startMinutes in
  isWithinWindow date startMinutes endMinutes spansMidnight = false ->
  let opening := nextWindowStart date startMinutes endMinutes spansMidnight in
  let window := windowFor opening startMinutes endMinutes spansMidnight in
  w_start window = opening /\
  alignToInterval (w_start window) opening interval = opening /\
  opening < w_end window.
Proof.
  intros Hs He Hne spans Hout opening window.
  assert (Es : w_start window = opening) by (now apply windowFor_at_opening).
  split; [exact Es|]. split; [rewrite Es; apply alignToInterval_at_start|].
  apply windowFor_end; try assumption.
  now apply nextWindowStart_after.
Qed.

Lemma search_starts_at_the_opening_witness :
  w_start (windowFor (nextWindowStart (clock monday 20 0) (21 * 60) (6 * 60) true)
             (21 * 60) (6 * 60) true)
  = nextWindowStart (clock monday 20 0) (21 * 60) (6 * 60) true.
Proof.
  apply (search_starts_at_the_opening (clock monday 20 0) (21 * 60) (6 * 60) 60);
    try lia; reflexivity.
Defined.

(** ** The fixed-time instants, day by day *)

Lemma iterates_days n : forall c,
  iterates (fun c => addDays c 1) n c
  = map (fun day => c + Z.of_nat day * 86400000) (seq 0 n).
Proof.
  induction n as [|n IH]; intros c; [reflexivity|].
  cbn [iterates seq map]. f_equal; [lia|].
  rewrite IH, <- seq_shift, map_map, addDays_eq.
  apply map_ext. intros day. lia.
Qed.

Lemma days_beyond (p : Z -> bool) horizon T n : forall c,
  0 <= T -> horizon < c -> (forall t, horizon < t -> p t = false) ->
  filter p (map (fun c => c + T * 60000) (iterates (fun c => addDays c 1) n c)) = [].
Proof.
  induction n as [|n IH]; intros c HT Hc Hp; [reflexivity|].
  cbn [iterates map filter]. rewrite Hp by lia.
  apply IH; [exact HT|rewrite addDays_eq; lia|exact Hp].
Qed.

Lemma fixed_closed now horizon q days n : forall c,
  c mod 86400000 = 0 -> 0 <= trunc q ->
  emitAll (fun c => match dateAtMinutesRaw c (Fin q) with
                    | Some d => if (now <? d) && (d <=? horizon) && isDayActive d days
                                then Some d else None
                    | None => None
                    end)
    (upTo horizon (iterates (fun c => addDays c 1) n c))
  = filter (fun t => (now <? t) && (t <=? horizon) && isDayActive t days)
      (map (fun c => c + trunc q * 60000) (iterates (fun c => addDays c 1) n c)).
Proof.
  induction n as [|n IH]; intros c Hc HT; [reflexivity|].
  destruct (c <=? horizon) eqn:Ch.
  - cbn [iterates upTo]. rewrite Ch. cbn [map filter].
    rewrite emitAll_cons.
    rewrite IH; [|rewrite addDays_eq; Z.div_mod_to_equations; lia|exact HT].
    cbn [dateAtMinutesRaw]. rewrite dateAtMinutes_eq, Hc, Z.sub_0_r.
    destruct ((now <? c + trunc q * 60000) && (c + trunc q * 60000 <=? horizon)
              && isDayActive (c + trunc q * 60000) days); reflexivity.
  - cbn [iterates upTo]. rewrite Ch. cbn [emitAll flat_map].
    symmetry. apply (days_beyond _ horizon (trunc q) (S n) c HT); [lia|].
    intros t Ht. replace (t <=? horizon) with false by lia.
    now rewrite andb_false_r.
Qed.

(** X17.  The fixed-time generator, for a fire time that is a finite
    number of minutes and not negative, is a sweep over the calendar days:
    one candidate a day from the day of [now] on, at that day's midnight plus
    the fire time with its fraction dropped, kept when it is after [now],
    within the horizon and on an active day, up to [maxCount] of them;
    looking at more days than the budget of the loop adds nothing.  The fire
    time is not reduced modulo a day. *)
Theorem fixed_time_is_a_daily_sweep (now : Z) (q : Q) (daysOfWeek : option (list bool))
    (maxCount horizonHours : option Z) (days : nat) :
  0 <= trunc q ->
  (budget now (horizonOf now (orDefault horizonHours 24)) <= days)%nat ->
  generateFixedTimeDates now (Fin q) daysOfWeek maxCount horizonHours
  = Some (dailyInstants now (trunc q) (normalizeDaysOfWeek daysOfWeek)
            (orDefault maxCount 50) (orDefault horizonHours 24) days).
Proof.
  intros HT Hdays. unfold generateFixedTimeDates, dailyInstants.
  set (mc := orDefault maxCount 50).
  set (horizon := horizonOf now (orDefault horizonHours 24)) in *.
  set (mask := normalizeDaysOfWeek daysOfWeek).
  destruct (existsb (fun b => b) mask) eqn:Eany; cbn [negb].
  - rewrite fixedLoop_gen.
    set (start := startOfDay now).
    assert (Hstart : start mod 86400000 = 0 /\ now - 86400000 < start).
    { unfold start. rewrite startOfDay_eq. Z.div_mod_to_equations. lia. }
    assert (Hreach : exists k, (k <= budget now horizon)%nat /\
                               horizon < iterN (fun c => addDays c 1) k start).
    { exists (budget now horizon). split; [lia|].
      apply (budget_reaches now horizon start 86400000 (fun c => addDays c 1)
               (fun _ => True));
        [intros c _; split; [exact I|rewrite addDays_eq; lia]|exact I|lia|lia]. }
    rewrite (genLoop_closed horizon mc _ _ (budget now horizon)); [|exact Hreach|lia].
    cbn [app]. unfold count. cbn [length]. rewrite Z.sub_0_r.
    rewrite <- (upTo_stable _ horizon (budget now horizon) days start Hreach Hdays).
    rewrite fixed_closed by (apply Hstart || exact HT).
    rewrite iterates_days, map_map. unfold msPerDay, msPerMinute. reflexivity.
  - rewrite filter_none; [now rewrite firstn_nil|].
    intros t. rewrite (inactive_everywhere mask t Eany). apply andb_false_r.
Qed.

Lemma fixed_time_is_a_daily_sweep_witness :
  generateFixedTimeDates (clock monday 8 10) (Fin 540) None None None
  = Some (dailyInstants (clock monday 8 10) (trunc 540) (normalizeDaysOfWeek None)
            (orDefault None 50) (orDefault None 24)
            (budget (clock monday 8 10) (horizonOf (clock monday 8 10) (orDefault None 24)))).
Proof.
  apply (fixed_time_is_a_daily_sweep (clock monday 8 10) 540 None None None).
  - vm_compute. discriminate.
  - apply Nat.le_refl.
Defined.

(** ** The first instant *)

Lemma genLoop_prefix horizon maxCount emit next : forall fuel results cursor r,
  genLoop horizon maxCount emit next fuel results cursor = Some r ->
  exists more, r = results ++ more.
Proof.
  induction fuel as [|fuel IH]; intros results cursor r; cbn [genLoop];
    destruct ((count results <? maxCount) && (cursor <=? horizon));
    try discriminate; try (intros [= <-]; exists []; now rewrite app_nil_r).
  intros H. apply IH in H as [more ->].
  destruct (emit cursor) as [x|]; cbn [pushOpt]; [|eauto].
  exists (x :: more). now rewrite <- app_assoc.
Qed.

Lemma fireLoop_prefix now horizon maxCount interval s e days : forall fuel results cursor r,
  fireLoop now horizon maxCount interval s e days fuel results cursor = Some r ->
  exists more, r = results ++ more.
Proof.
  assert (Hnil : forall results : list Z, exists more, results = results ++ more)
    by (intros results; exists []; now rewrite app_nil_r).
  induction fuel as [|fuel IH]; intros results cursor r; cbn [fireLoop];
    destruct ((count results <? maxCount) && (cursor <=? horizon));
    try discriminate; try (intros [= <-]; apply Hnil).
  destruct (s =? e).
  - destruct (horizon <? _); [intros [= <-]; apply Hnil|].
    intros H. apply IH in H as [more ->].
    destruct (isDayActive _ days); [|eauto].
    eexists. now rewrite <- app_assoc.
  - destruct (if negb (isWithinWindow cursor s e (e <? s))
              then if horizon <? nextWindowStart cursor s e (e <? s) then None
                   else Some (nextWindowStart cursor s e (e <? s))
              else Some cursor) as [cursor1|]; [|intros [= <-]; apply Hnil].
    destruct (windowLoop now horizon maxCount interval days _ (S fuel) results _)
      as [r'|] eqn:Ew; [|discriminate].
    rewrite windowLoop_gen in Ew. apply genLoop_prefix in Ew as [more1 ->].
    intros H. apply IH in H as [more2 ->].
    eexists. now rewrite <- app_assoc.
Qed.

Lemma fireLoop_all_day_step now horizon maxCount interval s days fuel cursor :
  0 < maxCount -> cursor <= horizon ->
  fireLoop now horizon maxCount interval s s days (S fuel) [] cursor
  = (let aligned := alignToInterval (startOfDay cursor) cursor interval in
     let candidate := if aligned <=? now then addMinutes aligned interval else aligned in
     if horizon <? candidate then Some []
     else fireLoop now horizon maxCount interval s s days fuel
            (if isDayActive candidate days then [candidate] else [])
            (addMinutes candidate interval)).
Proof.
  intros Hmc Hc. cbn [fireLoop]. unfold count. cbn [length Z.of_nat].
  replace ((0 <? maxCount) && (cursor <=? horizon)) with true by lia.
  rewrite Z.eqb_refl. reflexivity.
Qed.

Lemma some_active mask t : isDayActive t mask = true -> existsb (fun b => b) mask = true.
Proof.
  intros H. destruct (existsb (fun b => b) mask) eqn:E; [reflexivity|].
  now rewrite (inactive_everywhere mask t E) in H.
Qed.

(** The clock after a move by whole minutes. *)
Lemma minutesSinceMidnight_add date minutes :
  minutesSinceMidnight (date + minutes * 60000)
  = (minutesSinceMidnight date + minutes) mod 1440.
Proof.
  rewrite !minutesSinceMidnight_eq.
  pose proof (Z.div_mod date 86400000 ltac:(lia)) as H1.
  pose proof (Z.mod_pos_bound date 86400000 ltac:(lia)) as B1.
  pose proof (Z.div_mod (date mod 86400000) 60000 ltac:(lia)) as H2.
  pose proof (Z.mod_pos_bound (date mod 86400000) 60000 ltac:(lia)) as B2.
  set (M := date mod 86400000 / 60000) in *.
  set (r := (date mod 86400000) mod 60000) in *.
  pose proof (Z.div_mod (M + minutes) 1440 ltac:(lia)) as H3.
  pose proof (Z.mod_pos_bound (M + minutes) 1440 ltac:(lia)) as B3.
  set (N := (M + minutes) mod 1440) in *.
  replace ((date + minutes * 60000) mod 86400000) with (N * 60000 + r).
  - symmetry. apply Z.div_unique with r; lia.
  - apply Z.mod_unique with (date / 86400000 + (M + minutes) / 1440); lia.
Qed.

(** X18.  The first instant of an all-day rule with an interval of [K]
    whole minutes (after clamping) is [now + (K - M mod K)] minutes, [M]
    being the minutes since midnight of [now]: the next point, strictly
    after [now], of the grid of [K] minutes counted from the midnight of the
    day of [now], with the seconds of [now]; no instant between [now] and it
    that has the seconds of [now] is on that grid.  It is returned whenever
    [maxCount] is at least 1, the horizon reaches it and its day is active.
    While it stays on the day of [now] its minutes since midnight are a
    multiple of [K].  When it falls past midnight, as it can when [K] does not
    divide 1440, the grid is not restarted at the new midnight and its
    minutes since midnight are [M + (K - M mod K) - 1440], which need not be
    a multiple of [K]: at 23:55 with 7 minutes the first instant is 00:02. *)
Theorem all_day_first_instant (now k : Z)
    (startMinutesFromMidnight endMinutesFromMidnight : num)
    (daysOfWeek : option (list bool)) (maxCount horizonHours : option Z) :
  let K := saturate 5 180 k in
  let M := minutesSinceMidnight now in
  let first := now + (K - M mod K) * msPerMinute in
  normalizeMinutes startMinutesFromMidnight = normalizeMinutes endMinutesFromMidnight ->
  1 <= orDefault maxCount 50 ->
  first <= horizonOf now (orDefault horizonHours 24) ->
  isDayActive first (normalizeDaysOfWeek daysOfWeek) = true ->
  now < first <= now + K * msPerMinute /\
  first mod msPerMinute = now mod msPerMinute /\
  (M + (K - M mod K)) mod K = 0 /\
  (forall t, now < t < first -> t mod msPerMinute = now mod msPerMinute ->
             (M + (t - now) / msPerMinute) mod K <> 0) /\
  (M + (K - M mod K) < 1440 ->
   minutesSinceMidnight first = M + (K - M mod K) /\
   minutesSinceMidnight first mod K = 0) /\
  (1440 <= M + (K - M mod K) ->
   minutesSinceMidnight first = M + (K - M mod K) - 1440) /\
  exists rest,
    generateFireDates now (ofZ k) startMinutesFromMidnight endMinutesFromMidnight
      daysOfWeek maxCount horizonHours = Some (first :: rest).
Proof.
  intros K M first Hall Hmc Hh Hact.
  pose proof (saturate_range k) as HK. fold K in HK.
  pose proof (Z.mod_pos_bound M K ltac:(lia)) as HM.
  pose proof (Z.div_mod M K ltac:(lia)) as HdM.
  assert (HM1440 : 0 <= M < 1440) by (apply minute_of_day).
  assert (Hfirst : now < first <= now + K * msPerMinute)
    by (unfold first, msPerMinute; lia).
  assert (Hgrid : (M + (K - M mod K)) mod K = 0).
  { symmetry. apply Z.mod_unique with (M / K + 1); lia. }
  assert (Hclock : minutesSinceMidnight first = (M + (K - M mod K)) mod 1440)
    by (unfold first, msPerMinute; apply minutesSinceMidnight_add).
  split; [exact Hfirst|].
  split; [unfold first, msPerMinute; apply minute_multiple_shift|].
  split; [exact Hgrid|].
  split.
  { intros t Ht Hsec. unfold msPerMinute in *.
    pose proof (Z.div_mod t 60000 ltac:(lia)) as Dt.
    pose proof (Z.div_mod now 60000 ltac:(lia)) as Dn.
    set (j := t / 60000 - now / 60000).
    assert (Ej : t - now = j * 60000) by (unfold j; lia).
    rewrite Ej, Z.div_mul by lia.
    assert (Hj : 0 < j < K - M mod K) by (unfold first in Ht; lia).
    intros H0.
    assert (E : (M + j) mod K = M mod K + j)
      by (symmetry; apply Z.mod_unique with (M / K); lia).
    lia. }
  split.
  { intros Hday. rewrite Hclock, Z.mod_small by lia. split; [reflexivity|exact Hgrid]. }
  split.
  { intros Hnext. rewrite Hclock. symmetry. apply Z.mod_unique with 1; lia. }
  destruct (generateFireDatesVia_good now (ofZ k) startMinutesFromMidnight
              endMinutesFromMidnight daysOfWeek maxCount horizonHours)
    as (via & dates & E & _).
  unfold generateFireDates. rewrite E. cbn [option_map snd].
  unfold generateFireDatesVia in E. rewrite clamp_whole, Hall in E. fold K in E.
  rewrite (some_active _ _ Hact) in E. cbn [negb] in E.
  unfold primarySearch, budget in E.
  rewrite fireLoop_all_day_step in E by lia. cbv zeta in E.
  rewrite alignToInterval_whole in E by lia.
  assert (Ea : Z.max 0 ((now - startOfDay now) / 60000) = M).
  { unfold M. rewrite startOfDay_eq, minutesSinceMidnight_eq.
    replace (now - (now - now mod 86400000)) with (now mod 86400000) by lia.
    pose proof (Z.mod_pos_bound now 86400000 ltac:(lia)).
    assert (0 <= now mod 86400000 / 60000) by (apply Z.div_pos; lia). lia. }
  rewrite Ea in E.
  assert (Ecand : (if now + (- M) mod K * 60000 <=? now
                   then addMinutes (now + (- M) mod K * 60000) (inject_Z K)
                   else now + (- M) mod K * 60000) = first).
  { unfold first, msPerMinute.
    destruct (Z.eq_dec (M mod K) 0) as [E0|E0].
    - replace ((- M) mod K) with 0 by (apply Z.mod_unique with (- (M / K)); lia).
      replace (now + 0 * 60000 <=? now) with true by lia.
      rewrite addMinutes_exact, E0. lia.
    - replace ((- M) mod K) with (K - M mod K)
        by (apply Z.mod_unique with (- (M / K) - 1); lia).
      replace (now + (K - M mod K) * 60000 <=? now) with false by lia. reflexivity. }
  rewrite Ecand, Hact in E.
  replace (horizonOf now (orDefault horizonHours 24) <? first) with false in E by lia.
  destruct (fireLoop now _ _ _ _ _ _ _ [first] _) as [r|] eqn:Er; [|discriminate].
  apply fireLoop_prefix in Er as [rest ->]. cbn [app length Nat.eqb] in E.
  injection E as _ <-. now exists rest.
Qed.

(** X18 at 23:55 on a Monday with an interval of 7 minutes: the first
    instant is 00:02 on Tuesday, two minutes past the midnight at which a
    grid counted from midnight would restart. *)
Lemma all_day_first_instant_witness :
  exists rest,
    generateFireDates (clock monday 23 55) (ofZ 7) (ofZ 0) (ofZ 0)
      (Some everyDay) None (Some 24) = Some (clock tuesday 0 2 :: rest).
Proof.
  destruct (all_day_first_instant (clock monday 23 55) 7 (ofZ 0) (ofZ 0)
              (Some everyDay) None (Some 24)) as (_ & _ & _ & _ & _ & _ & H).
  - reflexivity.
  - cbn. lia.
  - vm_compute. discriminate.
  - vm_compute. reflexivity.
  - exact H.
Defined.

Lemma genLoop_step horizon maxCount emit next fuel results cursor :
  genLoop horizon maxCount emit next (S fuel) results cursor
  = if (count results <? maxCount) && (cursor <=? horizon)
    then genLoop horizon maxCount emit next fuel (pushOpt results (emit cursor)) (next cursor)
    else Some results.
Proof. reflexivity. Qed.

Lemma fireLoop_window_step now horizon maxCount interval s e days fuel cursor :
  0 < maxCount -> cursor <= horizon -> s <> e ->
  isWithinWindow cursor s e (e <? s) = false ->
  nextWindowStart cursor s e (e <? s) <= horizon ->
  fireLoop now horizon maxCount interval s e days (S fuel) [] cursor
  = (let opening := nextWindowStart cursor s e (e <? s) in
     let window := windowFor opening s e (e <? s) in
     match windowLoop now horizon maxCount interval days (w_end window) (S fuel) []
             (alignToInterval (w_start window) opening interval) with
     | None => None
     | Some results' =>
         fireLoop now horizon maxCount interval s e days fuel results'
           (addMinutes (w_end window) 1)
     end).
Proof.
  intros Hmc Hc Hne Hout Hh. cbn [fireLoop]. unfold count. cbn [length Z.of_nat].
  replace ((0 <? maxCount) && (cursor <=? horizon)) with true by lia.
  replace (s =? e) with false by lia. rewrite Hout. cbn [negb].
  replace (horizon <? nextWindowStart cursor s e (e <? s)) with false by lia.
  reflexivity.
Qed.

(** X19.  With [now] outside a bounded window, the first instant of the
    within-day generator is the next opening of the window, whatever the
    interval: it is returned whenever [maxCount] is at least 1, the horizon
    reaches the opening and the day of the opening is active. *)
Theorem window_first_instant_is_the_opening (now : Z)
    (intervalMinutes startMinutesFromMidnight endMinutesFromMidnight : num)
    (daysOfWeek : option (list bool)) (maxCount horizonHours : option Z) :
  let startMinutes := normalizeMinutes startMinutesFromMidnight in
  let endMinutes := normalizeMinutes endMinutesFromMidnight in
  let spansMidnight := endMinutes <? startMinutes in
  let opening := nextWindowStart now startMinutes endMinutes spansMidnight in
  startMinutes <> endMinutes ->
  isWithinWindow now startMinutes endMinutes spansMidnight = false ->
  1 <= orDefault maxCount 50 ->
  opening <= horizonOf now (orDefault horizonHours 24) ->
  isDayActive opening (normalizeDaysOfWeek daysOfWeek) = true ->
  exists rest,
    generateFireDates now intervalMinutes startMinutesFromMidnight endMinutesFromMidnight
      daysOfWeek maxCount horizonHours = Some (opening :: rest).
Proof.
  intros s e spans opening Hne Hout Hmc Hh Hact.
  pose proof (normalizeMinutes_range startMinutesFromMidnight) as Hs.
  pose proof (normalizeMinutes_range endMinutesFromMidnight) as He.
  fold s in Hs. fold e in He.
  destruct (nextWindowStart_after s e Hs He Hne now Hout) as [Hlt Hin].
  fold spans opening in Hlt, Hin.
  pose proof (windowFor_at_opening now s e Hs He Hne Hout) as Estart.
  pose proof (windowFor_end s e Hs He Hne opening Hin) as Hend.
  fold spans opening in Estart, Hend.
  destruct (generateFireDatesVia_good now intervalMinutes startMinutesFromMidnight
              endMinutesFromMidnight daysOfWeek maxCount horizonHours)
    as (via & dates & E & _).
  unfold generateFireDates. rewrite E. cbn [option_map snd].
  unfold generateFireDatesVia in E. fold s e in E.
  rewrite (some_active _ _ Hact) in E. cbn [negb] in E.
  unfold primarySearch, budget in E.
  rewrite fireLoop_window_step in E by (assumption || lia). cbv zeta in E.
  fold spans opening in E.
  rewrite Estart, alignToInterval_at_start, windowLoop_gen, genLoop_step in E.
  unfold count in E. cbn [length Z.of_nat] in E.
  replace ((0 <? orDefault maxCount 50)
           && (opening <=? Z.min (horizonOf now (orDefault horizonHours 24))
                             (w_end (windowFor opening s e spans) - 1)))
    with true in E by lia.
  replace (now <? opening) with true in E by lia. rewrite Hact in E.
  cbn [andb pushOpt app] in E.
  destruct (genLoop _ _ _ _ _ [opening] _) as [r'|] eqn:Ew; [|discriminate].
  apply genLoop_prefix in Ew as [more1 ->].
  destruct (fireLoop now _ _ _ _ _ _ _ ([opening] ++ more1) _) as [r|] eqn:Er;
    [|discriminate].
  apply fireLoop_prefix in Er as [more2 ->]. cbn [app length Nat.eqb] in E.
  injection E as _ <-. eauto.
Qed.

Lemma window_first_instant_is_the_opening_witness :
  exists rest,
    generateFireDates (clock monday 20 0) (ofZ 60) (ofZ (21 * 60)) (ofZ (6 * 60))
      (Some everyDay) None (Some 24)
    = Some (nextWindowStart (clock monday 20 0) (normalizeMinutes (ofZ (21 * 60)))
              (normalizeMinutes (ofZ (6 * 60)))
              (normalizeMinutes (ofZ (6 * 60)) <? normalizeMinutes (ofZ (21 * 60)))
            :: rest).
Proof.
  apply (window_first_instant_is_the_opening (clock monday 20 0) (ofZ 60) (ofZ (21 * 60))
           (ofZ (6 * 60)) (Some everyDay) None (Some 24)).
  - vm_compute. discriminate.
  - vm_compute. reflexivity.
  - cbn. lia.
  - vm_compute. discriminate.
  - vm_compute. reflexivity.
Defined.

(** ** A queue of one rule *)

Lemma sort_sorted_id l : StronglySorted notAfter l -> sort byDate l = l.
Proof.
  induction 1 as [|x l Hl IH Hx]; [reflexivity|].
  cbn [sort]. rewrite IH. destruct l as [|y l']; [reflexivity|].
  cbn [insert]. inversion Hx as [|? ? Hxy _]; subst.
  unfold notAfter in Hxy. unfold byDate, getTime.
  now replace (Notification.date x - Notification.date y <=? 0) with true by lia.
Qed.

Lemma tagged_sorted schedule dates :
  StronglySorted Z.lt dates -> StronglySorted notAfter (map (entryOf schedule) dates).
Proof.
  induction 1 as [|d l Hl IH Hd]; cbn [map]; constructor; [exact IH|].
  apply Forall_map. eapply Forall_impl; [|exact Hd].
  intros t Ht. unfold notAfter. cbn. lia.
Qed.

(** X20.  The queue of a single rule is that rule's instants, in the order
    the generator returned them, one entry an instant, with the identifier
    of the rule as [scheduleId] and the message of the rule as [message]: the
    sort and the cap of the queue change nothing.  (For a monthly rule this
    needs a year of [now] from 100 on.) *)
Theorem single_rule_queue (now : Z) (schedule : ScheduleRule)
    (maxCount horizonHours : option Z) :
  100 <= getFullYear now \/ type schedule <> monthly ->
  exists dates,
    datesFor schedule now (orDefault maxCount 50) (orDefault horizonHours 24) = Some dates /\
    buildNotificationQueue now [schedule] maxCount horizonHours
    = Some (map (fun instant => {| Notification.scheduleId := id schedule;
                                   Notification.date := instant;
                                   Notification.message := message schedule |})
              dates).
Proof.
  intros Hmodern.
  destruct (datesFor_good schedule now (orDefault maxCount 50) (orDefault horizonHours 24))
    as (dates & E & _ & Hcount & Hsorted).
  exists dates. split; [exact E|].
  unfold buildNotificationQueue. cbn [collect]. rewrite E. cbn [app].
  change (map (tag schedule) dates) with (map (entryOf schedule) dates).
  change (map (fun instant => {| Notification.scheduleId := id schedule;
                                 Notification.date := instant;
                                 Notification.message := message schedule |}) dates)
    with (map (entryOf schedule) dates).
  rewrite sort_sorted_id by (apply tagged_sorted, Hsorted, Hmodern).
  unfold count in Hcount. f_equal. rewrite slice0_firstn.
  - apply firstn_all2. rewrite length_map. lia.
  - intros Hneg. destruct dates; [reflexivity|]. cbn [length] in Hcount. lia.
Qed.

Lemma single_rule_queue_witness :
  exists dates,
    datesFor (rule daily 60 540 0 None None) (clock monday 8 10)
      (orDefault None 50) (orDefault None 24) = Some dates /\
    buildNotificationQueue (clock monday 8 10) [rule daily 60 540 0 None None] None None
    = Some (map (fun instant =>
                   {| Notification.scheduleId := id (rule daily 60 540 0 None None);
                      Notification.date := instant;
                      Notification.message := message (rule daily 60 540 0 None None) |})
              dates).
Proof.
  apply (single_rule_queue (clock monday 8 10) (rule daily 60 540 0 None None) None None).
  right. discriminate.
Defined.

(** ** The monthly instants on the calendar *)

Lemma sorted_filter {A} (R : A -> A -> Prop) (p : A -> bool) l :
  StronglySorted R l -> StronglySorted R (filter p l).
Proof.
  induction 1 as [|x l Hl IH Hx]; cbn [filter]; [constructor|].
  destruct (p x); [|exact IH]. constructor; [exact IH|].
  rewrite Forall_forall in *. intros y Hy. apply Hx.
  apply filter_In in Hy. apply Hy.
Qed.

Lemma sorted_firstn {A} (R : A -> A -> Prop) n : forall l,
  StronglySorted R l -> StronglySorted R (firstn n l).
Proof.
  induction n as [|n IH]; intros l H; [constructor|].
  destruct H as [|x l Hl Hx]; cbn [firstn]; constructor; [now apply IH|].
  now apply Forall_prefix.
Qed.

Lemma monthsFrom_keys n : forall y m,
  1 <= m <= 12 ->
  Forall (fun ym => 1 <= snd ym <= 12 /\ 12 * y + m <= 12 * fst ym + snd ym)
    (monthsFrom n (y, m)) /\
  StronglySorted (fun a b => 12 * fst a + snd a < 12 * fst b + snd b) (monthsFrom n (y, m)).
Proof.
  induction n as [|n IH]; intros y m Hm; [split; constructor|].
  rewrite monthsFrom_S.
  assert (Hnext : 1 <= snd (nextMonth (y, m)) <= 12 /\
                  12 * fst (nextMonth (y, m)) + snd (nextMonth (y, m)) = 12 * y + m + 1)
    by (unfold nextMonth; destruct (m =? 12) eqn:E; cbn [fst snd]; lia).
  destruct (nextMonth (y, m)) as [y' m']. cbn [fst snd] in Hnext.
  destruct (IH y' m' ltac:(lia)) as [Hr Hs]. split.
  - constructor; [cbn [fst snd]; lia|].
    eapply Forall_impl; [|exact Hr]. intros ym [H1 H2]. split; lia.
  - constructor; [exact Hs|].
    eapply Forall_impl; [|exact Hr]. intros ym [H1 H2]. cbn [fst snd]. lia.
Qed.

Lemma fireInstant_fields dom T y m :
  1 <= m <= 12 -> 1 <= dom -> 0 <= T < 1440 ->
  getFullYear (fireInstant dom T (y, m)) = y /\
  getMonth (fireInstant dom T (y, m)) = m - 1 /\
  getDate (fireInstant dom T (y, m)) = Z.min dom (monthLength y m) /\
  minutesSinceMidnight (fireInstant dom T (y, m)) = T /\
  fireInstant dom T (y, m) mod 60000 = 0.
Proof.
  intros Hm Hdom HT. pose proof (monthLength_bounds y m Hm) as HL.
  unfold fireInstant. rewrite <- monthLength_table by assumption.
  unfold MakeDate, msPerDay, msPerMinute.
  set (d := Z.min dom (monthLength y m)).
  destruct (fields_in_day y m d (T * 60000) Hm) as (Ey & Em & Ed);
    [unfold d; lia|lia|].
  split; [exact Ey|]. split; [exact Em|]. split; [exact Ed|].
  split; [apply minutes_at; lia|].
  replace (days_from_civil y m d * 86400000 + T * 60000)
    with (0 + (days_from_civil y m d * 1440 + T) * 60000) by lia.
  now rewrite Z.mod_add by lia.
Qed.

(** X21.  With [now] in a year from 100 on and a fire time of [m] whole
    minutes, 0 <= m < 1440, every instant of the monthly generator falls on
    the day of the month asked for, or on the last day of its month when the
    month is shorter, at [m] minutes since midnight with the seconds at
    zero; and the instants fall in months that strictly increase, one
    instant a month at most. *)
Theorem monthly_instants_on_the_calendar (now m : Z) (dayOfMonth : num)
    (maxCount horizonHours : option Z) :
  100 <= getFullYear now -> 0 <= m < 1440 ->
  let fireDay := normalizeDayOfMonth (Some dayOfMonth) in
  exists dates,
    generateMonthlyDates now (ofZ m) dayOfMonth maxCount horizonHours = Some dates /\
    Forall (fun t =>
              getDate t = Z.min fireDay (getDaysInMonth (getFullYear t) (getMonth t)) /\
              minutesSinceMidnight t = m /\ t mod msPerMinute = 0) dates /\
    StronglySorted (fun a b => 12 * getFullYear a + getMonth a
                               < 12 * getFullYear b + getMonth b) dates.
Proof.
  intros Hy Hm fireDay.
  pose proof (normalizeDayOfMonth_range (Some dayOfMonth)) as Hdom. fold fireDay in Hdom.
  assert (ET : trunc (inject_Z m) = m) by (now apply trunc_exact).
  eexists. split.
  - unfold ofZ. apply generateMonthlyDates_instants with
      (months := budget now (horizonOf now (orDefault horizonHours 24))); [exact Hy|lia|lia].
  - rewrite ET. fold fireDay. unfold monthlyInstants.
    destruct (firstOfMonth_after now) as (Hm0 & _ & _).
    destruct (monthsFrom_keys (budget now (horizonOf now (orDefault horizonHours 24)))
                (getFullYear now) (getMonth now + 1) Hm0) as [Hkeys Hsorted].
    set (months := monthsFrom _ _) in *.
    assert (Hfields : forall ym, In ym months ->
              getFullYear (fireInstant fireDay m ym) = fst ym /\
              getMonth (fireInstant fireDay m ym) = snd ym - 1 /\
              getDate (fireInstant fireDay m ym) = Z.min fireDay (monthLength (fst ym) (snd ym)) /\
              minutesSinceMidnight (fireInstant fireDay m ym) = m /\
              fireInstant fireDay m ym mod 60000 = 0 /\
              1 <= snd ym <= 12 /\ 100 <= fst ym).
    { intros [y' m'] Hin. rewrite Forall_forall in Hkeys.
      destruct (Hkeys _ Hin) as [Hr Hk]. cbn [fst snd] in *.
      destruct (fireInstant_fields fireDay m y' m' Hr ltac:(lia) Hm) as (A & B & C & D & E).
      repeat split; try assumption; lia. }
    split.
    + apply Forall_prefix. apply Forall_forall. intros t Ht.
      apply filter_In in Ht as [Ht _]. apply in_map_iff in Ht as (ym & <- & Hin).
      destruct (Hfields ym Hin) as (A & B & C & D & E & Hr & Hy').
      rewrite A, B, getDaysInMonth_eq by lia. unfold msPerMinute. auto.
    + apply sorted_firstn, sorted_filter.
      clear Hkeys. induction Hsorted as [|ym l Hl IH Hx]; cbn [map]; [constructor|].
      constructor.
      * apply IH. intros ym' Hin. apply Hfields. now right.
      * apply Forall_map. apply Forall_forall. intros ym' Hin.
        rewrite Forall_forall in Hx. specialize (Hx ym' Hin).
        destruct (Hfields ym (or_introl eq_refl)) as (A & B & _).
        destruct (Hfields ym' (or_intror Hin)) as (A' & B' & _).
        rewrite A, B, A', B'. lia.
Qed.

Lemma monthly_instants_on_the_calendar_witness :
  exists dates,
    generateMonthlyDates (clock feb15 12 0) (ofZ 540) (ofZ 31) None (Some 2000) = Some dates /\
    Forall (fun t =>
              getDate t = Z.min (normalizeDayOfMonth (Some (ofZ 31)))
                            (getDaysInMonth (getFullYear t) (getMonth t)) /\
              minutesSinceMidnight t = 540 /\ t mod msPerMinute = 0) dates /\
    StronglySorted (fun a b => 12 * getFullYear a + getMonth a
                               < 12 * getFullYear b + getMonth b) dates.
Proof.
  apply (monthly_instants_on_the_calendar (clock feb15 12 0) 540 (ofZ 31) None (Some 2000)).
  - vm_compute. discriminate.
  - lia.
Defined.

(** ** Windows and the clock *)

(** X22.  A bounded window and the window with its ends exchanged split
    the day between them: every instant is inside exactly one of the two.
    With equal ends the test is false at every instant, which is why the
    generators treat the all-day rule apart. *)
Theorem window_and_reverse_split_the_day (date startMinutes endMinutes : Z) :
  startMinutes <> endMinutes ->
  isWithinWindow date startMinutes endMinutes (endMinutes <? startMinutes)
  = negb (isWithinWindow date endMinutes startMinutes (startMinutes <? endMinutes)) /\
  isWithinWindow date startMinutes startMinutes (startMinutes <? startMinutes) = false.
Proof.
  intros Hne. unfold isWithinWindow.
  set (minutes := minutesSinceMidnight date). split.
  - destruct (endMinutes <? startMinutes) eqn:E1;
      destruct (startMinutes <? endMinutes) eqn:E2; cbn [negb]; lia.
  - rewrite Z.ltb_irrefl. cbn [negb]. lia.
Qed.

Lemma window_and_reverse_split_the_day_witness :
  isWithinWindow (clock monday 20 0) (21 * 60) (6 * 60) (6 * 60 <? 21 * 60)
  = negb (isWithinWindow (clock monday 20 0) (6 * 60) (21 * 60) (21 * 60 <? 6 * 60)).
Proof.
  apply (window_and_reverse_split_the_day (clock monday 20 0) (21 * 60) (6 * 60)). lia.
Defined.

(** X23.  [addMinutes] by a whole number of minutes, of either sign, moves
    the instant by that many times 60000 milliseconds: the clock moves by as
    many minutes around midnight, the seconds stay, and the opposite move
    undoes it. *)
Theorem addMinutes_on_the_clock (date minutes : Z) :
  addMinutes date (inject_Z minutes) = date + minutes * msPerMinute /\
  minutesSinceMidnight (addMinutes date (inject_Z minutes))
  = (minutesSinceMidnight date + minutes) mod 1440 /\
  addMinutes date (inject_Z minutes) mod msPerMinute = date mod msPerMinute /\
  addMinutes (addMinutes date (inject_Z minutes)) (inject_Z (- minutes)) = date.
Proof.
  unfold msPerMinute. rewrite !addMinutes_exact.
  split; [reflexivity|]. split; [apply minutesSinceMidnight_add|]. split.
  - apply Z.mod_add. lia.
  - lia.
Qed.

(** ** No room, no instants *)

(** X24.  With a cap that is zero or negative, or a horizon of zero hours
    or less, every rule generates the empty list and the queue is empty,
    whatever the rules are. *)
Theorem nothing_without_room (now : Z) (schedules : list ScheduleRule)
    (maxCount horizonHours : Z) :
  maxCount <= 0 \/ horizonHours <= 0 ->
  (forall schedule, datesFor schedule now maxCount horizonHours = Some []) /\
  buildNotificationQueue now schedules (Some maxCount) (Some horizonHours) = Some [].
Proof.
  intros Hroom.
  assert (Hrule : forall schedule, datesFor schedule now maxCount horizonHours = Some []).
  { intros schedule.
    destruct (datesFor_good schedule now maxCount horizonHours)
      as (dates & E & Hbounds & Hcount & _).
    rewrite E. f_equal. destruct dates as [|t dates]; [reflexivity|exfalso].
    inversion Hbounds as [|? ? Ht _]; subst.
    unfold count in Hcount. cbn [length] in Hcount.
    unfold horizonOf, getTime in Ht. lia. }
  split; [exact Hrule|].
  unfold buildNotificationQueue. cbn [orDefault].
  assert (Hcollect : forall rules combined,
            collect rules now maxCount horizonHours combined = Some combined).
  { induction rules as [|schedule rest IH]; intros combined; cbn [collect]; [reflexivity|].
    rewrite Hrule. cbn [map]. rewrite app_nil_r. apply IH. }
  rewrite Hcollect. cbn [sort]. unfold slice0. now rewrite firstn_nil.
Qed.

Lemma nothing_without_room_witness :
  buildNotificationQueue (clock monday 8 10) [rule withinDay 60 0 0 None None]
    (Some 0) (Some 24) = Some [].
Proof.
  apply (nothing_without_room (clock monday 8 10) [rule withinDay 60 0 0 None None] 0 24).
  left. lia.
Defined.
